(** * Session and matching engine of the attendance backend

    A shallow embedding of
      - [backend/teacher/attendance_records.py] (sessions, the attendance
        embedding cache, the [/real-mark] endpoint), and
      - [backend/student/demo_session.py] (the demo embedding cache and
        [find_best_match_optimized]),
    followed by the properties of the engine.

    Conventions.
      - Python floats are IEEE-754 binary64 values: [spec_float] with the
        comparison [SFltb]; [float('inf')] is [S754_infinity false].
        Distances are compared as such values: [float(distance)] gives one
        in the demo matcher, and in [/real-mark] the mean of the stored
        lists is a float64 array; the scoped matcher of the attendance
        cache is read the same way.
      - Python strings are held as their UTF-8 encoding (module [PyStr]);
        lengths and slices count code points.
      - Wall-clock instants ([datetime.now()], [time.time()]) are whole
        seconds in [Z]; their ISO rendering is not modelled.
      - The Supabase tables are lists of rows, in insertion order.  Reads are
        filters, updates map over the matching rows, and the outcome of an
        insert is decided by the table together with an environment queue
        that describes faults and rows written by concurrent requests.
      - Image decoding, face detection, embedding extraction, [np.mean],
        scipy's [cosine] and [round] are external; they are the fields of the
        class [Recognition]. *)

From Stdlib Require Import ZArith String Ascii List Bool Lia.
From Stdlib Require Import Floats.SpecFloat.
From stdpp Require Import gmap strings list pretty.
Import ListNotations.

Local Open Scope string_scope.
Local Open Scope Z_scope.
Local Open Scope list_scope.

(** ** Python values *)

Module PyFloat.

Definition float : Type := spec_float.

(** [float('inf')] *)
Definition inf : float := S754_infinity false.

(** [a < b] on floats; false as soon as one side is NaN. *)
Definition lt (a b : float) : bool := SFltb a b.

(** [a != b] on floats. *)
Definition ne (a b : float) : bool := negb (SFeqb a b).

(** The binary64 value nearest to 0.6 (the default [THRESHOLD]). *)
Definition f0_6 : float := S754_finite false 5404319552844595 (-53).
(** The binary64 value nearest to 0.599999. *)
Definition f0_599999 : float := S754_finite false 5404310545645340 (-53).
Definition f0 : float := S754_zero false.
Definition f1 : float := S754_finite false 4503599627370496 (-52).

End PyFloat.

Module PyStr.

(** A Python string is held as its UTF-8 encoding: a code point below 128
    is one byte, any other is a lead byte (192 and above) followed by
    continuation bytes (128 to 191). *)
Definition continuation (c : ascii) : bool :=
  let n := nat_of_ascii c in (Nat.leb 128 n && Nat.leb n 191)%bool.


(** [c.lower()] on the ASCII range. *)
Definition lower_ascii (c : ascii) : ascii :=
  let n := nat_of_ascii c in
  if (Nat.leb 65 n && Nat.leb n 90)%bool then ascii_of_nat (n + 32) else c.

Definition byte (n : nat) : ascii := ascii_of_nat n.

Definition is_byte (n : nat) (c : ascii) : bool := Nat.eqb (nat_of_ascii c) n.

(** [s.lower()], for the searches of the code, which look for ASCII phrases
    in it.  The capitals A to Z are folded.  Two other code points have an
    ASCII letter in their lower case: U+212A (Kelvin sign, bytes 226 132
    170) gives [k], and U+0130 (capital I with a dot, bytes 196 176) gives
    [i] followed by U+0307 (bytes 204 135).  Every other code point above
    127 has a lower case made of code points above 127 and is kept as it
    is. *)
Fixpoint lower (s : string) : string :=
  match s with
  | EmptyString => EmptyString
  | String c s' =>
      let folded := String (lower_ascii c) (lower s') in
      match s' with
      | String c1 s1 =>
          if is_byte 196 c && is_byte 176 c1
          then String "i" (String (byte 204) (String (byte 135) (lower s1)))
          else
            match s1 with
            | String c2 s2 =>
                if is_byte 226 c && is_byte 132 c1 && is_byte 170 c2
                then String "k" (lower s2)
                else folded
            | EmptyString => folded
            end
      | EmptyString => folded
      end
  end.

(** [needle in hay] *)
Definition contains (needle hay : string) : bool :=
  match String.index 0 needle hay with
  | Some _ => true
  | None => false
  end.

(** [s[:n]]: the first [n] code points. *)
Fixpoint take (n : nat) (s : string) : string :=
  match s with
  | EmptyString => EmptyString
  | String c s' =>
      if continuation c then String c (take n s')
      else match n with
           | O => EmptyString
           | S n' => String c (take n' s')
           end
  end.

(** [c in s] for a character. *)
Fixpoint has (c : ascii) (s : string) : bool :=
  match s with
  | EmptyString => false
  | String c' s' => Ascii.eqb c c' || has c s'
  end.

Definition double_quote : ascii := byte 34.

Definition hex_digit (n : nat) : ascii :=
  default "0"%char (String.get n "0123456789abcdef").

Definition backslash : ascii := byte 92.

(** What [repr] writes for one character inside the quotes. *)
Definition escape (quote c : ascii) : string :=
  let n := nat_of_ascii c in
  let plain (c : ascii) := String c EmptyString in
  if Ascii.eqb c quote || Ascii.eqb c backslash
  then String backslash (plain c)
  else if Nat.eqb n 9 then String backslash "t"
  else if Nat.eqb n 10 then String backslash "n"
  else if Nat.eqb n 13 then String backslash "r"
  else if Nat.ltb n 32 || Nat.eqb n 127
  then String backslash
              (String "x" (String (hex_digit (Nat.div n 16))
                                  (plain (hex_digit (Nat.modulo n 16)))))
  else plain c.

Fixpoint escaped (quote : ascii) (s : string) : string :=
  match s with
  | EmptyString => EmptyString
  | String c s' => escape quote c +:+ escaped quote s'
  end.

(** [repr(s)]: single quotes, or double quotes when [s] has a single quote
    and no double quote; the quote in use, the backslash and the control
    characters are escaped.  Code points above 127 are taken to be
    printable, which [repr] writes as they are. *)
Definition repr (s : string) : string :=
  let quote :=
    if has "'" s && negb (has double_quote s) then double_quote else "'"%char in
  String quote (escaped quote s) +:+ String quote EmptyString.

(** Truthiness of an optional string (None and the empty string are falsy). *)
Definition truthy (o : option string) : bool :=
  match o with
  | Some s => negb (String.eqb s EmptyString)
  | None => false
  end.

(** [x[:n] if x else] the empty string *)
Definition take_or_empty (n : nat) (o : option string) : string :=
  match o with
  | Some s => if String.eqb s EmptyString then EmptyString else take n s
  | None => EmptyString
  end.

End PyStr.

Import PyFloat.

(** ** External capabilities

    Everything the engine consumes from numpy, scipy, PIL, MTCNN and
    DeepFace.  [image_faces] stands for [read_image_from_base64_optimized]
    followed by [detect_faces_optimized]; it yields [None] when one of them
    raises, and [image_error] is the [str] of the exception then.
    [confidence d] stands for [round((1 - d) * 100, 1)] and
    [round4 d] for [round(float(d), 4)]. *)
Class Recognition := {
  embedding : Type;
  face : Type;
  image_faces : string -> option (list face);
  image_error : string -> string;
  face_box : face -> Z * Z * Z * Z;
  extract_embedding_optimized : face -> option embedding;
  np_mean : list embedding -> embedding;
  cosine : embedding -> embedding -> float;
  round4 : float -> float;
  confidence : float -> float
}.

(** ** Tables *)

(** A row of [attendance_sessions].  [sr_id] is the primary key the store
    assigns (a UUID in the deployment, the row number here). *)
Record session_row := {
  sr_id : nat;
  sr_session_id : string;
  sr_subject : string;
  sr_department : string;
  sr_year : string;
  sr_division : string;
  sr_date : option string;
  sr_start_time : option Z;
  sr_end_time : option Z;
  sr_status : string;
  sr_ended_at : option Z
}.

(** A row of [attendance_records]. *)
Record attendance_row := {
  ar_session_id : nat;
  ar_student_id : nat;
  ar_student_enrollment : string;
  ar_student_name : string;
  ar_status : string;
  ar_confidence : float;
  ar_marked_at : Z
}.

(** What an [insert(...).execute()] gives back: the inserted row in
    [result.data], an empty [result.data], or an exception whose [str] is
    the message. *)
Inductive insert_result (A : Type) :=
| Inserted (row : A)
| NoData
| Raised (msg : string).
Arguments Inserted {A} row.
Arguments NoData {A}.
Arguments Raised {A} msg.

(** What goes wrong in the store while an insert is executed, apart from a
    uniqueness conflict. *)
Inductive insert_fault :=
| NoFault
| ReturnsNothing
| Fails (msg : string).

(** The surroundings of one insert into [attendance_records]: the rows that
    concurrent requests write between the caller's last read and its insert,
    and the fault of the insert itself. *)
Record insert_env := {
  ie_race : list attendance_row;
  ie_fault : insert_fault
}.

Definition quiet : insert_env := {| ie_race := []; ie_fault := NoFault |}.

(** The message PostgreSQL gives for a violated uniqueness constraint (the
    name of the constraint, which follows it, is left out). *)
Definition unique_violation : string :=
  "duplicate key value violates unique constraint".

(** Statements sent to the store, in the order they are executed. *)
Inductive db_op :=
| SelectSession (session_id : string)
| SelectRoster (department year division : option string)
| InsertSession (row : session_row)
| UpdateSession (session_id : string)
| SelectMarked (session : nat)
| SelectStudents
| SelectRecord (session : nat) (enrollment : string)
| InsertRecord (row : attendance_row).

Section Engine.

Context {R : Recognition}.

(** A row of [students]; [st_embeddings = None] is SQL NULL. *)
Record student_row := {
  st_id : nat;
  st_student_id : string;
  st_student_name : string;
  st_department : string;
  st_year : string;
  st_division : string;
  st_embeddings : option (list embedding)
}.

(** [current_app.config] *)
Record config := {
  cfg_supabase : bool;
  cfg_models_ready : bool;
  cfg_threshold : float
}.

(** The store, the clock, the pending [threading.Timer]s and the
    environment of the inserts still to come. *)
Record world := {
  w_sessions : list session_row;
  w_records : list attendance_row;
  w_students : list student_row;
  w_unique : bool;
  w_clock : Z;
  w_timers : list (Z * string);
  w_record_env : list insert_env;
  w_session_env : list insert_fault;
  w_log : list db_op
}.

Definition set_sessions (w : world) (l : list session_row) : world :=
  {| w_sessions := l; w_records := w_records w; w_students := w_students w;
     w_unique := w_unique w; w_clock := w_clock w; w_timers := w_timers w;
     w_record_env := w_record_env w; w_session_env := w_session_env w;
     w_log := w_log w |}.

Definition set_records (w : world) (l : list attendance_row) : world :=
  {| w_sessions := w_sessions w; w_records := l; w_students := w_students w;
     w_unique := w_unique w; w_clock := w_clock w; w_timers := w_timers w;
     w_record_env := w_record_env w; w_session_env := w_session_env w;
     w_log := w_log w |}.

Definition set_clock (w : world) (t : Z) : world :=
  {| w_sessions := w_sessions w; w_records := w_records w;
     w_students := w_students w; w_unique := w_unique w; w_clock := t;
     w_timers := w_timers w; w_record_env := w_record_env w;
     w_session_env := w_session_env w; w_log := w_log w |}.

Definition set_timers (w : world) (l : list (Z * string)) : world :=
  {| w_sessions := w_sessions w; w_records := w_records w;
     w_students := w_students w; w_unique := w_unique w;
     w_clock := w_clock w; w_timers := l; w_record_env := w_record_env w;
     w_session_env := w_session_env w; w_log := w_log w |}.

Definition set_record_env (w : world) (l : list insert_env) : world :=
  {| w_sessions := w_sessions w; w_records := w_records w;
     w_students := w_students w; w_unique := w_unique w;
     w_clock := w_clock w; w_timers := w_timers w; w_record_env := l;
     w_session_env := w_session_env w; w_log := w_log w |}.

Definition set_session_env (w : world) (l : list insert_fault) : world :=
  {| w_sessions := w_sessions w; w_records := w_records w;
     w_students := w_students w; w_unique := w_unique w;
     w_clock := w_clock w; w_timers := w_timers w;
     w_record_env := w_record_env w; w_session_env := l;
     w_log := w_log w |}.

Definition set_log (w : world) (l : list db_op) : world :=
  {| w_sessions := w_sessions w; w_records := w_records w;
     w_students := w_students w; w_unique := w_unique w;
     w_clock := w_clock w; w_timers := w_timers w;
     w_record_env := w_record_env w; w_session_env := w_session_env w;
     w_log := l |}.

(** *** The state monad of a request handler *)

Definition M (A : Type) : Type := world -> A * world.

Definition ret {A} (a : A) : M A := fun w => (a, w).

Definition bind {A B} (m : M A) (k : A -> M B) : M B :=
  fun w => let (a, w') := m w in k a w'.

Definition logged (op : db_op) : M unit :=
  fun w => (tt, set_log w (w_log w ++ [op])).

(** [datetime.now()] *)
Definition now : M Z := fun w => (w_clock w, w).

End Engine.

Notation "x <- m ;; k" := (bind m (fun x => k))
  (at level 100, m at next level, right associativity).
Notation "m ;;; k" := (bind m (fun _ => k))
  (at level 100, right associativity).

(** ** Store statements *)

Section StoreStatements.

Context {R : Recognition}.

Definition has_session_id (sid : string) (r : session_row) : bool :=
  String.eqb (sr_session_id r) sid.

(** [table('attendance_sessions').select('*').eq('session_id', sid)] *)
Definition select_session (sid : string) : M (list session_row) :=
  logged (SelectSession sid) ;;;
  fun w => (List.filter (has_session_id sid) (w_sessions w), w).

(** [table('attendance_sessions').update(f).eq('session_id', sid)];
    [result.data] holds the rows after the update. *)
Definition update_session (sid : string) (f : session_row -> session_row)
  : M (list session_row) :=
  logged (UpdateSession sid) ;;;
  fun w =>
    let rows := map (fun r => if has_session_id sid r then f r else r)
                    (w_sessions w) in
    (List.filter (has_session_id sid) rows, set_sessions w rows).

Definition with_key (k : nat) (r : session_row) : session_row :=
  {| sr_id := k; sr_session_id := sr_session_id r;
     sr_subject := sr_subject r; sr_department := sr_department r;
     sr_year := sr_year r; sr_division := sr_division r;
     sr_date := sr_date r; sr_start_time := sr_start_time r;
     sr_end_time := sr_end_time r; sr_status := sr_status r;
     sr_ended_at := sr_ended_at r |}.

(** [table('attendance_sessions').insert(row)] *)
Definition insert_session (row : session_row) : M (insert_result session_row) :=
  logged (InsertSession row) ;;;
  fun w =>
    let fault := hd NoFault (w_session_env w) in
    let w := set_session_env w (tl (w_session_env w)) in
    match fault with
    | NoFault =>
        let row' := with_key (length (w_sessions w)) row in
        (Inserted row', set_sessions w (w_sessions w ++ [row']))
    | ReturnsNothing => (NoData, w)
    | Fails msg => (Raised msg, w)
    end.

Definition optional_eq (filter : option string) (value : string) : bool :=
  match filter with
  | Some v => String.eqb value v
  | None => true
  end.

(** [table('students').select(...)] with an [eq] for every given
    attribute. *)
Definition select_roster (department year division : option string)
  : M (list student_row) :=
  logged (SelectRoster department year division) ;;;
  fun w =>
    (List.filter (fun s => optional_eq department (st_department s)
                           && optional_eq year (st_year s)
                           && optional_eq division (st_division s))
                 (w_students w), w).

(** [table('students').select('*').not_.is_('embeddings', 'null')] *)
Definition select_students : M (list student_row) :=
  logged SelectStudents ;;;
  fun w =>
    (List.filter (fun s => match st_embeddings s with
                           | Some _ => true
                           | None => false
                           end) (w_students w), w).

Definition of_session (session : nat) (r : attendance_row) : bool :=
  Nat.eqb (ar_session_id r) session.

Definition of_pair (session : nat) (enrollment : string)
           (r : attendance_row) : bool :=
  Nat.eqb (ar_session_id r) session
  && String.eqb (ar_student_enrollment r) enrollment.

(** [table('attendance_records').select(...).eq('session_id', session)] *)
Definition select_marked (session : nat) : M (list attendance_row) :=
  logged (SelectMarked session) ;;;
  fun w => (List.filter (of_session session) (w_records w), w).

(** [... .eq('session_id', session).eq('student_enrollment', enrollment)] *)
Definition select_record (session : nat) (enrollment : string)
  : M (list attendance_row) :=
  logged (SelectRecord session enrollment) ;;;
  fun w => (List.filter (of_pair session enrollment) (w_records w), w).

(** The table after the store has served one insert without a fault: with
    a uniqueness constraint on (session, enrollment) a second row for a
    pair is refused. *)
Definition store_put (unique : bool) (rows : list attendance_row)
           (r : attendance_row) : list attendance_row :=
  if unique && existsb (of_pair (ar_session_id r) (ar_student_enrollment r)) rows
  then rows
  else rows ++ [r].

(** [table('attendance_records').insert(row)].  The rows of concurrent
    requests reach the table first; then the constraint, if there is one,
    and the fault decide. *)
Definition insert_record (row : attendance_row)
  : M (insert_result attendance_row) :=
  logged (InsertRecord row) ;;;
  fun w =>
    let env := hd quiet (w_record_env w) in
    let w := set_record_env w (tl (w_record_env w)) in
    let rows := fold_left (store_put (w_unique w)) (ie_race env) (w_records w) in
    let w := set_records w rows in
    if w_unique w
       && existsb (of_pair (ar_session_id row) (ar_student_enrollment row)) rows
    then (Raised unique_violation, w)
    else match ie_fault env with
         | NoFault => (Inserted row, set_records w (rows ++ [row]))
         | ReturnsNothing => (NoData, w)
         | Fails msg => (Raised msg, w)
         end.

End StoreStatements.

(** ** Session manager ([create_session], [get_session_status],
       [end_session], [auto_close_session]) *)

(** The [duration_minutes] field of the request body: missing, something
    [int] accepts, or something [int] raises on. *)
Inductive duration_field :=
| DurationMissing
| DurationInt (n : Z)
| DurationInvalid.

Record create_request := {
  cr_date : option string;
  cr_subject : option string;
  cr_department : option string;
  cr_year : option string;
  cr_division : option string;
  cr_duration_minutes : duration_field
}.

Record roster_entry := {
  re_student_id : string;
  re_student_name : string;
  re_present : bool;
  re_marked_at : option Z
}.

(** The [session_doc] returned to the caller. *)
Record session_doc := {
  sd_session_id : string;
  sd_date : option string;
  sd_subject : option string;
  sd_department : option string;
  sd_year : option string;
  sd_division : option string;
  sd_duration_minutes : Z;
  sd_created_at : Z;
  sd_scheduled_end_time : Z;
  sd_finalized : bool;
  sd_ended_at : option Z;
  sd_students : list roster_entry
}.

Inductive response :=
| Error (code : Z) (error : string)
| Created (session : session_doc) (message : string)
| Ended
| Status (session_id status : string) (remaining_minutes : Z)
         (scheduled_end_time : option Z).

Section SessionManager.

Context {R : Recognition}.

(** [int(data.get("duration_minutes", 20))] *)
Definition int_duration (f : duration_field) : option Z :=
  match f with
  | DurationMissing => Some 20
  | DurationInt n => Some n
  | DurationInvalid => None
  end.

Definition if_truthy (o : option string) : option string :=
  if PyStr.truthy o then o else None.

Definition is_set {A : Type} (o : option A) : bool :=
  match o with Some _ => true | None => false end.

(** Timers are kept in firing order. *)
Fixpoint schedule (tm : Z * string) (l : list (Z * string))
  : list (Z * string) :=
  match l with
  | [] => [tm]
  | x :: l' => if fst x <=? fst tm then x :: schedule tm l' else tm :: l
  end.

(** [threading.Timer(seconds, auto_close_session, args=[session_id, ...]).start()] *)
Definition start_timer (seconds : Z) (session_id : string) : M unit :=
  fun w => (tt, set_timers w (schedule (w_clock w + seconds, session_id)
                                       (w_timers w))).

Definition close_by_timer (t : Z) (r : session_row) : session_row :=
  {| sr_id := sr_id r; sr_session_id := sr_session_id r;
     sr_subject := sr_subject r; sr_department := sr_department r;
     sr_year := sr_year r; sr_division := sr_division r;
     sr_date := sr_date r; sr_start_time := sr_start_time r;
     sr_end_time := sr_end_time r; sr_status := "ended";
     sr_ended_at := Some t |}.

(** [update({'status': 'ended', 'ended_at': now})] for the session. *)
Definition auto_close_session (session_id : string) : M unit :=
  t <- now ;;
  update_session session_id (close_by_timer t) ;;;
  ret tt.

Definition roster_of (s : student_row) : roster_entry :=
  {| re_student_id := st_student_id s; re_student_name := st_student_name s;
     re_present := false; re_marked_at := None |}.

Definition create_session (cfg : config) (data : create_request) : M response :=
  if negb (cfg_supabase cfg) then ret (Error 500 "Database connection error")
  else
    match int_duration (cr_duration_minutes data) with
    | None => ret (Error 500 "Internal server error")
    | Some duration_minutes =>
        if (duration_minutes <? 5) || (duration_minutes >? 120)
        then ret (Error 400 "Duration must be between 5-120 minutes")
        else
          start_time <- now ;;
          let end_time := start_time + duration_minutes * 60 in
          let department := if_truthy (cr_department data) in
          let year := if_truthy (cr_year data) in
          let division := if_truthy (cr_division data) in
          students <- (if is_set department || is_set year || is_set division
                       then select_roster department year division
                       else ret []) ;;
          stamp <- now ;;
          let session_id := "session_" +:+ pretty stamp in
          let session_data :=
            {| sr_id := 0;
               sr_session_id := session_id;
               sr_subject := PyStr.take_or_empty 50 (cr_subject data);
               sr_department := PyStr.take_or_empty 50 (cr_department data);
               sr_year := PyStr.take_or_empty 20 (cr_year data);
               sr_division := PyStr.take_or_empty 10 (cr_division data);
               sr_date := cr_date data;
               sr_start_time := Some start_time;
               sr_end_time := Some end_time;
               sr_status := "active";
               sr_ended_at := None |} in
          result <- insert_session session_data ;;
          match result with
          | Inserted _ =>
              start_timer (duration_minutes * 60) session_id ;;;
              ret (Created
                     {| sd_session_id := session_id;
                        sd_date := cr_date data;
                        sd_subject := cr_subject data;
                        sd_department := cr_department data;
                        sd_year := cr_year data;
                        sd_division := cr_division data;
                        sd_duration_minutes := duration_minutes;
                        sd_created_at := start_time;
                        sd_scheduled_end_time := end_time;
                        sd_finalized := false;
                        sd_ended_at := None;
                        sd_students := map roster_of students |}
                     ("Session created with "
                        +:+ pretty (Z.of_nat (length students))
                        +:+ " students, auto-close in "
                        +:+ pretty duration_minutes +:+ " minutes"))
          | NoData =>
              ret (Error 500 "Failed to save session: Failed to create session in database")
          | Raised msg =>
              ret (Error 500 ("Failed to save session: " +:+ msg))
          end
    end.

Definition expire (r : session_row) : session_row :=
  {| sr_id := sr_id r; sr_session_id := sr_session_id r;
     sr_subject := sr_subject r; sr_department := sr_department r;
     sr_year := sr_year r; sr_division := sr_division r;
     sr_date := sr_date r; sr_start_time := sr_start_time r;
     sr_end_time := sr_end_time r; sr_status := "ended";
     sr_ended_at := sr_ended_at r |}.

(** [max(0, int(remaining_time.total_seconds() / 60))] *)
Definition remaining (deadline current : Z) : Z :=
  Z.max 0 (Z.quot (deadline - current) 60).

(** The body shared by the two branches of [get_session_status]: close the
    session when its deadline has passed and it is still active. *)
Definition status_at (session_id : string) (session : session_row)
           (deadline : Z) : M (string * Z) :=
  current_time <- now ;;
  if (deadline <=? current_time) && String.eqb (sr_status session) "active"
  then
    update_session session_id expire ;;;
    ret ("ended", 0)
  else ret (sr_status session, remaining deadline current_time).

Definition get_session_status (cfg : config) (session_id : string) : M response :=
  if negb (cfg_supabase cfg) then ret (Error 500 "Database connection error")
  else
    rows <- select_session session_id ;;
    match rows with
    | [] => ret (Error 404 "Session not found")
    | session :: _ =>
        sr <- match sr_end_time session with
              | Some scheduled_end_time =>
                  status_at session_id session scheduled_end_time
              | None =>
                  match sr_start_time session with
                  | Some start_time =>
                      status_at session_id session (start_time + 20 * 60)
                  | None => ret (sr_status session, 0)
                  end
              end ;;
        ret (Status session_id (fst sr) (snd sr) (sr_end_time session))
    end.

Definition close_by_hand (t : Z) (r : session_row) : session_row :=
  {| sr_id := sr_id r; sr_session_id := sr_session_id r;
     sr_subject := sr_subject r; sr_department := sr_department r;
     sr_year := sr_year r; sr_division := sr_division r;
     sr_date := sr_date r; sr_start_time := sr_start_time r;
     sr_end_time := Some t; sr_status := "ended";
     sr_ended_at := sr_ended_at r |}.

Definition end_session (cfg : config) (session_id : option string) : M response :=
  match if_truthy session_id with
  | None => ret (Error 400 "Missing session_id")
  | Some session_id =>
      if negb (cfg_supabase cfg) then ret (Error 500 "Database connection error")
      else
        t <- now ;;
        rows <- update_session session_id (close_by_hand t) ;;
        match rows with
        | [] => ret (Error 404 "Session not found")
        | _ => ret Ended
        end
  end.

(** *** The timer threads *)

(** Run the timers that are due at [t], each at its own firing time. *)
Fixpoint fire_due (t : Z) (timers : list (Z * string)) (w : world)
  : list (Z * string) * world :=
  match timers with
  | [] => ([], w)
  | (at_time, session_id) :: rest =>
      if at_time <=? t
      then
        let w1 := set_clock w (Z.max (w_clock w) at_time) in
        fire_due t rest (snd (auto_close_session session_id w1))
      else (timers, w)
  end.

(** Let the clock reach [t]. *)
Definition advance_to (t : Z) (w : world) : world :=
  let (pending, w1) := fire_due t (w_timers w) w in
  set_clock (set_timers w1 pending) (Z.max (w_clock w1) t).

End SessionManager.

(** ** Matching over cached embeddings *)

(** A store handle as a cache sees it: its rows, or the message of the
    exception every query on it raises. *)
Inductive handle (A : Type) :=
| Reachable (rows : list A)
| Unreachable (msg : string).
Arguments Reachable {A} rows.
Arguments Unreachable {A} msg.

(** A call that returns, or lets an exception out. *)
Inductive outcome (A : Type) :=
| Returns (a : A)
| Propagates (msg : string).
Arguments Returns {A} a.
Arguments Propagates {A} msg.

Section Matching.

Context {R : Recognition}.

(** The scan shared by the three matching loops: the first candidate with
    the least distance wins, starting from no candidate at infinity. *)
Fixpoint scan {T : Type} (embedding_of : T -> embedding) (query : embedding)
         (candidates : list T) (best : option T) (min_distance : float)
  : option T * float :=
  match candidates with
  | [] => (best, min_distance)
  | c :: rest =>
      let distance := cosine query (embedding_of c) in
      if lt distance min_distance
      then scan embedding_of query rest (Some c) distance
      else scan embedding_of query rest best min_distance
  end.

(** [best_match if min_distance < threshold else None, min_distance] *)
Definition accept {T : Type} (threshold : float) (r : option T * float)
  : option T * float :=
  (if lt (snd r) threshold then fst r else None, snd r).

(** *** [demo_session.py]: [EmbeddingCache], [find_best_match_optimized] *)

Record cached_student := {
  cs_embedding : embedding;
  cs_studentId : string;
  cs_studentName : string
}.

Record EmbeddingCache := {
  student_embeddings : option (list cached_student);
  last_update : Z
}.

Definition EmbeddingCache_init : EmbeddingCache :=
  {| student_embeddings := None; last_update := 0 |}.

(** [EmbeddingCache.cache_duration] *)
Definition demo_cache_duration : Z := 300.

Definition demo_stale (current_time : Z) (c : EmbeddingCache) : bool :=
  match student_embeddings c with
  | None => true
  | Some _ => current_time - last_update c >? demo_cache_duration
  end.

Definition cache_student (s : student_row) : list cached_student :=
  match st_embeddings s with
  | Some (e :: l) =>
      [{| cs_embedding := np_mean (e :: l);
          cs_studentId := st_student_id s;
          cs_studentName := st_student_name s |}]
  | _ => []
  end.

Definition with_embeddings (s : student_row) : bool :=
  match st_embeddings s with Some _ => true | None => false end.

Definition get_embeddings (current_time : Z) (supabase : handle student_row)
           (c : EmbeddingCache) : list cached_student * EmbeddingCache :=
  if demo_stale current_time c
  then
    match supabase with
    | Reachable table =>
        match List.filter with_embeddings table with
        | [] => ([], {| student_embeddings := Some [];
                        last_update := last_update c |})
        | data =>
            let fresh := flat_map cache_student data in
            (fresh, {| student_embeddings := Some fresh;
                       last_update := current_time |})
        end
    | Unreachable _ =>
        match student_embeddings c with
        | None => ([], {| student_embeddings := Some [];
                          last_update := last_update c |})
        | Some kept => (kept, c)
        end
    end
  else (default [] (student_embeddings c), c).

Definition find_best_match_optimized (query_embedding : embedding)
           (current_time : Z) (supabase : handle student_row)
           (threshold : float) (c : EmbeddingCache)
  : (option cached_student * float) * EmbeddingCache :=
  let (cached_embeddings, c') := get_embeddings current_time supabase c in
  match cached_embeddings with
  | [] => ((None, inf), c')
  | _ => (accept threshold
            (scan cs_embedding query_embedding cached_embeddings None inf), c')
  end.

(** *** [attendance_records.py]: [AttendanceEmbeddingCache],
        [find_best_match_optimized_attendance] *)

(** The value under [embeddings] or [embedding] in a student document: a
    list of vectors, or one vector (of the model's dimension, so never
    empty). *)
Inductive stored :=
| Vectors (l : list embedding)
| Vector (v : embedding).

Record student_doc := {
  d_studentId : string;
  d_studentName : string;
  d_department : string;
  d_year : string;
  d_division : string;
  d_embeddings : option stored;
  d_embedding : option stored
}.

(** The filter [{"embeddings": {"$exists": True, "$ne": None}, ...}] with
    its optional equalities. *)
Record student_filter := {
  sf_department : option string;
  sf_year : option string;
  sf_division : option string
}.

Record cached_session_student := {
  css_embedding : embedding;
  css_studentId : string;
  css_studentName : string;
  css_department : string;
  css_year : string;
  css_division : string
}.

Record AttendanceEmbeddingCache := {
  cached_embeddings : gmap string (list cached_session_student);
  last_updates : gmap string Z
}.

Definition AttendanceEmbeddingCache_init : AttendanceEmbeddingCache :=
  {| cached_embeddings := ∅; last_updates := ∅ |}.

(** [AttendanceEmbeddingCache.cache_duration] *)
Definition cache_duration : Z := 600.

Definition item (key : string) (value : option string) : list string :=
  match value with
  | Some v => ["('" +:+ key +:+ "', " +:+ PyStr.repr v +:+ ")"]
  | None => []
  end.

Fixpoint join (l : list string) : string :=
  match l with
  | [] => EmptyString
  | [s] => s
  | s :: l' => s +:+ ", " +:+ join l'
  end.

(** [str(sorted(session_filter.items()))] *)
Definition cache_key (f : student_filter) : string :=
  "[" +:+ join (item "department" (sf_department f)
                ++ item "division" (sf_division f)
                ++ ["('embeddings', {'$exists': True, '$ne': None})"]
                ++ item "year" (sf_year f)) +:+ "]".

(** [students_col.find(session_filter)] *)
Definition matches (f : student_filter) (d : student_doc) : bool :=
  is_set (d_embeddings d)
  && optional_eq (sf_department f) (d_department d)
  && optional_eq (sf_year f) (d_year d)
  && optional_eq (sf_division f) (d_division d).

Definition nonempty_stored (o : option stored) : option stored :=
  match o with
  | Some (Vectors []) => None
  | _ => o
  end.

(** [student.get('embeddings') or student.get('embedding')] *)
Definition embeddings_of (d : student_doc) : option stored :=
  match nonempty_stored (d_embeddings d) with
  | Some s => Some s
  | None => nonempty_stored (d_embedding d)
  end.

Definition cache_doc (d : student_doc) : list cached_session_student :=
  match embeddings_of d with
  | Some s =>
      [{| css_embedding := match s with
                           | Vectors l => np_mean l
                           | Vector v => v
                           end;
          css_studentId := d_studentId d;
          css_studentName := d_studentName d;
          css_department := d_department d;
          css_year := d_year d;
          css_division := d_division d |}]
  | None => []
  end.

Definition stale (current_time : Z) (key : string)
           (c : AttendanceEmbeddingCache) : bool :=
  match cached_embeddings c !! key with
  | None => true
  | Some _ => current_time - default 0 (last_updates c !! key) >? cache_duration
  end.

Definition get_session_embeddings (current_time : Z)
           (students_col : handle student_doc) (session_filter : student_filter)
           (c : AttendanceEmbeddingCache)
  : outcome (list cached_session_student) * AttendanceEmbeddingCache :=
  let key := cache_key session_filter in
  if stale current_time key c
  then
    match students_col with
    | Reachable docs =>
        let students := List.filter (matches session_filter) docs in
        let session_embeddings := flat_map cache_doc students in
        (Returns session_embeddings,
         {| cached_embeddings := <[key := session_embeddings]> (cached_embeddings c);
            last_updates := <[key := current_time]> (last_updates c) |})
    | Unreachable msg => (Propagates msg, c)
    end
  else (Returns (default [] (cached_embeddings c !! key)), c).

Definition nonempty (s : string) : option string :=
  if String.eqb s EmptyString then None else Some s.

(** The filter [find_best_match_optimized_attendance] builds from the
    session. *)
Definition session_scope (session_doc : session_row) : student_filter :=
  {| sf_department := nonempty (sr_department session_doc);
     sf_year := nonempty (sr_year session_doc);
     sf_division := nonempty (sr_division session_doc) |}.

Definition find_best_match_optimized_attendance (query_embedding : embedding)
           (current_time : Z) (students_col : handle student_doc)
           (session_doc : session_row) (threshold : float)
           (c : AttendanceEmbeddingCache)
  : outcome (option cached_session_student * float) * AttendanceEmbeddingCache :=
  let student_filter := session_scope session_doc in
  match get_session_embeddings current_time students_col student_filter c with
  | (Propagates msg, c') => (Propagates msg, c')
  | (Returns [], c') => (Returns (None, inf), c')
  | (Returns cached, c') =>
      (Returns (accept threshold
                  (scan css_embedding query_embedding cached None inf)), c')
  end.

End Matching.

(** ** The [/real-mark] endpoint *)

Record mark_request := {
  mr_session_id : option string;
  mr_image : option string
}.

(** The [status] of a face in the response: [marked_present], [duplicate],
    [no_match] or [error]. *)
Inductive face_status :=
| MarkedPresent
| Duplicate
| NoMatch
| FaceError.

(** Which branch produced the entry (its message and its flag). *)
Inductive detail :=
| EmbeddingFailed
| DuplicateDetection (marked_at : option Z)
| RaceConditionPrevented
| FirstTimeMarking (marked_at : Z)
| InsertionFailed
| ConstraintViolation
| DatabaseError (msg : string)
| NotRecognized.

Record face_result := {
  fr_match : option (string * string);
  fr_distance : option float;
  fr_confidence : option float;
  fr_box : Z * Z * Z * Z;
  fr_already_marked : option bool;
  fr_status : face_status;
  fr_detail : detail
}.

Record summary := {
  total_faces : Z;
  successful_markings : Z;
  duplicate_attempts : Z;
  no_matches : Z
}.

(** The answers of [/real-mark]: an error body with its HTTP status; the
    success body with the message [No faces detected] and an empty [faces]
    list; the success body with one entry per face and the [summary]. *)
Inductive mark_response :=
| MarkError (code : Z) (error : string)
| NoFacesDetected
| Marked (session_id : string) (faces : list face_result) (totals : summary).

(** A value of the dictionary [already_present_students]. *)
Record marked_info := {
  mi_name : string;
  mi_marked_at : option Z
}.

Definition is_status (s : face_status) (r : face_result) : bool :=
  match s, fr_status r with
  | MarkedPresent, MarkedPresent | Duplicate, Duplicate
  | NoMatch, NoMatch | FaceError, FaceError => true
  | _, _ => false
  end.

(** The test of the [except] branch on [str(db_error).lower()]. *)
Definition constraint_message (msg : string) : bool :=
  PyStr.contains "duplicate key" (PyStr.lower msg)
  || PyStr.contains "unique constraint" (PyStr.lower msg).

Section RealMark.

Context {R : Recognition}.

(** [student.get("embeddings", [])] is non-empty. *)
Definition usable (s : student_row) : bool :=
  match st_embeddings s with
  | Some (_ :: _) => true
  | _ => false
  end.

(** [np.mean(stored_embeddings, axis=0)] *)
Definition avg_embedding (s : student_row) : embedding :=
  np_mean (default [] (st_embeddings s)).

(** The inner loop over [students]: best student and least distance. *)
Definition nearest (emb : embedding) (students : list student_row)
  : option student_row * float :=
  scan avg_embedding emb (List.filter usable students) None inf.

Definition matched (emb : embedding) (students : list student_row)
           (threshold : float) : option student_row * float :=
  accept threshold (nearest emb students).

Definition entry (best : student_row) (min_d : float) (f : face)
           (already : bool) (status : face_status) (d : detail) : face_result :=
  {| fr_match := Some (st_student_id best, st_student_name best);
     fr_distance := Some (round4 min_d);
     fr_confidence := Some (confidence min_d);
     fr_box := face_box f;
     fr_already_marked := Some already;
     fr_status := status;
     fr_detail := d |}.

(** The dictionary [attendance_record] that is inserted. *)
Definition attendance_record (session_doc : session_row) (best : student_row)
           (min_d : float) (marked_at : Z) : attendance_row :=
  {| ar_session_id := sr_id session_doc;
     ar_student_id := st_id best;
     ar_student_enrollment := st_student_id best;
     ar_student_name := st_student_name best;
     ar_status := "present";
     ar_confidence := confidence min_d;
     ar_marked_at := marked_at |}.

(** What the [try] block and its [except] make of the insert. *)
Definition settle (best : student_row) (min_d : float) (f : face)
           (already : gmap string marked_info) (marked_at : Z)
           (insert_result : insert_result attendance_row)
  : face_result * gmap string marked_info :=
  match insert_result with
  | Inserted _ =>
      (entry best min_d f false MarkedPresent (FirstTimeMarking marked_at),
       <[st_student_id best := {| mi_name := st_student_name best;
                                  mi_marked_at := Some marked_at |}]> already)
  | NoData =>
      (entry best min_d f false FaceError InsertionFailed, already)
  | Raised db_error =>
      if constraint_message db_error
      then (entry best min_d f true Duplicate ConstraintViolation, already)
      else (entry best min_d f false FaceError (DatabaseError db_error),
            already)
  end.

(** The duplicate guard and the insert for a face matched to [best]. *)
Definition claim (session_doc : session_row) (best : student_row)
           (min_d : float) (f : face) (already : gmap string marked_info)
  : M (face_result * gmap string marked_info) :=
  let student_id := st_student_id best in
  match already !! student_id with
  | Some existing_record =>
      ret (entry best min_d f true Duplicate
             (DuplicateDetection (mi_marked_at existing_record)), already)
  | None =>
      final_check <- select_record (sr_id session_doc) student_id ;;
      match final_check with
      | _ :: _ =>
          ret (entry best min_d f true Duplicate RaceConditionPrevented, already)
      | [] =>
          marked_at <- now ;;
          insert_result <-
            insert_record (attendance_record session_doc best min_d marked_at) ;;
          ret (settle best min_d f already marked_at insert_result)
      end
  end.

(** One iteration of [for f in faces]. *)
Definition process_face (session_doc : session_row)
           (students : list student_row) (threshold : float) (f : face)
           (already : gmap string marked_info)
  : M (face_result * gmap string marked_info) :=
  match extract_embedding_optimized f with
  | None =>
      ret ({| fr_match := None; fr_distance := None; fr_confidence := None;
              fr_box := face_box f; fr_already_marked := None;
              fr_status := FaceError; fr_detail := EmbeddingFailed |},
           already)
  | Some emb =>
      match matched emb students threshold with
      | (Some best, min_d) => claim session_doc best min_d f already
      | (None, min_d) =>
          let finite := ne min_d inf in
          ret ({| fr_match := None;
                  fr_distance := if finite then Some (round4 min_d) else None;
                  fr_confidence := if finite then Some (confidence min_d) else None;
                  fr_box := face_box f; fr_already_marked := None;
                  fr_status := NoMatch; fr_detail := NotRecognized |},
               already)
      end
  end.

Fixpoint process_faces (session_doc : session_row)
         (students : list student_row) (threshold : float)
         (faces : list face) (already : gmap string marked_info)
  : M (list face_result) :=
  match faces with
  | [] => ret []
  | f :: rest =>
      ra <- process_face session_doc students threshold f already ;;
      results <- process_faces session_doc students threshold rest (snd ra) ;;
      ret (fst ra :: results)
  end.

(** The dictionary built from the records already stored for the
    session. *)
Definition already_present (marked : list attendance_row)
  : gmap string marked_info :=
  fold_left (fun m record =>
               <[ar_student_enrollment record :=
                   {| mi_name := ar_student_name record;
                      mi_marked_at := Some (ar_marked_at record) |}]> m)
            marked ∅.

Definition count_status (s : face_status) (results : list face_result) : Z :=
  Z.of_nat (length (List.filter (is_status s) results)).

Definition summarize (faces : list face) (results : list face_result) : summary :=
  let successful := count_status MarkedPresent results in
  let duplicates := count_status Duplicate results in
  {| total_faces := Z.of_nat (length faces);
     successful_markings := successful;
     duplicate_attempts := duplicates;
     no_matches := Z.of_nat (length faces) - successful - duplicates |}.

Definition mark_attendance_with_duplicate_prevention (cfg : config)
           (data : mark_request) : M mark_response :=
  if negb (cfg_models_ready cfg)
  then ret (MarkError 503 "Face recognition models not initialized")
  else if negb (cfg_supabase cfg)
  then ret (MarkError 500 "Database connection error")
  else
    match if_truthy (mr_session_id data), if_truthy (mr_image data) with
    | Some session_id, Some image_b64 =>
        match image_faces image_b64 with
        | None =>
            ret (MarkError 500 ("Attendance marking failed: "
                                +:+ image_error image_b64))
        | Some [] => ret NoFacesDetected
        | Some faces =>
            session_result <- select_session session_id ;;
            match session_result with
            | [] => ret (MarkError 404 "Session not found")
            | session_doc :: _ =>
                if negb (String.eqb (sr_status session_doc) "active")
                then ret (MarkError 400 "Session is not active")
                else
                  marked_result <- select_marked (sr_id session_doc) ;;
                  let already_present_students := already_present marked_result in
                  students <- select_students ;;
                  results <- process_faces session_doc students
                               (cfg_threshold cfg) faces
                               already_present_students ;;
                  ret (Marked session_id results (summarize faces results))
            end
        end
    | _, _ => ret (MarkError 400 "Missing session_id or image")
    end.

End RealMark.

(** The statuses of the faces in a response. *)
Definition statuses (r : mark_response) : list face_status :=
  match r with
  | Marked _ faces _ => map fr_status faces
  | _ => []
  end.

(** The statement is an insert of a record for the enrollment id. *)
Definition inserts_for (id : string) (op : db_op) : bool :=
  match op with
  | InsertRecord row => String.eqb (ar_student_enrollment row) id
  | _ => false
  end.

(** ** The engine as a transition system *)

(** What can happen to the engine: a request to one of its endpoints, or
    the passage of time up to an instant (which runs the timers due). *)
Inductive operation :=
| CreateSession (data : create_request)
| EndSession (session_id : option string)
| GetStatus (session_id : string)
| SubmitMatch (data : mark_request)
| Elapse (t : Z).

Section Transitions.

Context {R : Recognition}.

Definition run (cfg : config) (op : operation) (w : world) : world :=
  match op with
  | CreateSession data => snd (create_session cfg data w)
  | EndSession session_id => snd (end_session cfg session_id w)
  | GetStatus session_id => snd (get_session_status cfg session_id w)
  | SubmitMatch data => snd (mark_attendance_with_duplicate_prevention cfg data w)
  | Elapse t => advance_to t w
  end.

(** Calls to [/real-mark] served one after the other. *)
Fixpoint submit_all (cfg : config) (calls : list mark_request)
  : M (list mark_response) :=
  match calls with
  | [] => ret []
  | data :: rest =>
      r <- mark_attendance_with_duplicate_prevention cfg data ;;
      rs <- submit_all cfg rest ;;
      ret (r :: rs)
  end.

(** The enrollment id a face is matched to, if any. *)
Definition resolved (students : list student_row) (threshold : float)
           (f : face) : option string :=
  match extract_embedding_optimized f with
  | Some emb =>
      match fst (matched emb students threshold) with
      | Some best => Some (st_student_id best)
      | None => None
      end
  | None => None
  end.

(** The students [/real-mark] matches against. *)
Definition candidates (w : world) : list student_row :=
  fst (select_students w).

(** The faces of a call, when it gets as far as detecting them. *)
Definition faces_of (data : mark_request) : list face :=
  match if_truthy (mr_image data) with
  | Some image => default [] (image_faces image)
  | None => []
  end.

End Transitions.

(** ** Further code of the two modules *)

(** *** Image helpers ([read_image_from_base64_optimized],
        [detect_faces_optimized]) *)

(** The text after the first comma of [s]; [None] when there is no comma
    ([s.split(",", 1)[1]] raises [IndexError]). *)
Fixpoint after_comma (s : string) : option string :=
  match s with
  | EmptyString => None
  | String c s' => if Ascii.eqb c "," then Some s' else after_comma s'
  end.

(** The first statement of [read_image_from_base64_optimized] (and of
    [demo_recognize_optimized]): a data URL loses its header. *)
Definition strip_data_url (image_b64 : string) : option string :=
  if String.prefix "data:" image_b64 then after_comma image_b64
  else Some image_b64.

(** One entry of [detector.detect_faces(rgb_image)]. *)
Record detection := {
  det_box : Z * Z * Z * Z;
  det_confidence : float
}.

(** One entry of the result of [detect_faces_optimized]; [df_rows] and
    [df_columns] are the bounds of the slice [rgb_image[y:y+h, x:x+w]]. *)
Record detected_face := {
  df_box : Z * Z * Z * Z;
  df_rows : Z * Z;
  df_columns : Z * Z;
  df_confidence : float
}.

(** The binary64 value nearest to 0.85. *)
Definition f0_85 : float := S754_finite false 7656119366529843 (-53).

(** The body of the loop over the detections. *)
Definition keep_detection (d : detection) : list detected_face :=
  if lt f0_85 (det_confidence d)
  then
    let '(x0, y0, w, h) := det_box d in
    let x := Z.max 0 x0 in
    let y := Z.max 0 y0 in
    if (w >? 40) && (h >? 40)
    then [{| df_box := (x, y, w, h);
             df_rows := (y, y + h);
             df_columns := (x, x + w);
             df_confidence := det_confidence d |}]
    else []
  else [].

(** [shape] is [rgb_image.shape[0], rgb_image.shape[1]]; [detections] is
    what the detector answers for the image. *)
Definition detect_faces_optimized (shape : Z * Z) (detections : list detection)
  : list detected_face :=
  if (fst shape <? 50) || (snd shape <? 50) then []
  else flat_map keep_detection detections.

(** *** [get_active_sessions] *)

Inductive listing :=
| ListingError (code : Z) (error : string)
| Listing (sessions : list session_row) (count : Z).

Section ActiveSessions.

Context {R : Recognition}.

(** The loop of [get_active_sessions]: a session is skipped when a given,
    non-empty attribute differs from its own. *)
Definition offered (department year division : option string)
           (session : session_row) : bool :=
  optional_eq (if_truthy department) (sr_department session)
  && optional_eq (if_truthy year) (sr_year session)
  && optional_eq (if_truthy division) (sr_division session).

Definition get_active_sessions (cfg : config)
           (department year division : option string) (w : world) : listing :=
  if negb (cfg_supabase cfg) then ListingError 500 "Database connection error"
  else
    let sessions :=
      List.filter (fun r => String.eqb (sr_status r) "active") (w_sessions w) in
    let filtered_sessions :=
      List.filter (offered department year division) sessions in
    Listing filtered_sessions (Z.of_nat (length filtered_sessions)).

End ActiveSessions.

(** ** Vocabulary of the further properties *)

Section FurtherVocabulary.

Context {R : Recognition}.

(** The number of records of the pair (session, enrollment id). *)
Definition records_of (session : nat) (id : string)
           (rows : list attendance_row) : nat :=
  length (List.filter (of_pair session id) rows).

(** No concurrent request writes while the inserts still to come are
    served. *)
Definition unraced (w : world) : Prop :=
  Forall (fun e => ie_race e = []) (w_record_env w).

(** Every student of whom the table has a record of the session is in the
    dictionary. *)
Definition covers (session : nat) (already : gmap string marked_info)
           (rows : list attendance_row) : Prop :=
  forall id, already !! id = None -> records_of session id rows = 0%nat.

(** The status a face gets when it is matched to no student. *)
Definition unmatched_status (f : face) : face_status :=
  match extract_embedding_optimized f with
  | Some _ => NoMatch
  | None => FaceError
  end.

(** A student of the table meets the scope attributes of a request. *)
Definition on_roster (data : create_request) (s : student_row) : bool :=
  optional_eq (if_truthy (cr_department data)) (st_department s)
  && optional_eq (if_truthy (cr_year data)) (st_year s)
  && optional_eq (if_truthy (cr_division data)) (st_division s).

(** The request names at least one scope attribute. *)
Definition scoped (data : create_request) : bool :=
  PyStr.truthy (cr_department data) || PyStr.truthy (cr_year data)
  || PyStr.truthy (cr_division data).

End FurtherVocabulary.

(** ** Vocabulary of the properties *)

(** [d] is the least of the distances of the candidates [l]: no candidate
    is nearer, and [d] is the distance of one of them, or infinity when no
    candidate has a distance below infinity. *)
Definition least_distance {T : Type} (distance_of : T -> float) (l : list T)
           (d : float) : Prop :=
  Forall (fun c => lt (distance_of c) d = false) l
  /\ (d = inf \/ Exists (fun c => distance_of c = d) l).

Definition validation_error : response :=
  Error 400 "Duration must be between 5-120 minutes".

(** The phrase stands in the text, at some position. *)
Definition mentions (phrase text : string) : Prop :=
  exists position,
    String.substring position (String.length phrase) text = phrase.

(** The message of the exception, put in lower case, speaks of a duplicate
    key or of a unique constraint. *)
Definition names_constraint (msg : string) : Prop :=
  mentions "duplicate key" (PyStr.lower msg)
  \/ mentions "unique constraint" (PyStr.lower msg).

Section Vocabulary.

Context {R : Recognition}.

(** Every run of [m] relates the world before to the world after. *)
Definition preserves (P : world -> world -> Prop) {A : Type} (m : M A)
  : Prop :=
  forall w, P w (snd (m w)).

(** The sessions of [w'] are those of [w]. *)
Definition same_sessions (w w' : world) : Prop := w_sessions w' = w_sessions w.

(** The pending timers of [w'] are those of [w]. *)
Definition same_timers (w w' : world) : Prop := w_timers w' = w_timers w.

(** Every row that is [ended] in [l] is still there, and [ended], in [l']. *)
Definition stays_ended (l l' : list session_row) : Prop :=
  forall i r, l !! i = Some r -> sr_status r = "ended" ->
              exists r', l' !! i = Some r'
                         /\ sr_status r' = "ended"
                         /\ sr_id r' = sr_id r
                         /\ sr_session_id r' = sr_session_id r.

Definition ended_kept (w w' : world) : Prop :=
  stays_ended (w_sessions w) (w_sessions w').

(** A change of rows that only ever writes [ended] and keeps the keys. *)
Definition closing (f : session_row -> session_row) : Prop :=
  forall r, sr_status (f r) = "ended"
            /\ sr_id (f r) = sr_id r
            /\ sr_session_id (f r) = sr_session_id r.

(** The call gets through to the matching loop with at least one face, and
    each of its faces is matched to the student [id] among [students]. *)
Definition resolving (students : list student_row) (threshold : float)
           (session_id id : string) (data : mark_request) : Prop :=
  if_truthy (mr_session_id data) = Some session_id
  /\ faces_of data <> []
  /\ Forall (fun f => resolved students threshold f = Some id) (faces_of data).

(** The world after the statements [ops] were sent and [rows] were added to
    the attendance records for one consumed insert environment. *)
Definition after_insert (ops : list db_op) (row : attendance_row) (w : world)
  : world :=
  set_records (set_record_env (set_log w (w_log w ++ ops))
                              (tl (w_record_env w)))
              (w_records w ++ [row]).

(** The three reads every call starts with. *)
Definition reads (session_id : string) (session : nat) : list db_op :=
  [SelectSession session_id; SelectMarked session; SelectStudents].

(** The candidate meets the optional equalities of the filter. *)
Definition in_scope (f : student_filter) (s : cached_session_student) : bool :=
  optional_eq (sf_department f) (css_department s)
  && optional_eq (sf_year f) (css_year s)
  && optional_eq (sf_division f) (css_division s).

End Vocabulary.

(** ** Sample data

    A stand-in for the external capabilities, used to run the engine on
    concrete inputs: an image is a text, each of its characters other than
    the space is a detected face, the character [?] is a face whose embedding
    cannot be extracted and the text [corrupt] is an image that cannot be
    decoded.  Embeddings are
    numbered vectors and [dist] tabulates their cosine distances; every
    sample student stores a single vector, which is its own mean. *)
Module Sample.

Definition f100 : float := S754_finite false 7036874417766400 (-46).

Definition recognition (dist : nat -> nat -> float) : Recognition :=
  {| embedding := nat;
     face := ascii;
     image_faces := fun img =>
       if String.eqb img "corrupt" then None
       else Some (List.filter (fun c => negb (Ascii.eqb c " "))
                            (list_ascii_of_string img));
     image_error := fun _ => "cannot identify image file";
     face_box := fun _ => (0, 0, 64, 64);
     extract_embedding_optimized := fun c =>
       if Ascii.eqb c "?" then None else Some (nat_of_ascii c);
     np_mean := fun l => hd 0%nat l;
     cosine := dist;
     round4 := fun d => d;
     confidence := fun d => if SFeqb d f0 then f100 else f0 |}.

(** Orthonormal vectors: distance 0 to itself, 1 to any other. *)
Definition one_hot : Recognition :=
  recognition (fun a b => if Nat.eqb a b then f0 else f1).

(** Every stored vector is at distance [d] from every query. *)
Definition at_distance (d : float) : Recognition :=
  recognition (fun _ _ => d).

Definition cfg : config :=
  {| cfg_supabase := true; cfg_models_ready := true; cfg_threshold := f0_6 |}.

Definition student {dist : nat -> nat -> float} (key : nat)
           (id name department : string) (vectors : list nat)
  : student_row (R := recognition dist) :=
  @Build_student_row (recognition dist) key id name department "2" "A"
                     (Some vectors).

(** Asha's stored vector is number 65 (the face [A]), Binod's is 66 (the
    face [B]). *)
Definition asha : student_row (R := one_hot) :=
  student 1 "S001" "Asha" "CS" [65%nat].

Definition binod : student_row (R := one_hot) :=
  student 2 "S002" "Binod" "EE" [66%nat].

Definition session (status : string) (end_time : Z) : session_row :=
  {| sr_id := 0; sr_session_id := "session_1000"; sr_subject := "Algebra";
     sr_department := "CS"; sr_year := "2"; sr_division := "A";
     sr_date := Some "2025-11-06"; sr_start_time := Some 1000;
     sr_end_time := Some end_time; sr_status := status;
     sr_ended_at := None |}.

(** A store with the two students and no session, at time 1000. *)
Definition empty_world : world (R := one_hot) :=
  @Build_world one_hot [] [] [asha; binod] false 1000 [] [] [] [].

(** The same store with one active session of 20 minutes. *)
Definition world0 : world (R := one_hot) :=
  set_sessions empty_world [session "active" 2200].

(** The record a concurrent request writes for Asha in the session. *)
Definition rival_record : attendance_row :=
  {| ar_session_id := 0; ar_student_id := 1; ar_student_enrollment := "S001";
     ar_student_name := "Asha"; ar_status := "present";
     ar_confidence := f100; ar_marked_at := 1001 |}.

(** [world0] with a uniqueness constraint, while a concurrent request writes
    Asha's record just before the next insert. *)
Definition racing_world : world (R := one_hot) :=
  @Build_world one_hot [session "active" 2200] [] [asha; binod] true 1000 []
               [{| ie_race := [rival_record]; ie_fault := NoFault |}] [] [].

(** [world0] with a uniqueness constraint, no concurrent request, and a
    fault of the next insert. *)
Definition faulty_world (fault : insert_fault) : world (R := one_hot) :=
  @Build_world one_hot [session "active" 2200] [] [asha; binod] true 1000 []
               [{| ie_race := []; ie_fault := fault |}] [] [].

(** What PostgreSQL says when the primary key of the new row is taken. *)
Definition key_collision : string :=
  "duplicate key value violates unique constraint attendance_records_pkey".

Definition timed_out : string := "The read operation timed out".

(** The documents of the two students in the legacy collection. *)
Definition asha_doc : student_doc (R := one_hot) :=
  @Build_student_doc one_hot "S001" "Asha" "CS" "2" "A"
                     (Some (@Vectors one_hot [65%nat])) None.

Definition binod_doc : student_doc (R := one_hot) :=
  @Build_student_doc one_hot "S002" "Binod" "EE" "2" "A"
                     (Some (@Vectors one_hot [66%nat])) None.

Definition request (duration : duration_field) : create_request :=
  {| cr_date := Some "2025-11-06"; cr_subject := Some "Algebra";
     cr_department := Some "CS"; cr_year := Some "2";
     cr_division := Some "A"; cr_duration_minutes := duration |}.

Definition mark (image : string) : mark_request :=
  {| mr_session_id := Some "session_1000"; mr_image := Some image |}.

End Sample.

(** * Properties *)

(** ** Order of floats *)

Section FloatOrder.

Lemma lt_irrefl x : lt x x = false.
Proof.
  unfold lt, SFltb. destruct x as [s|s| |s m e]; simpl; try reflexivity.
  - destruct s; reflexivity.
  - rewrite Z.compare_refl.
    change (PosDef.Pos.compare_cont Eq m m) with (Pos.compare m m).
    rewrite Pos.compare_refl. destruct s; reflexivity.
Qed.

Ltac order_cases :=
  repeat match goal with
  | |- context [PosDef.Pos.compare_cont Eq ?a ?b] =>
      change (PosDef.Pos.compare_cont Eq a b) with (Pos.compare a b)
  | H : context [PosDef.Pos.compare_cont Eq ?a ?b] |- _ =>
      change (PosDef.Pos.compare_cont Eq a b) with (Pos.compare a b) in H
  | |- context [Z.compare ?a ?b] => destruct (Z.compare_spec a b); subst
  | H : context [Z.compare ?a ?b] |- _ => destruct (Z.compare_spec a b); subst
  | |- context [Pos.compare ?a ?b] => destruct (Pos.compare_spec a b); subst
  | H : context [Pos.compare ?a ?b] |- _ => destruct (Pos.compare_spec a b); subst
  end.

Lemma lt_trans x y z : lt x y = true -> lt y z = true -> lt x z = true.
Proof.
  unfold lt, SFltb.
  destruct x as [s1|s1| |s1 m1 e1], y as [s2|s2| |s2 m2 e2],
           z as [s3|s3| |s3 m3 e3];
    simpl; try discriminate; try reflexivity;
    try (destruct s1; try discriminate; try reflexivity);
    try (destruct s2; try discriminate; try reflexivity);
    try (destruct s3; try discriminate; try reflexivity);
    intros H1 H2;
    order_cases; cbn [CompOpp] in *;
    try discriminate; try reflexivity; try lia.
Qed.

(** Nothing that is not below [m] is below a smaller bound. *)
Lemma not_below_smaller d m m' :
  lt d m = false -> (m' = m \/ lt m' m = true) -> lt d m' = false.
Proof.
  intros Hd [-> | Hm]; [exact Hd |].
  destruct (lt d m') eqn:E; [| reflexivity].
  rewrite (lt_trans _ _ _ E Hm) in Hd. discriminate.
Qed.

End FloatOrder.

(** ** The matching scan *)

Section ScanFacts.

Context {R : Recognition} {T : Type} (embedding_of : T -> embedding)
        (query : embedding).

Abbreviation distance c := (cosine query (embedding_of c)).

Lemma scan_decreases candidates best m :
  let r := scan embedding_of query candidates best m in
  snd r = m \/ lt (snd r) m = true.
Proof.
  revert best m. induction candidates as [| c rest IH]; intros best m; cbn.
  - now left.
  - destruct (lt (distance c) m) eqn:E.
    + right. destruct (IH (Some c) (distance c)) as [-> | H]; [exact E |].
      exact (lt_trans _ _ _ H E).
    + apply IH.
Qed.

(** No candidate is nearer than the distance the scan returns. *)
Lemma scan_least candidates best m :
  Forall (fun c => lt (distance c) (snd (scan embedding_of query candidates best m)) = false)
         candidates.
Proof.
  revert best m. induction candidates as [| c rest IH]; intros best m; cbn.
  - constructor.
  - destruct (lt (distance c) m) eqn:E; constructor; try apply IH.
    + apply not_below_smaller with (m := distance c).
      * apply lt_irrefl.
      * apply scan_decreases.
    + apply not_below_smaller with (m := m); [exact E |].
      apply scan_decreases.
Qed.

(** The scan returns its starting point or a candidate together with the
    distance of that candidate. *)
Lemma scan_attained candidates best m :
  let r := scan embedding_of query candidates best m in
  r = (best, m) \/ exists c, In c candidates /\ r = (Some c, distance c).
Proof.
  revert best m. induction candidates as [| c rest IH]; intros best m; cbn.
  - now left.
  - destruct (lt (distance c) m) eqn:E.
    + right. destruct (IH (Some c) (distance c)) as [-> | (c' & Hin & ->)].
      * exists c. split; [now left | reflexivity].
      * exists c'. split; [now right | reflexivity].
    + destruct (IH best m) as [-> | (c' & Hin & ->)]; [now left |].
      right. exists c'. split; [now right | reflexivity].
Qed.

(** What [accept] makes of a scan from nothing at infinity. *)
Lemma accept_scan threshold candidates :
  let min_distance := snd (scan embedding_of query candidates None inf) in
  let r := accept threshold (scan embedding_of query candidates None inf) in
  snd r = min_distance
  /\ (forall c, fst r = Some c ->
                lt min_distance threshold = true
                /\ In c candidates /\ distance c = min_distance)
  /\ (lt min_distance threshold = false -> fst r = None)
  /\ (min_distance = threshold -> fst r = None).
Proof.
  cbn. unfold accept. cbn.
  set (s := scan embedding_of query candidates None inf).
  split; [reflexivity |]. split; [| split].
  - intros c Hc. destruct (lt (snd s) threshold) eqn:E; [| discriminate].
    split; [reflexivity |].
    destruct (scan_attained candidates None inf) as [H | (c' & Hin & H)];
      fold s in H; rewrite H in Hc; cbn in Hc; [discriminate |].
    inversion Hc; subst c'. rewrite H. cbn. now split.
  - intros ->. reflexivity.
  - intros E. rewrite E, lt_irrefl. reflexivity.
Qed.

End ScanFacts.

(** ** Strict acceptance threshold *)

Section StrictThreshold.

Context {R : Recognition}.

Lemma scan_least_distance {T : Type} (embedding_of : T -> embedding)
      (query : embedding) (candidates : list T) :
  least_distance (fun c => cosine query (embedding_of c)) candidates
                 (snd (scan embedding_of query candidates None inf)).
Proof.
  split; [apply scan_least |].
  destruct (scan_attained embedding_of query candidates None inf)
    as [-> | (c & Hin & ->)]; [left; reflexivity |].
  right. apply List.Exists_exists. exists c. split; [assumption | reflexivity].
Qed.

Lemma accept_scan_facts {T : Type} (embedding_of : T -> embedding)
      (query : embedding) (threshold : float) (candidates : list T) :
  let r := accept threshold (scan embedding_of query candidates None inf) in
  least_distance (fun c => cosine query (embedding_of c)) candidates (snd r)
  /\ (forall c, fst r = Some c ->
                lt (snd r) threshold = true
                /\ In c candidates
                /\ cosine query (embedding_of c) = snd r)
  /\ (lt (snd r) threshold = false -> fst r = None)
  /\ (snd r = threshold -> fst r = None).
Proof.
  intros r.
  destruct (accept_scan embedding_of query threshold candidates)
    as (H1 & H2 & H3 & H4).
  fold r in H1, H2, H3, H4. rewrite H1.
  split; [apply scan_least_distance |]. auto.
Qed.

(** C5.  Over a non-empty list of cached candidates,
    [find_best_match_optimized] returns the least cosine distance in every
    case, and returns a student only when that distance is strictly below
    the threshold: a least distance equal to the threshold gives no match.
    The loop written out in [/real-mark] obeys the same rule. *)
Theorem find_best_match_strict_threshold
        (query : embedding) (current_time : Z) (supabase : handle student_row)
        (threshold : float) (c : EmbeddingCache)
        (students : list student_row) :
  fst (get_embeddings current_time supabase c) <> [] ->
  let cached := fst (get_embeddings current_time supabase c) in
  let result :=
    fst (find_best_match_optimized query current_time supabase threshold c) in
  let inline := matched query students threshold in
  (least_distance (fun s => cosine query (cs_embedding s)) cached (snd result)
   /\ (forall s, fst result = Some s ->
                 lt (snd result) threshold = true
                 /\ In s cached
                 /\ cosine query (cs_embedding s) = snd result)
   /\ (lt (snd result) threshold = false -> fst result = None)
   /\ (snd result = threshold -> fst result = None))
  /\ (least_distance (fun s => cosine query (avg_embedding s))
                     (List.filter usable students) (snd inline)
      /\ (forall s, fst inline = Some s ->
                    lt (snd inline) threshold = true
                    /\ In s students
                    /\ cosine query (avg_embedding s) = snd inline)
      /\ (lt (snd inline) threshold = false -> fst inline = None)
      /\ (snd inline = threshold -> fst inline = None)).
Proof.
  intros Hne cached result inline. split.
  - subst result. unfold find_best_match_optimized.
    fold cached in Hne.
    destruct (get_embeddings current_time supabase c) as [l c'] eqn:E.
    cbn in cached. subst cached.
    destruct l as [| s0 l]; [congruence |].
    cbn [fst]. apply accept_scan_facts.
  - subst inline. unfold matched, nearest.
    destruct (accept_scan_facts avg_embedding query threshold
                                (List.filter usable students))
      as (H1 & H2 & H3 & H4).
    split; [exact H1 |]. split; [| split; assumption].
    intros s Hs. destruct (H2 s Hs) as (Ha & Hin & Hb).
    apply filter_In in Hin. tauto.
Qed.

End StrictThreshold.

(** At the boundary: every candidate at distance 0.6 with threshold 0.6 is
    no match, and the distance 0.6 is returned. *)
Lemma find_best_match_strict_threshold_witness :
  let R := Sample.at_distance f0_6 in
  let supabase := Reachable [Sample.student 1 "S001" "Asha" "CS" [65%nat]] in
  fst (get_embeddings 1000 supabase EmbeddingCache_init) <> []
  /\ fst (find_best_match_optimized 65%nat 1000 supabase f0_6
                                    EmbeddingCache_init) = (None, f0_6).
Proof.
  cbn zeta. split; [discriminate |].
  pose proof (find_best_match_strict_threshold
                (R := Sample.at_distance f0_6) 65%nat 1000
                (Reachable [Sample.student 1 "S001" "Asha" "CS" [65%nat]])
                f0_6 EmbeddingCache_init [] ltac:(discriminate)) as H.
  cbn zeta in H. destruct H as ((_ & _ & _ & H) & _).
  specialize (H eq_refl). revert H.
  destruct (fst (find_best_match_optimized _ _ _ _ _)) as [m d] eqn:E.
  cbn. intros ->. f_equal.
  apply (f_equal snd) in E. exact (eq_sym E).
Defined.

(** Just below the boundary: a candidate at distance 0.599999 is a match
    for threshold 0.6. *)
Lemma find_best_match_below_threshold :
  let R := Sample.at_distance f0_599999 in
  let supabase := Reachable [Sample.student 1 "S001" "Asha" "CS" [65%nat]] in
  let result := fst (find_best_match_optimized 65%nat 1000 supabase f0_6
                                               EmbeddingCache_init) in
  option_map cs_studentId (fst result) = Some "S001"
  /\ snd result = f0_599999.
Proof. cbn zeta. split; vm_compute; reflexivity. Qed.

(** ** Duration bounds of [create_session] *)

Section DurationBounds.

Context {R : Recognition}.

Lemma create_session_rejects cfg data w n :
  cfg_supabase cfg = true ->
  int_duration (cr_duration_minutes data) = Some n ->
  n < 5 \/ 120 < n ->
  create_session cfg data w = (validation_error, w).
Proof.
  intros Hc Hn Hr. unfold create_session. rewrite Hc, Hn. cbn.
  replace ((n <? 5) || (n >? 120)) with true; [reflexivity |].
  symmetry. apply orb_true_iff. rewrite Z.ltb_lt, Z.gtb_gt. lia.
Qed.

Lemma In_schedule tm l : In tm (schedule tm l).
Proof.
  induction l as [| x l IH]; cbn; [now left |].
  destruct (fst x <=? fst tm); [right; exact IH | now left].
Qed.

Ltac run_create Hc Hn Hr :=
  unfold create_session; rewrite Hc, Hn; cbn;
  replace ((_ <? 5) || (_ >? 120)) with false
    by (symmetry; apply orb_false_iff;
        rewrite Z.ltb_ge, Z.gtb_ltb, Z.ltb_ge; lia);
  unfold bind, now, ret;
  destruct (is_set _ || is_set _ || is_set _);
  unfold select_roster, insert_session, start_timer, bind, logged, ret;
  cbn.

Lemma create_session_accepts cfg data w n :
  cfg_supabase cfg = true ->
  int_duration (cr_duration_minutes data) = Some n ->
  5 <= n <= 120 ->
  hd NoFault (w_session_env w) = NoFault ->
  exists doc msg row,
    fst (create_session cfg data w) = Created doc msg
    /\ sd_duration_minutes doc = n
    /\ sr_status row = "active"
    /\ sr_session_id row = sd_session_id doc
    /\ w_sessions (snd (create_session cfg data w)) = w_sessions w ++ [row]
    /\ In (w_clock w + n * 60, sd_session_id doc)
          (w_timers (snd (create_session cfg data w))).
Proof.
  intros Hc Hn Hr F. run_create Hc Hn Hr.
  all: rewrite F; cbn; do 3 eexists; repeat split; cbn;
    try reflexivity; apply In_schedule.
Qed.

Lemma create_session_not_rejected cfg data w n :
  cfg_supabase cfg = true ->
  int_duration (cr_duration_minutes data) = Some n ->
  5 <= n <= 120 ->
  fst (create_session cfg data w) <> validation_error.
Proof.
  intros Hc Hn Hr. run_create Hc Hn Hr.
  all: destruct (hd NoFault (w_session_env w)); cbn; discriminate.
Qed.

(** C7.  With the store configured and an integer duration [n],
    [create_session] answers with the validation error (status 400) exactly
    when [n] is outside [5, 120]; a rejected request leaves the store, the
    timers and the log as they were; an accepted one, when the store takes
    the insert, adds an active session and schedules its auto-close. *)
Theorem create_session_duration_bounds cfg data w n :
  cfg_supabase cfg = true ->
  int_duration (cr_duration_minutes data) = Some n ->
  (fst (create_session cfg data w) = validation_error <-> n < 5 \/ 120 < n)
  /\ (n < 5 \/ 120 < n -> snd (create_session cfg data w) = w)
  /\ (5 <= n <= 120 ->
      hd NoFault (w_session_env w) = NoFault ->
      exists doc msg row,
        fst (create_session cfg data w) = Created doc msg
        /\ sd_duration_minutes doc = n
        /\ sr_status row = "active"
        /\ sr_session_id row = sd_session_id doc
        /\ w_sessions (snd (create_session cfg data w)) = w_sessions w ++ [row]
        /\ In (w_clock w + n * 60, sd_session_id doc)
              (w_timers (snd (create_session cfg data w)))).
Proof.
  intros Hc Hn. split; [split |]; [| | split].
  - intros H. destruct (Z_lt_dec n 5); [now left |].
    destruct (Z_lt_dec 120 n); [now right |].
    exfalso. apply (create_session_not_rejected cfg data w n Hc Hn); [lia |].
    exact H.
  - intros H. now rewrite (create_session_rejects cfg data w n Hc Hn H).
  - intros H. now rewrite (create_session_rejects cfg data w n Hc Hn H).
  - apply create_session_accepts; assumption.
Qed.

End DurationBounds.

(** Durations 4 and 121 are rejected and nothing is created; 5 and 120 create
    a session. *)
Lemma create_session_duration_bounds_witness :
  let create n := create_session Sample.cfg (Sample.request (DurationInt n))
                                 Sample.empty_world in
  create 4 = (validation_error, Sample.empty_world)
  /\ create 121 = (validation_error, Sample.empty_world)
  /\ fst (create 5) <> validation_error
  /\ fst (create 120) <> validation_error
  /\ map sr_status (w_sessions (snd (create 120))) = ["active"].
Proof.
  cbn zeta.
  assert (B : forall n,
             (fst (create_session Sample.cfg (Sample.request (DurationInt n))
                                  Sample.empty_world) = validation_error
              <-> n < 5 \/ 120 < n)
             /\ (n < 5 \/ 120 < n ->
                 snd (create_session Sample.cfg (Sample.request (DurationInt n))
                                     Sample.empty_world) = Sample.empty_world)).
  { intros n.
    destruct (create_session_duration_bounds
                Sample.cfg (Sample.request (DurationInt n)) Sample.empty_world n
                eq_refl eq_refl) as (H1 & H2 & _).
    split; assumption. }
  split; [| split; [| split; [| split]]].
  - apply injective_projections; cbn [fst snd]; apply (B 4); lia.
  - apply injective_projections; cbn [fst snd]; apply (B 121); lia.
  - intros H. apply (B 5) in H. lia.
  - intros H. apply (B 120) in H. lia.
  - vm_compute. reflexivity.
Defined.

(** ** Frames of the handlers *)

Section Frames.

Context {R : Recognition}.

Variable P : world -> world -> Prop.
Hypothesis P_refl : forall w, P w w.
Hypothesis P_trans : forall a b c, P a b -> P b c -> P a c.

Lemma preserves_ret {A : Type} (a : A) : preserves P (ret a).
Proof. intros w. apply P_refl. Qed.

Lemma preserves_bind {A B : Type} (m : M A) (k : A -> M B) :
  preserves P m -> (forall a, preserves P (k a)) -> preserves P (bind m k).
Proof.
  intros Hm Hk w. unfold bind. specialize (Hm w).
  destruct (m w) as [a w1]. cbn in Hm.
  exact (P_trans _ _ _ Hm (Hk a w1)).
Qed.

End Frames.

(** ** Transitions of a session *)

Section SessionTransitions.

Context {R : Recognition}.

Lemma same_sessions_refl w : same_sessions w w.
Proof. reflexivity. Qed.

Lemma same_sessions_trans a b c :
  same_sessions a b -> same_sessions b c -> same_sessions a c.
Proof. unfold same_sessions. congruence. Qed.

Lemma stays_ended_refl l : stays_ended l l.
Proof. intros i r H E. exists r. auto. Qed.

Lemma stays_ended_trans a b c :
  stays_ended a b -> stays_ended b c -> stays_ended a c.
Proof.
  intros Hab Hbc i r H E.
  destruct (Hab i r H E) as (r1 & H1 & E1 & K1 & S1).
  destruct (Hbc i r1 H1 E1) as (r2 & H2 & E2 & K2 & S2).
  exists r2. repeat split; congruence.
Qed.

Lemma ended_kept_refl w : ended_kept w w.
Proof. apply stays_ended_refl. Qed.

Lemma ended_kept_trans a b c :
  ended_kept a b -> ended_kept b c -> ended_kept a c.
Proof. apply stays_ended_trans. Qed.

Lemma same_sessions_ended_kept w w' : same_sessions w w' -> ended_kept w w'.
Proof. unfold same_sessions, ended_kept. intros ->. apply stays_ended_refl. Qed.

Lemma closing_by_timer t : closing (close_by_timer t).
Proof. intros r. repeat split. Qed.

Lemma closing_by_hand t : closing (close_by_hand t).
Proof. intros r. repeat split. Qed.

Lemma closing_expire : closing expire.
Proof. intros r. repeat split. Qed.

Lemma stays_ended_map (c : session_row -> bool) f l :
  closing f -> stays_ended l (map (fun r => if c r then f r else r) l).
Proof.
  intros Hf i r H E. rewrite list_lookup_fmap, H. cbn.
  destruct (c r); [| exists r; auto].
  exists (f r). split; [reflexivity |]. apply Hf.
Qed.

Lemma stays_ended_app l extra : stays_ended l (l ++ extra).
Proof.
  intros i r H E. exists r. repeat split; try assumption.
  apply lookup_app_l_Some. exact H.
Qed.

Lemma auto_close_session_ended_kept sid :
  preserves ended_kept (auto_close_session sid).
Proof.
  intros w. unfold auto_close_session, bind, now, ret. cbn.
  apply stays_ended_map, closing_by_timer.
Qed.

Lemma end_session_ended_kept cfg sid : preserves ended_kept (end_session cfg sid).
Proof.
  intros w. unfold end_session.
  destruct (if_truthy sid) as [s |]; [| apply ended_kept_refl].
  destruct (negb (cfg_supabase cfg)); [apply ended_kept_refl |].
  unfold bind, now, ret. cbn.
  destruct (List.filter _ _); cbn; apply stays_ended_map, closing_by_hand.
Qed.

Lemma status_at_ended_kept sid session deadline :
  preserves ended_kept (status_at sid session deadline).
Proof.
  intros w. unfold status_at, bind, now, ret. cbn.
  destruct (_ && _); cbn; [| apply stays_ended_refl].
  apply stays_ended_map, closing_expire.
Qed.

Lemma get_session_status_ended_kept cfg sid :
  preserves ended_kept (get_session_status cfg sid).
Proof.
  unfold get_session_status.
  destruct (negb (cfg_supabase cfg)); [intros w; apply ended_kept_refl |].
  apply (preserves_bind _ ended_kept_trans).
  { intros w. apply stays_ended_refl. }
  intros [| session rest]; [intros w; apply ended_kept_refl |].
  apply (preserves_bind _ ended_kept_trans);
    [| intros ? w; apply ended_kept_refl].
  destruct (sr_end_time session); [apply status_at_ended_kept |].
  destruct (sr_start_time session); [apply status_at_ended_kept |].
  intros w; apply ended_kept_refl.
Qed.

Lemma create_session_ended_kept cfg data :
  preserves ended_kept (create_session cfg data).
Proof.
  intros w. unfold create_session.
  destruct (negb (cfg_supabase cfg)); [apply ended_kept_refl |].
  destruct (int_duration _) as [n |]; [| apply ended_kept_refl].
  destruct (_ || _); [apply ended_kept_refl |].
  unfold bind, now, ret.
  destruct (is_set _ || is_set _ || is_set _);
    unfold select_roster, insert_session, start_timer, bind, logged, ret; cbn;
    destruct (hd NoFault (w_session_env w)); cbn;
    first [apply stays_ended_refl | apply stays_ended_app].
Qed.

Lemma fire_due_ended_kept t timers w :
  ended_kept w (snd (fire_due t timers w)).
Proof.
  revert w. induction timers as [| [at_time sid] rest IH]; intros w; cbn.
  - apply ended_kept_refl.
  - destruct (at_time <=? t); [| apply ended_kept_refl].
    eapply ended_kept_trans; [| apply IH].
    apply (auto_close_session_ended_kept sid (set_clock w _)).
Qed.

Lemma advance_to_ended_kept t w : ended_kept w (advance_to t w).
Proof.
  unfold advance_to. pose proof (fire_due_ended_kept t (w_timers w) w) as H.
  destruct (fire_due t (w_timers w) w) as [pending w1]. exact H.
Qed.

End SessionTransitions.

Section MarkFrames.

Context {R : Recognition}.

Lemma insert_record_same_sessions row : preserves same_sessions (insert_record row).
Proof.
  intros w. unfold insert_record, bind, logged. cbn.
  destruct (_ && _); [reflexivity |].
  destruct (ie_fault _); reflexivity.
Qed.

Lemma claim_same_sessions session_doc best min_d f already :
  preserves same_sessions (claim session_doc best min_d f already).
Proof.
  unfold claim. destruct (already !! _).
  { apply (preserves_ret _ same_sessions_refl). }
  apply (preserves_bind _ same_sessions_trans); [intros w; reflexivity |].
  intros [| r l]; [| apply (preserves_ret _ same_sessions_refl)].
  apply (preserves_bind _ same_sessions_trans); [intros w; reflexivity |].
  intros t.
  apply (preserves_bind _ same_sessions_trans);
    [apply insert_record_same_sessions |].
  intros o. apply (preserves_ret _ same_sessions_refl).
Qed.

Lemma process_face_same_sessions session_doc students threshold f already :
  preserves same_sessions (process_face session_doc students threshold f already).
Proof.
  unfold process_face.
  destruct (extract_embedding_optimized f) as [emb |];
    [| apply (preserves_ret _ same_sessions_refl)].
  destruct (matched emb students threshold) as [[best |] min_d];
    [apply claim_same_sessions | apply (preserves_ret _ same_sessions_refl)].
Qed.

Lemma process_faces_same_sessions session_doc students threshold faces already :
  preserves same_sessions
            (process_faces session_doc students threshold faces already).
Proof.
  revert already. induction faces as [| f rest IH]; intros already; cbn.
  - apply (preserves_ret _ same_sessions_refl).
  - apply (preserves_bind _ same_sessions_trans);
      [apply process_face_same_sessions |].
    intros ra. apply (preserves_bind _ same_sessions_trans); [apply IH |].
    intros results. apply (preserves_ret _ same_sessions_refl).
Qed.

Lemma mark_attendance_same_sessions cfg data :
  preserves same_sessions (mark_attendance_with_duplicate_prevention cfg data).
Proof.
  unfold mark_attendance_with_duplicate_prevention.
  destruct (negb (cfg_models_ready cfg));
    [apply (preserves_ret _ same_sessions_refl) |].
  destruct (negb (cfg_supabase cfg));
    [apply (preserves_ret _ same_sessions_refl) |].
  destruct (if_truthy (mr_session_id data)) as [sid |];
    [| apply (preserves_ret _ same_sessions_refl)].
  destruct (if_truthy (mr_image data)) as [img |];
    [| apply (preserves_ret _ same_sessions_refl)].
  destruct (image_faces img) as [[| f faces] |];
    try apply (preserves_ret _ same_sessions_refl).
  apply (preserves_bind _ same_sessions_trans); [intros w; reflexivity |].
  intros [| session_doc rest]; [apply (preserves_ret _ same_sessions_refl) |].
  destruct (negb _); [apply (preserves_ret _ same_sessions_refl) |].
  apply (preserves_bind _ same_sessions_trans); [intros w; reflexivity |].
  intros marked.
  apply (preserves_bind _ same_sessions_trans); [intros w; reflexivity |].
  intros students.
  apply (preserves_bind _ same_sessions_trans);
    [apply process_faces_same_sessions |].
  intros results. apply (preserves_ret _ same_sessions_refl).
Qed.

End MarkFrames.

(** ** End of a session *)

Section EndOfSession.

Context {R : Recognition}.

Lemma updated_rows_nonempty sid f l :
  closing f ->
  (exists r, In r l /\ sr_session_id r = sid) ->
  List.filter (has_session_id sid)
              (map (fun r => if has_session_id sid r then f r else r) l) <> [].
Proof.
  intros Hf (r & Hin & Hsid). induction l as [| x l IH]; [destruct Hin |].
  cbn. destruct (has_session_id sid x) eqn:E.
  - unfold has_session_id at 1. destruct (Hf x) as (_ & _ & ->).
    unfold has_session_id in E. rewrite E. discriminate.
  - rewrite E. destruct Hin as [-> | Hin]; [| exact (IH Hin)].
    unfold has_session_id in E. rewrite Hsid, String.eqb_refl in E.
    discriminate.
Qed.

Lemma run_ended_kept cfg op w : ended_kept w (run cfg op w).
Proof.
  destruct op; cbn.
  - apply create_session_ended_kept.
  - apply end_session_ended_kept.
  - apply get_session_status_ended_kept.
  - apply same_sessions_ended_kept, mark_attendance_same_sessions.
  - apply advance_to_ended_kept.
Qed.

(** C6, as the code has it.  [end_session] on a known session answers
    success whatever the status of the session, and writes status [ended]
    and the time of the call as [end_time] into every row of that session
    (so the end time of an already ended session is overwritten, and a
    finalized session becomes [ended]).  No operation moves a session out of
    [ended]. *)
Theorem end_session_overwrites cfg sid w :
  cfg_supabase cfg = true ->
  PyStr.truthy (Some sid) = true ->
  (exists r, In r (w_sessions w) /\ sr_session_id r = sid) ->
  (fst (end_session cfg (Some sid) w) = Ended
   /\ w_sessions (snd (end_session cfg (Some sid) w))
      = map (fun r => if has_session_id sid r
                      then close_by_hand (w_clock w) r else r)
            (w_sessions w))
  /\ (forall t r, sr_status (close_by_hand t r) = "ended"
                  /\ sr_end_time (close_by_hand t r) = Some t)
  /\ (forall op, stays_ended (w_sessions w) (w_sessions (run cfg op w))).
Proof.
  intros Hc Hs Hr. split; [| split].
  - unfold end_session, if_truthy. rewrite Hs, Hc. cbn.
    unfold bind, now, ret. cbn.
    pose proof (updated_rows_nonempty sid (close_by_hand (w_clock w))
                  (w_sessions w) (closing_by_hand _) Hr) as Hne.
    destruct (List.filter _ _); [congruence |]. split; reflexivity.
  - intros t r. split; reflexivity.
  - intros op. apply run_ended_kept.
Qed.

End EndOfSession.

(** An ended session whose end time was 1300 is ended again at 2000: the
    answer is success and the stored end time becomes 2000. *)
Lemma end_session_overwrites_witness :
  let w := set_clock (set_sessions Sample.empty_world
                                   [Sample.session "ended" 1300]) 2000 in
  fst (end_session Sample.cfg (Some "session_1000") w) = Ended
  /\ map sr_end_time
         (w_sessions (snd (end_session Sample.cfg (Some "session_1000") w)))
     = [Some 2000].
Proof.
  cbn zeta.
  destruct (end_session_overwrites
              Sample.cfg "session_1000"
              (set_clock (set_sessions Sample.empty_world
                                       [Sample.session "ended" 1300]) 2000)
              eq_refl eq_refl
              ltac:(exists (Sample.session "ended" 1300); split;
                    [left; reflexivity | reflexivity]))
    as ((H1 & H2) & _).
  split; [exact H1 |]. rewrite H2. reflexivity.
Defined.

(** C6 as stated fails: ending an ended session changes its stored end
    time, and ending a finalized session moves it to [ended]. *)
Lemma end_session_not_idempotent :
  let ended := set_clock (set_sessions Sample.empty_world
                                       [Sample.session "ended" 1300]) 2000 in
  let finalized := set_clock (set_sessions Sample.empty_world
                                           [Sample.session "finalized" 1300]) 2000 in
  (fst (end_session Sample.cfg (Some "session_1000") ended) = Ended
   /\ w_sessions (snd (end_session Sample.cfg (Some "session_1000") ended))
      <> w_sessions ended)
  /\ map sr_status
         (w_sessions (run Sample.cfg (EndSession (Some "session_1000")) finalized))
     = ["ended"].
Proof.
  cbn zeta. split; [split |].
  - reflexivity.
  - vm_compute. discriminate.
  - reflexivity.
Qed.

(** ** Manual end and the auto-close timer *)

Section AutoClose.

Context {R : Recognition}.

Lemma end_session_same_timers cfg session_id :
  preserves same_timers (end_session cfg session_id).
Proof.
  intros w. unfold end_session.
  destruct (if_truthy session_id) as [s |]; [| reflexivity].
  destruct (negb (cfg_supabase cfg)); [reflexivity |].
  unfold bind, now, ret. cbn.
  destruct (List.filter _ _); reflexivity.
Qed.

(** C3, as the code has it.  [end_session] does not cancel the auto-close:
    the pending timers are the same after it as before.  A timer that is due
    runs [auto_close_session], which writes status [ended] and the firing
    time as [ended_at] into the rows of its session, whatever their status,
    and keeps their [end_time]. *)
Theorem end_session_keeps_timer cfg session_id w t at_time sid rest :
  at_time <= t ->
  w_timers (snd (end_session cfg session_id w)) = w_timers w
  /\ (let fired := snd (auto_close_session
                          sid (set_clock w (Z.max (w_clock w) at_time))) in
      fire_due t ((at_time, sid) :: rest) w = fire_due t rest fired
      /\ w_sessions fired
         = map (fun r => if has_session_id sid r
                         then close_by_timer (Z.max (w_clock w) at_time) r
                         else r)
               (w_sessions w))
  /\ (forall u r, sr_status (close_by_timer u r) = "ended"
                  /\ sr_ended_at (close_by_timer u r) = Some u
                  /\ sr_end_time (close_by_timer u r) = sr_end_time r).
Proof.
  intros Ht. split; [apply end_session_same_timers |]. split.
  - cbn zeta. split; [| reflexivity].
    cbn [fire_due]. apply Z.leb_le in Ht. rewrite Ht. reflexivity.
  - intros u r. repeat split.
Qed.

End AutoClose.

(** A session of 20 minutes created at 1000 and ended by hand at 1300: its
    timer is still pending after the manual end, and fires at 2200. *)
Lemma end_session_keeps_timer_witness :
  let created := run Sample.cfg (CreateSession
                                   (Sample.request (DurationInt 20)))
                     Sample.empty_world in
  let ended := run Sample.cfg (EndSession (Some "session_1000"))
                   (run Sample.cfg (Elapse 1300) created) in
  2200 <= 2500
  /\ w_timers ended = [(2200, "session_1000")]
  /\ map sr_ended_at (w_sessions (snd (fire_due 2500 (w_timers ended) ended)))
     = [Some 2200].
Proof.
  cbn zeta. split; [lia |].
  pose (created := run Sample.cfg
                       (CreateSession (Sample.request (DurationInt 20)))
                       Sample.empty_world).
  pose (before := run Sample.cfg (Elapse 1300) created).
  destruct (end_session_keeps_timer
              Sample.cfg (Some "session_1000") before 2500 2200
              "session_1000" [] ltac:(lia)) as (H1 & _ & _).
  split.
  - fold created. fold before. unfold run at 1. rewrite H1. reflexivity.
  - vm_compute. reflexivity.
Defined.

(** C3 as stated fails: after the manual end at 1300 the timer set at
    creation is still pending, and at 2200 it updates the session again. *)
Lemma auto_close_fires_after_manual_end :
  let created := run Sample.cfg (CreateSession
                                   (Sample.request (DurationInt 20)))
                     Sample.empty_world in
  let ended := run Sample.cfg (EndSession (Some "session_1000"))
                   (run Sample.cfg (Elapse 1300) created) in
  let later := run Sample.cfg (Elapse 2500) ended in
  map sr_status (w_sessions ended) = ["ended"]
  /\ map sr_end_time (w_sessions ended) = [Some 1300]
  /\ map sr_ended_at (w_sessions ended) = [None]
  /\ w_timers ended = [(2200, "session_1000")]
  /\ map sr_ended_at (w_sessions later) = [Some 2200]
  /\ w_sessions later <> w_sessions ended
  /\ w_log later = w_log ended ++ [UpdateSession "session_1000"].
Proof.
  cbn zeta. repeat split; try (vm_compute; reflexivity).
  vm_compute. discriminate.
Qed.

(** ** A request without faces *)

Section NoFaces.

Context {R : Recognition}.

(** C9.  When the models and the store are configured, the request carries a
    session id and an image, and detection finds no face in the image,
    [/real-mark] answers success with an empty list of faces and leaves the
    world as it was: no statement reaches the store (the log is unchanged),
    so the session is neither looked up nor checked for being active. *)
Theorem no_faces_no_store_access cfg data w session_id image :
  cfg_models_ready cfg = true ->
  cfg_supabase cfg = true ->
  if_truthy (mr_session_id data) = Some session_id ->
  if_truthy (mr_image data) = Some image ->
  image_faces image = Some [] ->
  mark_attendance_with_duplicate_prevention cfg data w = (NoFacesDetected, w).
Proof.
  intros Hm Hs Hid Himg Hf.
  unfold mark_attendance_with_duplicate_prevention.
  rewrite Hm, Hs, Hid, Himg, Hf. reflexivity.
Qed.

End NoFaces.

(** An image without faces, sent for a session that does not exist. *)
Lemma no_faces_no_store_access_witness :
  w_sessions Sample.empty_world = []
  /\ mark_attendance_with_duplicate_prevention
       Sample.cfg (Sample.mark " ") Sample.empty_world
     = (NoFacesDetected, Sample.empty_world).
Proof.
  split; [reflexivity |].
  apply (no_faces_no_store_access
           (R := Sample.one_hot) Sample.cfg (Sample.mark " ")
           Sample.empty_world "session_1000" " ");
    reflexivity.
Defined.

(** ** The duplicate guard *)

Section Guard.

Context {R : Recognition}.

Lemma bind_eq {A B : Type} (m : M A) (k : A -> M B) w :
  bind m k w = k (fst (m w)) (snd (m w)).
Proof. unfold bind. destruct (m w). reflexivity. Qed.

Lemma process_face_matched session_doc students threshold f already emb best min_d :
  extract_embedding_optimized f = Some emb ->
  matched emb students threshold = (Some best, min_d) ->
  process_face session_doc students threshold f already
  = claim session_doc best min_d f already.
Proof. intros He Hm. unfold process_face. now rewrite He, Hm. Qed.

Lemma claim_known session_doc best min_d f already info w :
  already !! st_student_id best = Some info ->
  claim session_doc best min_d f already w
  = ((entry best min_d f true Duplicate (DuplicateDetection (mi_marked_at info)),
      already), w).
Proof. intros H. unfold claim. cbn zeta. now rewrite H. Qed.

Lemma claim_seen session_doc best min_d f already w :
  already !! st_student_id best = None ->
  List.filter (of_pair (sr_id session_doc) (st_student_id best)) (w_records w)
  <> [] ->
  claim session_doc best min_d f already w
  = ((entry best min_d f true Duplicate RaceConditionPrevented, already),
     snd (select_record (sr_id session_doc) (st_student_id best) w)).
Proof.
  intros H Hs. unfold claim. cbn zeta. rewrite H.
  unfold bind, select_record, logged, ret. cbn.
  destruct (List.filter _ _); [congruence | reflexivity].
Qed.

Lemma claim_insert session_doc best min_d f already w :
  already !! st_student_id best = None ->
  List.filter (of_pair (sr_id session_doc) (st_student_id best)) (w_records w)
  = [] ->
  let w1 := snd (select_record (sr_id session_doc) (st_student_id best) w) in
  let io := insert_record (attendance_record session_doc best min_d (w_clock w))
                          w1 in
  claim session_doc best min_d f already w
  = (settle best min_d f already (w_clock w) (fst io), snd io).
Proof.
  intros H Hs. unfold claim. cbn zeta. rewrite H, bind_eq.
  replace (fst (select_record (sr_id session_doc) (st_student_id best) w))
    with (@nil attendance_row) by (symmetry; exact Hs).
  rewrite bind_eq, bind_eq. reflexivity.
Qed.

Lemma of_pair_eq session id r :
  of_pair session id r = true ->
  ar_session_id r = session /\ ar_student_enrollment r = id.
Proof.
  unfold of_pair. intros H. apply andb_true_iff in H as [H1 H2].
  apply Nat.eqb_eq in H1. apply String.eqb_eq in H2. now split.
Qed.

Lemma store_put_existsb session id unique rows r :
  existsb (of_pair session id) (store_put unique rows r)
  = existsb (of_pair session id) rows || of_pair session id r.
Proof.
  unfold store_put. destruct (unique && _) eqn:E.
  - destruct (of_pair session id r) eqn:P; [| now rewrite orb_false_r].
    destruct (of_pair_eq _ _ _ P) as [<- <-].
    apply andb_true_iff in E as [_ E]. rewrite E. reflexivity.
  - rewrite existsb_app. cbn. now rewrite orb_false_r.
Qed.

(** The pair is in the table when the insert arrives exactly when it was
    there before or a concurrent request has written it. *)
Lemma race_existsb session id unique race rows :
  existsb (of_pair session id) (fold_left (store_put unique) race rows)
  = existsb (of_pair session id) rows || existsb (of_pair session id) race.
Proof.
  revert rows. induction race as [| r race IH]; intros rows; cbn.
  - now rewrite orb_false_r.
  - rewrite IH, store_put_existsb, orb_assoc. reflexivity.
Qed.

Lemma filter_nil_existsb {A : Type} (p : A -> bool) l :
  List.filter p l = [] -> existsb p l = false.
Proof.
  induction l as [| a l IH]; cbn; [reflexivity |].
  destruct (p a); [discriminate | exact IH].
Qed.

(** What the store answers to an insert. *)
Lemma insert_record_result row w :
  let env := hd quiet (w_record_env w) in
  fst (insert_record row w)
  = if w_unique w
       && existsb (of_pair (ar_session_id row) (ar_student_enrollment row))
                  (fold_left (store_put (w_unique w)) (ie_race env) (w_records w))
    then Raised unique_violation
    else match ie_fault env with
         | NoFault => Inserted row
         | ReturnsNothing => NoData
         | Fails msg => Raised msg
         end.
Proof.
  unfold insert_record, bind, logged. cbn.
  destruct (_ && _); [reflexivity |]. destruct (ie_fault _); reflexivity.
Qed.

Lemma contains_mentions phrase text :
  phrase <> EmptyString ->
  PyStr.contains phrase text = true <-> mentions phrase text.
Proof.
  intros Hne. unfold PyStr.contains, mentions.
  destruct (String.index 0 phrase text) as [m |] eqn:E.
  - split; [intros _ | reflexivity]. exists m.
    apply (String.index_correct1 _ _ _ _ E).
  - split; [discriminate |]. intros [m Hm]. exfalso.
    apply (String.index_correct3 _ m _ _ E Hne); [| exact Hm].
    apply Nat.le_0_l.
Qed.

(** The test of the [except] branch holds exactly for the messages that
    speak of a duplicate key or of a unique constraint. *)
Lemma constraint_message_names msg :
  constraint_message msg = true <-> names_constraint msg.
Proof.
  unfold constraint_message, names_constraint.
  rewrite orb_true_iff, !contains_mentions by discriminate. reflexivity.
Qed.

(** C2.  A face is matched to a student who is in neither the dictionary of
    the request nor the final check, so that the record is sent to the
    store.  When the insert meets the uniqueness constraint on (session,
    student), a concurrent request having written the pair first, the face
    is answered [duplicate] with [already_marked].  Any other failure is
    told apart by the text of its message alone: an exception whose message,
    in lower case, speaks of a duplicate key or of a unique constraint is
    answered [duplicate] as well; an exception whose message speaks of
    neither, and an insert that returns no row, are answered [error].  In
    each of these cases the dictionary of the request is left as it was;
    an insert without fault is answered [marked_present]. *)
Theorem insert_failure_outcomes
        session_doc students threshold f already w emb best min_d :
  extract_embedding_optimized f = Some emb ->
  matched emb students threshold = (Some best, min_d) ->
  already !! st_student_id best = None ->
  List.filter (of_pair (sr_id session_doc) (st_student_id best)) (w_records w)
  = [] ->
  let env := hd quiet (w_record_env w) in
  let conflict :=
    w_unique w
    && existsb (of_pair (sr_id session_doc) (st_student_id best)) (ie_race env) in
  let step := process_face session_doc students threshold f already w in
  let result := fst (fst step) in
  (conflict = true ->
   fr_status result = Duplicate
   /\ fr_detail result = ConstraintViolation
   /\ fr_already_marked result = Some true
   /\ snd (fst step) = already)
  /\ (forall msg, conflict = false -> ie_fault env = Fails msg ->
                  names_constraint msg ->
                  fr_status result = Duplicate
                  /\ fr_detail result = ConstraintViolation
                  /\ fr_already_marked result = Some true
                  /\ snd (fst step) = already)
  /\ (forall msg, conflict = false -> ie_fault env = Fails msg ->
                  ~ names_constraint msg ->
                  fr_status result = FaceError
                  /\ fr_detail result = DatabaseError msg
                  /\ fr_already_marked result = Some false
                  /\ snd (fst step) = already)
  /\ (conflict = false -> ie_fault env = ReturnsNothing ->
      fr_status result = FaceError
      /\ fr_detail result = InsertionFailed
      /\ fr_already_marked result = Some false
      /\ snd (fst step) = already)
  /\ (conflict = false -> ie_fault env = NoFault ->
      fr_status result = MarkedPresent).
Proof.
  intros He Hm Ha Hs env conflict step result.
  set (w1 := snd (select_record (sr_id session_doc) (st_student_id best) w)).
  set (row := attendance_record session_doc best min_d (w_clock w)).
  assert (Hstep : fst step
                  = settle best min_d f already (w_clock w)
                           (fst (insert_record row w1))).
  { subst step. rewrite (process_face_matched _ _ _ _ _ _ _ _ He Hm).
    rewrite (claim_insert _ _ _ _ _ _ Ha Hs). reflexivity. }
  assert (Hi : fst (insert_record row w1)
               = if conflict then Raised unique_violation
                 else match ie_fault env with
                      | NoFault => Inserted row
                      | ReturnsNothing => NoData
                      | Fails msg => Raised msg
                      end).
  { rewrite insert_record_result. subst w1 row conflict env. cbn.
    rewrite race_existsb, (filter_nil_existsb _ _ Hs). reflexivity. }
  subst result. rewrite Hstep, Hi. clear Hstep Hi.
  split; [| split; [| split; [| split]]].
  - intros ->. cbn. repeat split.
  - intros msg -> -> Hn. apply constraint_message_names in Hn.
    cbn. rewrite Hn. repeat split.
  - intros msg -> -> Hn.
    destruct (constraint_message msg) eqn:E;
      [exfalso; apply Hn, constraint_message_names, E |].
    cbn. rewrite E. repeat split.
  - intros -> ->. repeat split.
  - intros -> ->. reflexivity.
Qed.

End Guard.

(** Asha's face arrives while a concurrent request writes her record between
    the final check and the insert: the store raises the violation and the
    face is reported as a duplicate.  When instead the insert times out, the
    face is reported as an error that carries the message. *)
Lemma insert_failure_outcomes_witness :
  let face_in w :=
    fst (fst (process_face (Sample.session "active" 2200)
                           [Sample.asha; Sample.binod] f0_6 ("A" : ascii) ∅ w)) in
  let raced := face_in Sample.racing_world in
  let failed := face_in (Sample.faulty_world (Fails Sample.timed_out)) in
  List.filter (of_pair 0 "S001") (w_records Sample.racing_world) = []
  /\ fr_status raced = Duplicate
  /\ fr_detail raced = ConstraintViolation
  /\ fr_status failed = FaceError
  /\ fr_detail failed = DatabaseError Sample.timed_out.
Proof.
  cbn zeta. split; [reflexivity |].
  destruct (insert_failure_outcomes
              (R := Sample.one_hot) (Sample.session "active" 2200)
              [Sample.asha; Sample.binod] f0_6 ("A" : ascii) ∅
              Sample.racing_world 65%nat Sample.asha f0
              eq_refl eq_refl (lookup_empty _) eq_refl)
    as (H & _).
  destruct (H eq_refl) as (Hs & Hd & _).
  destruct (insert_failure_outcomes
              (R := Sample.one_hot) (Sample.session "active" 2200)
              [Sample.asha; Sample.binod] f0_6 ("A" : ascii) ∅
              (Sample.faulty_world (Fails Sample.timed_out))
              65%nat Sample.asha f0
              eq_refl eq_refl (lookup_empty _) eq_refl)
    as (_ & _ & K & _).
  assert (Hn : ~ names_constraint Sample.timed_out).
  { intros Hn. apply constraint_message_names in Hn. vm_compute in Hn.
    discriminate. }
  destruct (K Sample.timed_out eq_refl eq_refl Hn) as (Ks & Kd & _).
  repeat split; assumption.
Defined.

(** C2, as first stated, fails.  The insert of Asha's record fails on the
    primary key of the new row; no record of Asha exists in the session and
    no concurrent request writes one, so the failure is no conflict on
    (session, student).  The message speaks of a duplicate key, and the face
    is answered [duplicate], not [error], while the session still has no
    record of Asha. *)
Lemma failure_named_like_a_conflict :
  let w := Sample.faulty_world (Fails Sample.key_collision) in
  let session_doc := Sample.session "active" 2200 in
  let step :=
    process_face session_doc [Sample.asha; Sample.binod] f0_6 ("A" : ascii) ∅ w in
  List.filter (of_pair 0 "S001") (w_records w) = []
  /\ ie_race (hd quiet (w_record_env w)) = []
  /\ fst (insert_record (attendance_record session_doc Sample.asha f0 1000)
                        (snd (select_record 0 "S001" w)))
     = Raised Sample.key_collision
  /\ fr_match (fst (fst step)) = Some ("S001", "Asha")
  /\ fr_status (fst (fst step)) = Duplicate
  /\ fr_status (fst (fst step)) <> FaceError
  /\ List.filter (of_pair 0 "S001") (w_records (snd step)) = [].
Proof. vm_compute. repeat split; discriminate. Qed.

(** ** Faces of one request *)

Section WithinRequest.

Context {R : Recognition}.

(** The three ways through [claim]. *)
Lemma claim_cases session_doc best min_d f already w :
  let id := st_student_id best in
  let w1 := snd (select_record (sr_id session_doc) id w) in
  let io := insert_record (attendance_record session_doc best min_d (w_clock w))
                          w1 in
  (exists info,
      already !! id = Some info
      /\ claim session_doc best min_d f already w
         = ((entry best min_d f true Duplicate
                   (DuplicateDetection (mi_marked_at info)), already), w))
  \/ (already !! id = None
      /\ claim session_doc best min_d f already w
         = ((entry best min_d f true Duplicate RaceConditionPrevented, already),
            w1))
  \/ (already !! id = None
      /\ List.filter (of_pair (sr_id session_doc) id) (w_records w) = []
      /\ claim session_doc best min_d f already w
         = (settle best min_d f already (w_clock w) (fst io), snd io)).
Proof.
  cbn zeta. destruct (already !! st_student_id best) as [info |] eqn:E.
  - left. exists info. split; [reflexivity |]. now apply claim_known.
  - right.
    destruct (List.filter (of_pair (sr_id session_doc) (st_student_id best))
                          (w_records w)) eqn:F.
    + right. split; [reflexivity |]. split; [reflexivity |].
      now apply claim_insert.
    + left. split; [reflexivity |]. apply claim_seen; [exact E |].
      rewrite F. discriminate.
Qed.

Lemma insert_record_log row w :
  w_log (snd (insert_record row w)) = w_log w ++ [InsertRecord row].
Proof.
  unfold insert_record, bind, logged. cbn.
  destruct (_ && _); [reflexivity |]. destruct (ie_fault _); reflexivity.
Qed.

Lemma settle_lookup_other best min_d f already t o id :
  id <> st_student_id best ->
  snd (settle best min_d f already t o) !! id = already !! id.
Proof.
  intros Hne. destruct o as [row | | msg]; cbn; try reflexivity.
  - apply lookup_insert_ne. congruence.
  - destruct (constraint_message msg); reflexivity.
Qed.

Lemma settle_marked best min_d f already t o :
  fr_status (fst (settle best min_d f already t o)) = MarkedPresent ->
  snd (settle best min_d f already t o)
  = <[st_student_id best := {| mi_name := st_student_name best;
                               mi_marked_at := Some t |}]> already.
Proof.
  destruct o as [row | | msg]; cbn; try discriminate; [reflexivity |].
  destruct (constraint_message msg); discriminate.
Qed.

Lemma settle_match best min_d f already t o :
  fr_match (fst (settle best min_d f already t o))
  = Some (st_student_id best, st_student_name best).
Proof.
  destruct o as [row | | msg]; cbn; try reflexivity.
  destruct (constraint_message msg); reflexivity.
Qed.

(** A face that is marked present puts its student into the dictionary. *)
Lemma process_face_marked session_doc students threshold f already w id name :
  let step := process_face session_doc students threshold f already w in
  fr_status (fst (fst step)) = MarkedPresent ->
  fr_match (fst (fst step)) = Some (id, name) ->
  snd (fst step) !! id
  = Some {| mi_name := name; mi_marked_at := Some (w_clock w) |}.
Proof.
  cbn zeta. unfold process_face.
  destruct (extract_embedding_optimized f) as [emb |]; [| discriminate].
  destruct (matched emb students threshold) as [[best |] min_d];
    [| discriminate].
  destruct (claim_cases session_doc best min_d f already w)
    as [(info & _ & ->) | [(_ & ->) | (_ & _ & ->)]];
    cbn [fst snd]; try discriminate.
  intros Hs Hm. rewrite (settle_marked _ _ _ _ _ _ Hs).
  rewrite settle_match in Hm. inversion Hm; subst.
  apply lookup_insert_eq.
Qed.

(** Once a student is in the dictionary, a face keeps the entry as it is,
    is a duplicate if it resolves to that student, and sends no insert for
    that student to the store. *)
Lemma process_face_known session_doc students threshold f already w id info :
  already !! id = Some info ->
  let step := process_face session_doc students threshold f already w in
  snd (fst step) !! id = Some info
  /\ (resolved students threshold f = Some id ->
      fr_status (fst (fst step)) = Duplicate
      /\ fr_already_marked (fst (fst step)) = Some true
      /\ fr_detail (fst (fst step)) = DuplicateDetection (mi_marked_at info)
      /\ snd step = w)
  /\ exists extra,
      w_log (snd step) = w_log w ++ extra
      /\ Forall (fun op => inserts_for id op = false) extra.
Proof.
  intros Hk. cbn zeta. unfold process_face, resolved.
  destruct (extract_embedding_optimized f) as [emb |].
  2:{ cbn. split; [exact Hk |]. split; [discriminate |].
      exists []. split; [now rewrite app_nil_r | constructor]. }
  destruct (matched emb students threshold) as [[best |] min_d]; cbn [fst].
  2:{ cbn. split; [exact Hk |]. split; [discriminate |].
      exists []. split; [now rewrite app_nil_r | constructor]. }
  destruct (decide (st_student_id best = id)) as [<- | Hne].
  - rewrite (claim_known _ _ _ _ _ _ _ Hk). cbn.
    split; [exact Hk |]. split; [auto |].
    exists []. split; [now rewrite app_nil_r | constructor].
  - destruct (claim_cases session_doc best min_d f already w)
      as [(info' & _ & ->) | [(_ & ->) | (_ & _ & ->)]]; cbn [fst snd].
    + split; [exact Hk |]. split; [congruence |].
      exists []. split; [now rewrite app_nil_r | constructor].
    + split; [exact Hk |]. split; [congruence |].
      exists [SelectRecord (sr_id session_doc) (st_student_id best)].
      split; [reflexivity | repeat constructor].
    + split; [rewrite settle_lookup_other; [exact Hk | congruence] |].
      split; [congruence |].
      exists [SelectRecord (sr_id session_doc) (st_student_id best);
              InsertRecord (attendance_record session_doc best min_d (w_clock w))].
      split.
      * rewrite insert_record_log. cbn. now rewrite <- app_assoc.
      * repeat constructor. cbn. apply String.eqb_neq. exact Hne.
Qed.

Lemma process_faces_known session_doc students threshold rest id info :
  forall already w,
    already !! id = Some info ->
    let later := process_faces session_doc students threshold rest already w in
    (forall i f, rest !! i = Some f ->
                 resolved students threshold f = Some id ->
                 exists r, fst later !! i = Some r
                           /\ fr_status r = Duplicate
                           /\ fr_already_marked r = Some true
                           /\ fr_detail r = DuplicateDetection (mi_marked_at info))
    /\ exists extra,
        w_log (snd later) = w_log w ++ extra
        /\ Forall (fun op => inserts_for id op = false) extra.
Proof.
  induction rest as [| f rest IH]; intros already w Hk; cbn zeta.
  - cbn. split; [intros i f H; rewrite lookup_nil in H; discriminate |].
    exists []. split; [now rewrite app_nil_r | constructor].
  - cbn [process_faces]. rewrite bind_eq, bind_eq.
    destruct (process_face_known session_doc students threshold f already w
                                 id info Hk) as (Hk1 & Hd & (e1 & Hl1 & Hf1)).
    set (step := process_face session_doc students threshold f already w) in *.
    destruct (IH (snd (fst step)) (snd step) Hk1) as (Hrest & (e2 & Hl2 & Hf2)).
    cbn zeta in Hrest. cbn [ret fst snd]. split.
    + intros [| i] f' Hi Hr; cbn in Hi.
      * inversion Hi; subst f'. exists (fst (fst step)).
        destruct (Hd Hr) as (H1 & H2 & H3 & _). auto.
      * apply (Hrest i f' Hi Hr).
    + exists (e1 ++ e2). split.
      * rewrite Hl2, Hl1. now rewrite app_assoc.
      * apply Forall_app. now split.
Qed.

(** C10.  Within one request: when a face is marked present for a student,
    that student is in the dictionary of the request afterwards; every later
    face of the request that resolves to the same student is reported as a
    duplicate, and none of the statements sent to the store for the later
    faces is an insert for that student. *)
Theorem in_request_duplicates
        session_doc students threshold f rest already w id name :
  let first := process_face session_doc students threshold f already w in
  let later := process_faces session_doc students threshold rest
                             (snd (fst first)) (snd first) in
  fr_status (fst (fst first)) = MarkedPresent ->
  fr_match (fst (fst first)) = Some (id, name) ->
  snd (fst first) !! id
  = Some {| mi_name := name; mi_marked_at := Some (w_clock w) |}
  /\ (forall i f', rest !! i = Some f' ->
                   resolved students threshold f' = Some id ->
                   exists r, fst later !! i = Some r
                             /\ fr_status r = Duplicate
                             /\ fr_already_marked r = Some true
                             /\ fr_detail r = DuplicateDetection (Some (w_clock w)))
  /\ exists extra,
      w_log (snd later) = w_log (snd first) ++ extra
      /\ Forall (fun op => inserts_for id op = false) extra.
Proof.
  intros first later Hs Hm.
  pose proof (process_face_marked session_doc students threshold f already w
                                  id name Hs Hm) as Hk.
  split; [exact Hk |].
  apply (process_faces_known session_doc students threshold rest id _ _ _ Hk).
Qed.

End WithinRequest.

(** Asha's face twice in one image: the first is marked present, the second
    is a duplicate. *)
Lemma in_request_duplicates_witness :
  let session := Sample.session "active" 2200 in
  let students := [Sample.asha; Sample.binod] in
  let first := process_face session students f0_6 ("A" : ascii) ∅
                            Sample.world0 in
  let later := process_faces session students f0_6 ["A" : ascii]
                             (snd (fst first)) (snd first) in
  fr_status (fst (fst first)) = MarkedPresent
  /\ fr_match (fst (fst first)) = Some ("S001", "Asha")
  /\ exists r, fst later !! 0%nat = Some r /\ fr_status r = Duplicate.
Proof.
  cbn zeta.
  assert (Hs : fr_status
                 (fst (fst (process_face (R := Sample.one_hot)
                              (Sample.session "active" 2200)
                              [Sample.asha; Sample.binod] f0_6 ("A" : ascii) ∅
                              Sample.world0))) = MarkedPresent)
    by (vm_compute; reflexivity).
  assert (Hm : fr_match
                 (fst (fst (process_face (R := Sample.one_hot)
                              (Sample.session "active" 2200)
                              [Sample.asha; Sample.binod] f0_6 ("A" : ascii) ∅
                              Sample.world0))) = Some ("S001", "Asha"))
    by (vm_compute; reflexivity).
  split; [exact Hs |]. split; [exact Hm |].
  destruct (in_request_duplicates
              (R := Sample.one_hot) (Sample.session "active" 2200)
              [Sample.asha; Sample.binod] f0_6 ("A" : ascii) ["A" : ascii] ∅
              Sample.world0 "S001" "Asha" Hs Hm) as (_ & H & _).
  destruct (H 0%nat ("A" : ascii) eq_refl ltac:(vm_compute; reflexivity))
    as (r & Hr & Hd & _).
  exists r. split; assumption.
Defined.

(** ** Repeated calls for one student *)

Section Repetition.

Context {R : Recognition}.

Lemma already_present_from (m : gmap string marked_info) marked id :
  is_Some (m !! id)
  \/ (exists r, In r marked /\ ar_student_enrollment r = id) ->
  is_Some (fold_left
             (fun m record =>
                <[ar_student_enrollment record :=
                    {| mi_name := ar_student_name record;
                       mi_marked_at := Some (ar_marked_at record) |}]> m)
             marked m !! id).
Proof.
  revert m. induction marked as [| r marked IH]; intros m H; cbn.
  - destruct H as [H | (r & [] & _)]. exact H.
  - apply IH. destruct H as [H | (r' & [-> | Hin] & He)].
    + left. destruct (decide (ar_student_enrollment r = id)) as [-> | Hne].
      * rewrite lookup_insert_eq. eauto.
      * rewrite lookup_insert_ne by exact Hne. exact H.
    + left. rewrite He, lookup_insert_eq. eauto.
    + right. eauto.
Qed.

Lemma already_present_none (m : gmap string marked_info) marked id :
  m !! id = None ->
  Forall (fun r => ar_student_enrollment r <> id) marked ->
  fold_left
    (fun m record =>
       <[ar_student_enrollment record :=
           {| mi_name := ar_student_name record;
              mi_marked_at := Some (ar_marked_at record) |}]> m)
    marked m !! id = None.
Proof.
  revert m. induction marked as [| r marked IH]; intros m H Hall; cbn.
  - exact H.
  - inversion Hall; subst. apply IH; [| assumption].
    rewrite lookup_insert_ne by assumption. exact H.
Qed.

Lemma marked_has_student session id rows :
  (exists r, In r rows /\ of_pair session id r = true) ->
  is_Some (already_present (List.filter (of_session session) rows) !! id).
Proof.
  intros (r & Hin & Hp). apply already_present_from. right. exists r.
  destruct (of_pair_eq _ _ _ Hp) as [Hs He]. split; [| exact He].
  apply filter_In. split; [exact Hin |].
  unfold of_session. rewrite Hs. apply Nat.eqb_refl.
Qed.

Lemma marked_lacks_student session id rows :
  List.filter (of_pair session id) rows = [] ->
  already_present (List.filter (of_session session) rows) !! id = None.
Proof.
  intros Hf. apply already_present_none; [apply lookup_empty |].
  apply List.Forall_forall. intros r Hin He.
  apply filter_In in Hin as [Hin Hs].
  assert (In r (List.filter (of_pair session id) rows)) as Hc.
  { apply filter_In. split; [exact Hin |]. unfold of_pair.
    unfold of_session in Hs. rewrite Hs, He, String.eqb_refl. reflexivity. }
  rewrite Hf in Hc. destruct Hc.
Qed.

Lemma resolved_inv students threshold f id :
  resolved students threshold f = Some id ->
  exists emb best min_d,
    extract_embedding_optimized f = Some emb
    /\ matched emb students threshold = (Some best, min_d)
    /\ st_student_id best = id.
Proof.
  unfold resolved. destruct (extract_embedding_optimized f) as [emb |];
    [| discriminate].
  destruct (matched emb students threshold) as [[best |] min_d] eqn:E;
    [| discriminate].
  cbn. intros H. inversion H. eauto 6.
Qed.

(** Faces of a student who is already in the dictionary: all duplicates,
    and the world is left as it is. *)
Lemma process_faces_all_known session_doc students threshold faces id :
  forall already w,
    is_Some (already !! id) ->
    Forall (fun f => resolved students threshold f = Some id) faces ->
    let r := process_faces session_doc students threshold faces already w in
    map fr_status (fst r) = repeat Duplicate (length faces) /\ snd r = w.
Proof.
  induction faces as [| f faces IH]; intros already w [info Hk] Hall; cbn zeta.
  - split; reflexivity.
  - inversion Hall as [| ? ? Hf Hrest]; subst.
    cbn [process_faces]. rewrite bind_eq, bind_eq.
    destruct (process_face_known session_doc students threshold f already w
                                 id info Hk) as (Hk1 & Hd & _).
    destruct (Hd Hf) as (Hs & _ & _ & Hw).
    set (step := process_face session_doc students threshold f already w) in *.
    destruct (IH (snd (fst step)) (snd step) (ex_intro _ info Hk1) Hrest)
      as (Hst & Hw').
    cbn [ret fst snd map length repeat]. rewrite Hs, Hst. split; [reflexivity |].
    rewrite Hw'. exact Hw.
Qed.

Lemma existsb_filter_nil {A : Type} (p : A -> bool) l :
  List.filter p l = [] -> existsb p l = false.
Proof.
  induction l as [| x l IH]; cbn; [reflexivity |].
  destruct (p x); [discriminate | exact IH].
Qed.

(** The first face of a student of whom the store has no record, in a quiet
    store: marked present, the record appended. *)
Lemma process_face_fresh session_doc students threshold f already w id :
  resolved students threshold f = Some id ->
  already !! id = None ->
  List.filter (of_pair (sr_id session_doc) id) (w_records w) = [] ->
  hd quiet (w_record_env w) = quiet ->
  exists best min_d,
    st_student_id best = id
    /\ let row := attendance_record session_doc best min_d (w_clock w) in
       process_face session_doc students threshold f already w
       = (settle best min_d f already (w_clock w) (Inserted row),
          after_insert [SelectRecord (sr_id session_doc) id; InsertRecord row]
                       row w).
Proof.
  intros Hr Ha Hf Hq.
  destruct (resolved_inv _ _ _ _ Hr) as (emb & best & min_d & He & Hm & <-).
  exists best, min_d. split; [reflexivity |]. cbn zeta.
  rewrite (process_face_matched _ _ _ _ _ _ _ _ He Hm).
  rewrite (claim_insert _ _ _ _ _ _ Ha Hf).
  unfold insert_record, select_record, bind, logged. cbn.
  rewrite Hq. cbn. rewrite (existsb_filter_nil _ _ Hf), andb_false_r. cbn.
  unfold after_insert. cbn. rewrite <- app_assoc. reflexivity.
Qed.

(** A call that gets through to the loop over its faces. *)
Lemma mark_attendance_loop cfg data w session_id session_doc others :
  cfg_models_ready cfg = true ->
  cfg_supabase cfg = true ->
  if_truthy (mr_session_id data) = Some session_id ->
  faces_of data <> [] ->
  List.filter (has_session_id session_id) (w_sessions w) = session_doc :: others ->
  sr_status session_doc = "active" ->
  let loop :=
    process_faces session_doc (candidates w) (cfg_threshold cfg) (faces_of data)
                  (already_present
                     (List.filter (of_session (sr_id session_doc)) (w_records w)))
                  (set_log w (w_log w ++ reads session_id (sr_id session_doc))) in
  mark_attendance_with_duplicate_prevention cfg data w
  = (Marked session_id (fst loop) (summarize (faces_of data) (fst loop)),
     snd loop).
Proof.
  intros Hm Hs Hid Hfaces Hsess Hact. cbn zeta.
  unfold mark_attendance_with_duplicate_prevention.
  rewrite Hm, Hs, Hid. cbn [negb].
  remember (faces_of data) as fs eqn:Efs. unfold faces_of in Efs.
  destruct (if_truthy (mr_image data)) as [image |]; [| congruence].
  destruct (image_faces image) as [[| f faces] |]; cbn in Efs; subst fs;
    try congruence.
  rewrite bind_eq.
  replace (fst (select_session session_id w)) with (session_doc :: others)
    by (symmetry; exact Hsess).
  rewrite Hact, String.eqb_refl. cbn [negb].
  rewrite bind_eq, bind_eq, bind_eq.
  set (w1 := snd (select_session session_id w)).
  set (w2 := snd (select_marked (sr_id session_doc) w1)).
  assert (Hw : snd (select_students w2)
               = set_log w (w_log w ++ reads session_id (sr_id session_doc))).
  { subst w1 w2. unfold select_session, select_marked, select_students, bind,
      logged, reads, set_log. cbn. now rewrite <- !app_assoc. }
  rewrite Hw. reflexivity.
Qed.

(** A call for a student of whom the store has a record. *)
Lemma call_when_recorded cfg data w session_id session_doc others id :
  cfg_models_ready cfg = true ->
  cfg_supabase cfg = true ->
  List.filter (has_session_id session_id) (w_sessions w) = session_doc :: others ->
  sr_status session_doc = "active" ->
  resolving (candidates w) (cfg_threshold cfg) session_id id data ->
  (exists r, In r (w_records w) /\ of_pair (sr_id session_doc) id r = true) ->
  exists response,
    mark_attendance_with_duplicate_prevention cfg data w
    = (response,
       set_log w (w_log w ++ reads session_id (sr_id session_doc)))
    /\ statuses response = repeat Duplicate (length (faces_of data)).
Proof.
  intros Hm Hs Hsess Hact (Hid & Hne & Hall) Hrec.
  rewrite (mark_attendance_loop cfg data w session_id session_doc others
                                Hm Hs Hid Hne Hsess Hact).
  destruct (process_faces_all_known
              session_doc (candidates w) (cfg_threshold cfg) (faces_of data) id
              (already_present
                 (List.filter (of_session (sr_id session_doc)) (w_records w)))
              (set_log w (w_log w ++ reads session_id (sr_id session_doc)))
              (marked_has_student _ _ _ Hrec) Hall) as (Hst & Hw).
  eexists. split; [rewrite Hw; reflexivity | exact Hst].
Qed.

(** The first call for a student of whom the store has no record, while the
    store is quiet. *)
Lemma call_when_fresh cfg data w session_id session_doc others id :
  cfg_models_ready cfg = true ->
  cfg_supabase cfg = true ->
  List.filter (has_session_id session_id) (w_sessions w) = session_doc :: others ->
  sr_status session_doc = "active" ->
  resolving (candidates w) (cfg_threshold cfg) session_id id data ->
  List.filter (of_pair (sr_id session_doc) id) (w_records w) = [] ->
  hd quiet (w_record_env w) = quiet ->
  exists response row,
    mark_attendance_with_duplicate_prevention cfg data w
    = (response,
       after_insert (reads session_id (sr_id session_doc)
                     ++ [SelectRecord (sr_id session_doc) id; InsertRecord row])
                    row w)
    /\ statuses response
       = MarkedPresent :: repeat Duplicate (length (faces_of data) - 1)
    /\ of_pair (sr_id session_doc) id row = true
    /\ ar_status row = "present".
Proof.
  intros Hm Hs Hsess Hact (Hid & Hne & Hall) Hfresh Hq.
  rewrite (mark_attendance_loop cfg data w session_id session_doc others
                                Hm Hs Hid Hne Hsess Hact).
  destruct (faces_of data) as [| f faces]; [congruence |].
  inversion Hall as [| ? ? Hf Hrest]; subst.
  set (w3 := set_log w (w_log w ++ reads session_id (sr_id session_doc))).
  set (already := already_present
                    (List.filter (of_session (sr_id session_doc)) (w_records w))).
  destruct (process_face_fresh session_doc (candidates w) (cfg_threshold cfg)
                               f already w3 id Hf
                               (marked_lacks_student _ _ _ Hfresh) Hfresh Hq)
    as (best & min_d & Hbest & Hstep).
  cbn zeta in Hstep.
  set (row := attendance_record session_doc best min_d (w_clock w3)) in *.
  cbn [process_faces]. rewrite bind_eq, bind_eq, Hstep. cbn [fst snd settle].
  match goal with
  | |- context [process_faces _ _ _ faces ?a ?v] =>
      destruct (process_faces_all_known
                  session_doc (candidates w) (cfg_threshold cfg) faces id a v)
        as (Hst & Hw)
  end.
  { rewrite Hbest, lookup_insert_eq. eauto. }
  { exact Hrest. }
  exists (Marked session_id
            (entry best min_d f false MarkedPresent (FirstTimeMarking (w_clock w3))
             :: fst (process_faces
                       session_doc (candidates w) (cfg_threshold cfg) faces
                       (<[st_student_id best :=
                            {| mi_name := st_student_name best;
                               mi_marked_at := Some (w_clock w3) |}]> already)
                       (after_insert
                          [SelectRecord (sr_id session_doc) id; InsertRecord row]
                          row w3)))
            (summarize (f :: faces)
               (entry best min_d f false MarkedPresent
                      (FirstTimeMarking (w_clock w3))
                :: fst (process_faces
                          session_doc (candidates w) (cfg_threshold cfg) faces
                          (<[st_student_id best :=
                               {| mi_name := st_student_name best;
                                  mi_marked_at := Some (w_clock w3) |}]> already)
                          (after_insert
                             [SelectRecord (sr_id session_doc) id;
                              InsertRecord row]
                             row w3))))),
         row.
  split; [| split; [| split]].
  - cbn [ret]. rewrite Hw. f_equal.
    subst w3. unfold after_insert, set_records, set_record_env, set_log. cbn.
    now rewrite <- !app_assoc.
  - cbn [statuses map fr_status entry]. rewrite Hst.
    do 2 f_equal. cbn [length]. lia.
  - subst row. unfold of_pair, attendance_record. cbn.
    now rewrite Nat.eqb_refl, Hbest, String.eqb_refl.
  - reflexivity.
Qed.

Lemma filter_none {A : Type} (p : A -> bool) l :
  Forall (fun x => p x = false) l -> List.filter p l = [].
Proof.
  induction 1 as [| x l Hx _ IH]; cbn; [reflexivity |]. now rewrite Hx.
Qed.

(** Calls for a student of whom the store has a record: duplicates only, no
    record added, no insert sent. *)
Lemma later_calls_duplicates cfg session_id session_doc others id students calls :
  cfg_models_ready cfg = true ->
  cfg_supabase cfg = true ->
  sr_status session_doc = "active" ->
  Forall (resolving students (cfg_threshold cfg) session_id id) calls ->
  forall w,
    candidates w = students ->
    List.filter (has_session_id session_id) (w_sessions w)
    = session_doc :: others ->
    (exists r, In r (w_records w) /\ of_pair (sr_id session_doc) id r = true) ->
    let result := submit_all cfg calls w in
    Forall2 (fun call response =>
               statuses response = repeat Duplicate (length (faces_of call)))
            calls (fst result)
    /\ w_records (snd result) = w_records w
    /\ exists extra,
        w_log (snd result) = w_log w ++ extra
        /\ List.filter (inserts_for id) extra = [].
Proof.
  intros Hm Hs Hact Hall. induction Hall as [| data calls Hd _ IH];
    intros w Hc Hsess Hrec; cbn zeta.
  - cbn. split; [constructor |]. split; [reflexivity |].
    exists []. split; [now rewrite app_nil_r | reflexivity].
  - cbn [submit_all]. rewrite bind_eq, bind_eq.
    rewrite <- Hc in Hd.
    destruct (call_when_recorded cfg data w session_id session_doc others id
                                 Hm Hs Hsess Hact Hd Hrec) as (resp & -> & Hst).
    cbn [fst snd ret].
    destruct (IH (set_log w (w_log w ++ reads session_id (sr_id session_doc)))
                 Hc Hsess Hrec) as (Hf & Hr & (extra & Hl & Hx)).
    split; [constructor; assumption |]. split; [exact Hr |].
    exists (reads session_id (sr_id session_doc) ++ extra). split.
    + rewrite Hl. cbn [w_log set_log]. now rewrite app_assoc.
    + rewrite List.filter_app, Hx. reflexivity.
Qed.

(** C1.  In a session that is active, starting from a store without a
    record for the student and with the store taking the insert of the first
    call, a sequence of one or more calls that each resolve to the student
    ends with exactly one record for the pair, of status [present]: the
    first face of the first call is marked present, every other face of
    every call is reported as a duplicate, and the one insert of the first
    call is the only insert sent for the student. *)
Theorem repeated_marks_record_once
        cfg w session_id session_doc others id first_call later_calls :
  cfg_models_ready cfg = true ->
  cfg_supabase cfg = true ->
  List.filter (has_session_id session_id) (w_sessions w) = session_doc :: others ->
  sr_status session_doc = "active" ->
  List.filter (of_pair (sr_id session_doc) id) (w_records w) = [] ->
  hd quiet (w_record_env w) = quiet ->
  Forall (resolving (candidates w) (cfg_threshold cfg) session_id id)
         (first_call :: later_calls) ->
  let result := submit_all cfg (first_call :: later_calls) w in
  exists first_response later_responses row,
    fst result = first_response :: later_responses
    /\ statuses first_response
       = MarkedPresent :: repeat Duplicate (length (faces_of first_call) - 1)
    /\ Forall2 (fun call response =>
                  statuses response = repeat Duplicate (length (faces_of call)))
               later_calls later_responses
    /\ w_records (snd result) = w_records w ++ [row]
    /\ List.filter (of_pair (sr_id session_doc) id) (w_records (snd result))
       = [row]
    /\ ar_status row = "present"
    /\ exists extra,
        w_log (snd result) = w_log w ++ extra
        /\ List.filter (inserts_for id) extra = [InsertRecord row].
Proof.
  intros Hm Hs Hsess Hact Hfresh Hq Hall. cbn zeta.
  inversion Hall as [| ? ? Hfirst Hlater]; subst.
  cbn [submit_all]. rewrite bind_eq, bind_eq.
  destruct (call_when_fresh cfg first_call w session_id session_doc others id
                            Hm Hs Hsess Hact Hfirst Hfresh Hq)
    as (resp & row & -> & Hst & Hpair & Hpresent).
  cbn [fst snd ret].
  set (ops := reads session_id (sr_id session_doc)
              ++ [SelectRecord (sr_id session_doc) id; InsertRecord row]).
  destruct (later_calls_duplicates
              cfg session_id session_doc others id (candidates w) later_calls
              Hm Hs Hact Hlater (after_insert ops row w) eq_refl Hsess)
    as (Hf & Hr & (extra & Hl & Hx)).
  { exists row. split; [| exact Hpair].
    cbn. apply in_or_app. right. now left. }
  exists resp, (fst (submit_all cfg later_calls (after_insert ops row w))), row.
  split; [reflexivity |]. split; [exact Hst |]. split; [exact Hf |].
  split; [rewrite Hr; reflexivity |]. split; [| split; [exact Hpresent |]].
  - rewrite Hr. cbn [w_records after_insert set_records].
    rewrite List.filter_app, Hfresh. cbn. now rewrite Hpair.
  - exists (ops ++ extra). split.
    + rewrite Hl. cbn [w_log after_insert set_records set_record_env set_log].
      now rewrite app_assoc.
    + rewrite List.filter_app, Hx, app_nil_r. subst ops. cbn.
      destruct (of_pair_eq _ _ _ Hpair) as [_ ->].
      now rewrite String.eqb_refl.
Qed.

End Repetition.

(** Three calls that show Asha's face (once, twice, once) to an active
    session: one record. *)
Lemma repeated_marks_record_once_witness :
  let calls := [Sample.mark "AA"; Sample.mark "A"] in
  let result := submit_all Sample.cfg (Sample.mark "A" :: calls) Sample.world0 in
  List.filter (of_pair 0 "S001") (w_records Sample.world0) = []
  /\ exists first_response later_responses row,
      fst result = first_response :: later_responses
      /\ statuses first_response
         = MarkedPresent
             :: repeat Duplicate (length (faces_of (R := Sample.one_hot) (Sample.mark "A")) - 1)
      /\ Forall2 (fun call response =>
                    statuses response
                    = repeat Duplicate
                        (length (faces_of (R := Sample.one_hot) call)))
                 calls later_responses
      /\ w_records (snd result) = w_records Sample.world0 ++ [row]
      /\ List.filter (of_pair 0 "S001") (w_records (snd result)) = [row]
      /\ ar_status row = "present"
      /\ exists extra,
          w_log (snd result) = w_log Sample.world0 ++ extra
          /\ List.filter (inserts_for "S001") extra = [InsertRecord row].
Proof.
  cbn zeta. split; [reflexivity |].
  apply (repeated_marks_record_once
           (R := Sample.one_hot) Sample.cfg Sample.world0 "session_1000"
           (Sample.session "active" 2200) [] "S001"
           (Sample.mark "A") [Sample.mark "AA"; Sample.mark "A"]);
    try reflexivity.
  repeat constructor; try discriminate.
Defined.

(** ** Scope of the candidates *)

Section Scope.

Context {R : Recognition}.

Lemma cache_doc_in_scope f d :
  matches f d = true -> Forall (fun s => in_scope f s = true) (cache_doc d).
Proof.
  intros H. unfold cache_doc. destruct (embeddings_of d); [| constructor].
  constructor; [| constructor]. unfold in_scope. cbn.
  unfold matches in H.
  apply andb_true_iff in H as [H H3]. apply andb_true_iff in H as [H H2].
  apply andb_true_iff in H as [_ H1]. now rewrite H1, H2, H3.
Qed.

(** What [get_session_embeddings] fetches on a refresh lies within the
    filter. *)
Lemma session_embeddings_in_scope current_time docs f c :
  stale current_time (cache_key f) c = true ->
  exists l,
    fst (get_session_embeddings current_time (Reachable docs) f c) = Returns l
    /\ Forall (fun s => in_scope f s = true) l.
Proof.
  intros H. unfold get_session_embeddings. rewrite H. cbn.
  eexists. split; [reflexivity |].
  induction docs as [| d docs IH]; cbn; [constructor |].
  destruct (matches f d) eqn:E; [| exact IH].
  cbn. apply Forall_app. split; [now apply cache_doc_in_scope | exact IH].
Qed.

(** The students [/real-mark] matches a face against do not depend on the
    session: they are all the students whose embeddings are not null. *)
Lemma candidates_all_students w :
  candidates w = List.filter with_embeddings (w_students w).
Proof. reflexivity. Qed.

End Scope.

(** C4 fails on the code: in a session of department CS, the face of Binod,
    a student of department EE, is matched and marked present by
    [/real-mark], while the scoped search of
    [find_best_match_optimized_attendance] finds no match for the same face
    in the same session. *)
Lemma real_mark_ignores_session_scope :
  let session := Sample.session "active" 2200 in
  let outcome := mark_attendance_with_duplicate_prevention
                   Sample.cfg (Sample.mark "B") Sample.world0 in
  sr_department session = "CS"
  /\ st_department Sample.binod = "EE"
  /\ statuses (fst outcome) = [MarkedPresent]
  /\ map ar_student_enrollment (w_records (snd outcome)) = ["S002"]
  /\ fst (find_best_match_optimized_attendance
            (R := Sample.one_hot) 66%nat 1000
            (Reachable [Sample.asha_doc; Sample.binod_doc]) session f0_6
            AttendanceEmbeddingCache_init)
     = Returns (None, f1).
Proof.
  cbn zeta. repeat split; vm_compute; reflexivity.
Qed.

(** ** Refresh of the embedding caches *)

Section CacheRefresh.

Context {R : Recognition}.

(** An entry is refreshed exactly when it is absent or older than 600
    seconds. *)
Lemma stale_iff current_time key c :
  stale current_time key c = true
  <-> cached_embeddings c !! key = None
      \/ current_time - default 0 (last_updates c !! key) > 600.
Proof.
  unfold stale, cache_duration. destruct (cached_embeddings c !! key).
  - rewrite Z.gtb_gt. split; [now right |]. intros [H | H]; [discriminate | exact H].
  - split; [now left | reflexivity].
Qed.

(** A stale entry is fetched anew when the store answers, and the fetch is
    stamped with the current time. *)
Lemma get_session_embeddings_refreshes current_time docs f c :
  stale current_time (cache_key f) c = true ->
  let r := get_session_embeddings current_time (Reachable docs) f c in
  fst r = Returns (flat_map cache_doc (List.filter (matches f) docs))
  /\ cached_embeddings (snd r) !! cache_key f
     = Some (flat_map cache_doc (List.filter (matches f) docs))
  /\ last_updates (snd r) !! cache_key f = Some current_time.
Proof.
  intros H. unfold get_session_embeddings. rewrite H. cbn.
  split; [reflexivity |]. split; apply lookup_insert_eq.
Qed.

(** A fresh entry is served without asking the store. *)
Lemma get_session_embeddings_serves current_time students_col f c kept :
  stale current_time (cache_key f) c = false ->
  cached_embeddings c !! cache_key f = Some kept ->
  get_session_embeddings current_time students_col f c = (Returns kept, c).
Proof.
  intros H Hk. unfold get_session_embeddings. now rewrite H, Hk.
Qed.

(** When the store cannot be reached, a stale entry of the attendance cache
    is not served: the exception of the fetch leaves the call. *)
Lemma get_session_embeddings_store_down current_time msg f c :
  stale current_time (cache_key f) c = true ->
  get_session_embeddings current_time (Unreachable msg) f c = (Propagates msg, c).
Proof. intros H. unfold get_session_embeddings. now rewrite H. Qed.

(** The demo cache keeps serving its last entry when the store cannot be
    reached. *)
Lemma get_embeddings_store_down current_time msg c kept :
  student_embeddings c = Some kept ->
  get_embeddings current_time (Unreachable msg) c = (kept, c).
Proof.
  intros H. unfold get_embeddings, demo_stale. rewrite H.
  destruct (_ >? _); reflexivity.
Qed.

End CacheRefresh.

(** C8 fails on the attendance cache: an entry fetched at time 1000 is served
    at 1500 although the store is down, but at 1601, when it is older than
    600 seconds, the call raises the error of the store instead of returning
    the entry.  The demo cache returns its last entry in the same
    situation. *)
Lemma attendance_cache_raises_when_store_down :
  let R := Sample.one_hot in
  let scope := {| sf_department := Some "CS"; sf_year := None;
                  sf_division := None |} in
  let filled := snd (get_session_embeddings
                       1000 (Reachable [Sample.asha_doc; Sample.binod_doc])
                       scope AttendanceEmbeddingCache_init) in
  let down := Unreachable "connection refused" in
  let demo := snd (get_embeddings 1000 (Reachable [Sample.asha; Sample.binod])
                                  EmbeddingCache_init) in
  map css_studentId (default [] (cached_embeddings filled !! cache_key scope))
  = ["S001"]
  /\ (exists kept, fst (get_session_embeddings 1500 down scope filled)
                   = Returns kept
                   /\ map css_studentId kept = ["S001"])
  /\ fst (get_session_embeddings 1601 down scope filled)
     = Propagates "connection refused"
  /\ map cs_studentId
         (fst (get_embeddings 1301 (Unreachable "connection refused") demo))
     = ["S001"; "S002"].
Proof.
  cbn zeta. split; [vm_compute; reflexivity |]. split; [| split].
  - eexists. split; vm_compute; reflexivity.
  - vm_compute. reflexivity.
  - vm_compute. reflexivity.
Qed.

(** * Further properties *)

(** ** Image helpers *)

Lemma after_comma_append a b :
  after_comma a = None -> after_comma (a +:+ b) = after_comma b.
Proof.
  induction a as [| c a IH]; simpl; [reflexivity |].
  destruct (Ascii.eqb c ","); [discriminate | exact IH].
Qed.

(** X1.  A data URL whose header has no comma is cut down to its payload, whatever
    the payload contains; a text that does not start with [data:] is left as
    it is; a data URL without any comma makes the split fail. *)
Theorem strip_data_url_payload header payload other :
  after_comma header = None ->
  String.prefix "data:" other = false ->
  strip_data_url ("data:" +:+ header +:+ "," +:+ payload) = Some payload
  /\ strip_data_url ("data:" +:+ header) = None
  /\ strip_data_url other = Some other.
Proof.
  intros Hh Ho. unfold strip_data_url. rewrite Ho.
  split; [| split; [| reflexivity]].
  - change (String.prefix "data:" ("data:" +:+ header +:+ "," +:+ payload))
      with (String.prefix EmptyString (header +:+ "," +:+ payload)).
    replace (String.prefix EmptyString (header +:+ "," +:+ payload)) with true
      by (destruct (header +:+ "," +:+ payload); reflexivity).
    change (after_comma ("data:" +:+ header +:+ "," +:+ payload))
      with (after_comma (header +:+ "," +:+ payload)).
    rewrite (after_comma_append _ _ Hh). reflexivity.
  - change (String.prefix "data:" ("data:" +:+ header))
      with (String.prefix EmptyString header).
    replace (String.prefix EmptyString header) with true
      by (destruct header; reflexivity).
    exact Hh.
Qed.

Lemma strip_data_url_payload_witness :
  after_comma "image/jpeg;base64" = None
  /\ strip_data_url "data:image/jpeg;base64,/9j/4AAQ,x" = Some "/9j/4AAQ,x"
  /\ strip_data_url "/9j/4AAQ" = Some "/9j/4AAQ".
Proof.
  destruct (strip_data_url_payload "image/jpeg;base64" "/9j/4AAQ,x" "/9j/4AAQ"
                                   eq_refl eq_refl) as (H1 & _ & H3).
  split; [reflexivity |]. split; [exact H1 | exact H3].
Defined.

Lemma keep_detection_sound d f :
  In f (keep_detection d) ->
  lt f0_85 (df_confidence f) = true
  /\ df_confidence f = det_confidence d
  /\ (let '(x0, y0, w0, h0) := det_box d in
      df_box f = (Z.max 0 x0, Z.max 0 y0, w0, h0)
      /\ df_rows f = (Z.max 0 y0, Z.max 0 y0 + h0)
      /\ df_columns f = (Z.max 0 x0, Z.max 0 x0 + w0)
      /\ 40 < w0 /\ 40 < h0).
Proof.
  unfold keep_detection. destruct (lt f0_85 (det_confidence d)) eqn:E;
    [| intros []].
  destruct (det_box d) as [[[x0 y0] w0] h0].
  destruct ((w0 >? 40) && (h0 >? 40)) eqn:S; [| intros []].
  intros [<- | []]. cbn. apply andb_true_iff in S as [Hw Hh].
  apply Z.gtb_gt in Hw, Hh. repeat split; try assumption; lia.
Qed.

Lemma flat_map_length_le {A B : Type} (g : A -> list B) l :
  (forall a, (length (g a) <= 1)%nat) ->
  (length (flat_map g l) <= length l)%nat.
Proof.
  intros Hg. induction l as [| a l IH]; cbn; [lia |].
  rewrite length_app. specialize (Hg a). lia.
Qed.

(** X2.  Every face [detect_faces_optimized] returns comes from a detection of
    confidence above 0.85 whose box is more than 40 wide and high, in an
    image at least 50 by 50; its corner is clamped at 0 while width and
    height are kept, and the slice runs from the clamped corner.  There are
    never more faces than detections. *)
Theorem detect_faces_optimized_sound shape detections f :
  In f (detect_faces_optimized shape detections) ->
  (50 <= fst shape /\ 50 <= snd shape)
  /\ lt f0_85 (df_confidence f) = true
  /\ (exists d, In d detections
                /\ df_confidence f = det_confidence d
                /\ let '(x0, y0, w0, h0) := det_box d in
                   df_box f = (Z.max 0 x0, Z.max 0 y0, w0, h0)
                   /\ df_rows f = (Z.max 0 y0, Z.max 0 y0 + h0)
                   /\ df_columns f = (Z.max 0 x0, Z.max 0 x0 + w0)
                   /\ 40 < w0 /\ 40 < h0)
  /\ (length (detect_faces_optimized shape detections) <= length detections)%nat.
Proof.
  unfold detect_faces_optimized.
  destruct ((fst shape <? 50) || (snd shape <? 50)) eqn:S; [intros [] |].
  apply orb_false_iff in S as [S1 S2]. apply Z.ltb_ge in S1, S2.
  intros Hin. apply in_flat_map in Hin as (d & Hd & Hf).
  destruct (keep_detection_sound d f Hf) as (Hc & He & Hb).
  split; [now split |]. split; [exact Hc |]. split.
  - exists d. split; [exact Hd |]. split; [exact He | exact Hb].
  - apply flat_map_length_le. intros a. unfold keep_detection.
    destruct (lt f0_85 (det_confidence a)); [| simpl; lia].
    destruct (det_box a) as [[[x0 y0] w0] h0].
    destruct ((w0 >? 40) && (h0 >? 40)); simpl; lia.
Qed.

(** A detection of confidence 1 whose corner lies left of the image. *)
Lemma detect_faces_optimized_sound_witness :
  let d := {| det_box := (-5, 10, 60, 80); det_confidence := f1 |} in
  let f := {| df_box := (0, 10, 60, 80); df_rows := (10, 90);
              df_columns := (0, 60); df_confidence := f1 |} in
  In f (detect_faces_optimized (480, 640) [d])
  /\ lt f0_85 (df_confidence f) = true.
Proof.
  cbn zeta.
  assert (H : In {| df_box := (0, 10, 60, 80); df_rows := (10, 90);
                    df_columns := (0, 60); df_confidence := f1 |}
                 (detect_faces_optimized
                    (480, 640)
                    [{| det_box := (-5, 10, 60, 80); det_confidence := f1 |}]))
    by (left; reflexivity).
  split; [exact H |].
  apply (detect_faces_optimized_sound _ _ _ H).
Defined.

(** ** Tie-break of the matching scan *)

Section TieBreak.

Context {R : Recognition}.

Lemma scan_first {T : Type} (embedding_of : T -> embedding)
      (query : embedding) candidates :
  forall best m c d,
    scan embedding_of query candidates best m = (Some c, d) ->
    (best = Some c /\ d = m)
    \/ exists pre post,
        candidates = pre ++ c :: post
        /\ cosine query (embedding_of c) = d
        /\ lt d m = true
        /\ Forall (fun x => cosine query (embedding_of x) <> d) pre.
Proof.
  induction candidates as [| x rest IH]; intros best m c d; cbn.
  - intros H. inversion H. now left.
  - destruct (lt (cosine query (embedding_of x)) m) eqn:E; intros H.
    + right.
      destruct (IH _ _ _ _ H) as [[Hb Hd] | (pre & post & -> & Hc & Hl & Hp)].
      * inversion Hb; subst. exists [], rest. repeat split; auto.
      * exists (x :: pre), post. repeat split; auto.
        -- exact (lt_trans _ _ _ Hl E).
        -- constructor; [| exact Hp]. intros Heq. rewrite Heq in Hl.
           rewrite lt_irrefl in Hl. discriminate.
    + destruct (IH _ _ _ _ H) as [[Hb Hd] | (pre & post & -> & Hc & Hl & Hp)].
      * now left.
      * right. exists (x :: pre), post. repeat split; auto.
        constructor; [| exact Hp]. intros Heq. rewrite Heq in E.
        rewrite E in Hl. discriminate.
Qed.

(** X3.  Among candidates at the same least distance the first in cache order
    wins: the student [find_best_match_optimized] returns is at the returned
    distance, below the threshold, no candidate is nearer, and no candidate
    before it in the cached list is at that distance. *)
Theorem find_best_match_first_wins
        (query : embedding) (current_time : Z) (supabase : handle student_row)
        (threshold : float) (c : EmbeddingCache) (s : cached_student) :
  let cached := fst (get_embeddings current_time supabase c) in
  let result :=
    fst (find_best_match_optimized query current_time supabase threshold c) in
  fst result = Some s ->
  exists pre post,
    cached = pre ++ s :: post
    /\ cosine query (cs_embedding s) = snd result
    /\ lt (snd result) threshold = true
    /\ Forall (fun x => cosine query (cs_embedding x) <> snd result) pre
    /\ Forall (fun x => lt (cosine query (cs_embedding x)) (snd result) = false)
              cached.
Proof.
  cbn zeta. unfold find_best_match_optimized.
  destruct (get_embeddings current_time supabase c) as [l c'].
  cbn [fst]. destruct l as [| s0 l]; [discriminate |].
  cbn [fst]. unfold accept. cbn [fst snd].
  destruct (scan cs_embedding query (s0 :: l) None inf) as [b d] eqn:E.
  cbn [fst snd]. destruct (lt d threshold) eqn:Hl; [| discriminate].
  intros ->.
  destruct (scan_first _ _ _ _ _ _ _ E)
    as [[Hb _] | (pre & post & Hc & Hd & _ & Hp)]; [discriminate |].
  exists pre, post. repeat split; auto.
  pose proof (scan_least cs_embedding query (s0 :: l) None inf) as Hm.
  rewrite E in Hm. exact Hm.
Qed.

End TieBreak.

(** Two students at the same distance: the one cached first is returned. *)
Lemma find_best_match_first_wins_witness :
  let R := Sample.at_distance f0 in
  let asha := Sample.student 1 "S001" "Asha" "CS" [65%nat] in
  let binod := Sample.student 2 "S002" "Binod" "EE" [66%nat] in
  let result := fst (find_best_match_optimized
                       66%nat 1000 (Reachable [asha; binod]) f0_6
                       EmbeddingCache_init) in
  option_map cs_studentId (fst result) = Some "S001"
  /\ exists s pre post,
      fst result = Some s
      /\ fst (get_embeddings 1000 (Reachable [asha; binod]) EmbeddingCache_init)
         = pre ++ s :: post
      /\ pre = [].
Proof.
  cbn zeta. split; [vm_compute; reflexivity |].
  pose (first := @Build_cached_student (Sample.at_distance f0)
                                       65%nat "S001" "Asha").
  assert (H : fst (fst (find_best_match_optimized
                          (R := Sample.at_distance f0) 66%nat 1000
                          (Reachable [Sample.student 1 "S001" "Asha" "CS" [65%nat];
                                      Sample.student 2 "S002" "Binod" "EE" [66%nat]])
                          f0_6 EmbeddingCache_init))
              = Some first)
    by (vm_compute; reflexivity).
  destruct (find_best_match_first_wins
              (R := Sample.at_distance f0) 66%nat 1000 _ f0_6
              EmbeddingCache_init _ H) as (pre & post & Hc & _ & _ & Hp & _).
  exists first, pre, post. split; [exact H |]. split; [exact Hc |].
  destruct pre as [| x pre]; [reflexivity |].
  inversion Hp as [| ? ? Hx _]; subst. exfalso. apply Hx.
  vm_compute. reflexivity.
Defined.

(** ** The scoped search and the two caches *)

Section ScopedSearch.

Context {R : Recognition}.

Lemma optional_eq_nonempty s value :
  optional_eq (nonempty s) value = true -> s <> EmptyString -> value = s.
Proof.
  unfold nonempty. destruct (String.eqb_spec s EmptyString) as [-> | Hne];
    [congruence |].
  cbn. intros H _. now apply String.eqb_eq in H.
Qed.

(** X4.  When [find_best_match_optimized_attendance] has to fetch, the student it
    returns belongs to the class of the session: its department, year and
    division equal every attribute the session has a value for. *)
Theorem scoped_match_in_session_class
        query current_time docs session_doc threshold c s d c' :
  stale current_time (cache_key (session_scope session_doc)) c = true ->
  find_best_match_optimized_attendance
    query current_time (Reachable docs) session_doc threshold c
  = (Returns (Some s, d), c') ->
  (sr_department session_doc <> EmptyString ->
   css_department s = sr_department session_doc)
  /\ (sr_year session_doc <> EmptyString -> css_year s = sr_year session_doc)
  /\ (sr_division session_doc <> EmptyString ->
      css_division s = sr_division session_doc)
  /\ lt d threshold = true.
Proof.
  intros Hst. unfold find_best_match_optimized_attendance.
  destruct (session_embeddings_in_scope current_time docs
                                        (session_scope session_doc) c Hst)
    as (l & Hl & Hall).
  destruct (get_session_embeddings current_time (Reachable docs)
                                   (session_scope session_doc) c)
    as [o c1]. cbn in Hl. subst o.
  destruct l as [| s0 l]; [intros H; inversion H |].
  intros H.
  assert (Ha : accept threshold (scan css_embedding query (s0 :: l) None inf)
               = (Some s, d)) by congruence.
  clear H.
  destruct (accept_scan_facts css_embedding query threshold (s0 :: l))
    as (_ & Hsome & _).
  assert (Hs : fst (accept threshold
                           (scan css_embedding query (s0 :: l) None inf))
               = Some s) by (rewrite Ha; reflexivity).
  destruct (Hsome s Hs) as (Hlt & Hin & _).
  assert (Hd : snd (accept threshold
                           (scan css_embedding query (s0 :: l) None inf)) = d)
    by (rewrite Ha; reflexivity).
  rewrite Hd in Hlt.
  pose proof (proj1 (List.Forall_forall _ _) Hall s Hin) as Hscope.
  unfold in_scope, session_scope in Hscope. cbn in Hscope.
  apply andb_true_iff in Hscope as [Hscope H3].
  apply andb_true_iff in Hscope as [H1 H2].
  repeat split; try (now apply optional_eq_nonempty). exact Hlt.
Qed.

(** X5.  After a refresh the attendance cache answers from memory for 600
    seconds, whatever the store holds by then and even when it cannot be
    reached; the entries under other keys are not touched by the refresh. *)
Theorem attendance_cache_serves_within_ttl
        t0 t docs (students_col : handle student_doc) f c :
  stale t0 (cache_key f) c = true ->
  t - t0 <= 600 ->
  let refreshed := get_session_embeddings t0 (Reachable docs) f c in
  get_session_embeddings t students_col f (snd refreshed)
  = (fst refreshed, snd refreshed)
  /\ fst refreshed
     = Returns (flat_map cache_doc (List.filter (matches f) docs))
  /\ (forall key, key <> cache_key f ->
                  cached_embeddings (snd refreshed) !! key
                  = cached_embeddings c !! key).
Proof.
  intros Hst Ht. cbn zeta.
  destruct (get_session_embeddings_refreshes t0 docs f c Hst)
    as (Hf & Hc & Hu). cbn zeta in Hf, Hc, Hu.
  split; [| split; [exact Hf |]].
  - rewrite Hf. apply get_session_embeddings_serves; [| exact Hc].
    unfold stale. rewrite Hc, Hu. cbn. unfold cache_duration.
    rewrite Z.gtb_ltb. apply Z.ltb_ge. lia.
  - intros key Hk. unfold get_session_embeddings. rewrite Hst. cbn.
    now apply lookup_insert_ne.
Qed.

(** X6.  The demo cache: a refresh that finds students is served from memory for
    300 seconds whatever becomes of the store. *)
Theorem demo_cache_serves_within_ttl
        t0 t table (supabase : handle student_row) c :
  demo_stale t0 c = true ->
  List.filter with_embeddings table <> [] ->
  t - t0 <= 300 ->
  let refreshed := get_embeddings t0 (Reachable table) c in
  get_embeddings t supabase (snd refreshed) = (fst refreshed, snd refreshed)
  /\ fst refreshed
     = flat_map cache_student (List.filter with_embeddings table).
Proof.
  intros Hst Hne Ht. cbn zeta.
  set (fresh := flat_map cache_student (List.filter with_embeddings table)).
  assert (Hr : get_embeddings t0 (Reachable table) c
               = (fresh, {| student_embeddings := Some fresh;
                            last_update := t0 |})).
  { unfold get_embeddings. rewrite Hst. subst fresh.
    destruct (List.filter with_embeddings table); [congruence | reflexivity]. }
  rewrite Hr. cbn [fst snd]. split; [| reflexivity].
  unfold get_embeddings, demo_stale. cbn [student_embeddings last_update].
  unfold demo_cache_duration.
  replace (t - t0 >? 300) with false
    by (symmetry; rewrite Z.gtb_ltb; apply Z.ltb_ge; lia).
  reflexivity.
Qed.

(** X7.  The demo cache when the store cannot be reached: the call returns the
    entry the cache holds (the empty list when it holds none), keeps the
    time of the last refresh, and holds what it returned afterwards. *)
Theorem demo_cache_store_down t msg c :
  let r := get_embeddings t (Unreachable msg) c in
  fst r = default [] (student_embeddings c)
  /\ last_update (snd r) = last_update c
  /\ (demo_stale t c = true -> student_embeddings (snd r) = Some (fst r)).
Proof.
  cbn zeta. unfold get_embeddings.
  destruct (demo_stale t c) eqn:E.
  - destruct (student_embeddings c) as [kept |] eqn:K; cbn;
      repeat split; auto.
  - cbn. repeat split. discriminate.
Qed.

(** X8.  A fetch that finds no student with embeddings is not stamped: the cache
    holds the empty list, keeps the time of its last refresh, and an entry
    that was stale by age stays stale, so the next call asks the store
    again. *)
Theorem demo_cache_empty_fetch t t' table c :
  demo_stale t c = true ->
  List.filter with_embeddings table = [] ->
  let r := get_embeddings t (Reachable table) c in
  fst r = []
  /\ student_embeddings (snd r) = Some []
  /\ last_update (snd r) = last_update c
  /\ (t - last_update c > 300 -> t <= t' -> demo_stale t' (snd r) = true).
Proof.
  intros Hst He. cbn zeta. unfold get_embeddings. rewrite Hst, He. cbn.
  repeat split. intros Ha Ht. unfold demo_stale. cbn.
  unfold demo_cache_duration. apply Z.gtb_gt. lia.
Qed.

End ScopedSearch.

(** Asha's face in a session of her class, searched through the scoped
    path. *)
Lemma scoped_match_in_session_class_witness :
  let R := Sample.one_hot in
  let session := Sample.session "active" 2200 in
  let found := find_best_match_optimized_attendance
                 65%nat 1000 (Reachable [Sample.asha_doc; Sample.binod_doc])
                 session f0_6 AttendanceEmbeddingCache_init in
  stale 1000 (cache_key (session_scope session)) AttendanceEmbeddingCache_init
  = true
  /\ exists s, fst found = Returns (Some s, f0)
               /\ css_department s = "CS"
               /\ css_studentId s = "S001".
Proof.
  cbn zeta. split; [reflexivity |].
  pose (s := @Build_cached_session_student Sample.one_hot 65%nat "S001" "Asha"
                                           "CS" "2" "A").
  exists s.
  assert (H : fst (find_best_match_optimized_attendance
                     (R := Sample.one_hot) 65%nat 1000
                     (Reachable [Sample.asha_doc; Sample.binod_doc])
                     (Sample.session "active" 2200) f0_6
                     AttendanceEmbeddingCache_init)
              = Returns (Some s, f0)) by (vm_compute; reflexivity).
  split; [exact H |].
  destruct (scoped_match_in_session_class
              (R := Sample.one_hot) 65%nat 1000
              [Sample.asha_doc; Sample.binod_doc]
              (Sample.session "active" 2200) f0_6
              AttendanceEmbeddingCache_init s f0
              (snd (find_best_match_optimized_attendance
                      (R := Sample.one_hot) 65%nat 1000
                      (Reachable [Sample.asha_doc; Sample.binod_doc])
                      (Sample.session "active" 2200) f0_6
                      AttendanceEmbeddingCache_init))
              eq_refl
              (injective_projections _ (Returns (Some s, f0), _) H eq_refl))
    as (Hd & _).
  split; [apply Hd; discriminate | reflexivity].
Defined.

(** A refresh at 1000 is served at 1600 although the store is down. *)
Lemma attendance_cache_serves_within_ttl_witness :
  let R := Sample.one_hot in
  let scope := {| sf_department := Some "CS"; sf_year := None;
                  sf_division := None |} in
  let refreshed := get_session_embeddings
                     1000 (Reachable [Sample.asha_doc; Sample.binod_doc])
                     scope AttendanceEmbeddingCache_init in
  1600 - 1000 <= 600
  /\ fst (get_session_embeddings 1600 (Unreachable "connection refused")
                                 scope (snd refreshed))
     = fst refreshed.
Proof.
  cbn zeta. split; [lia |].
  destruct (attendance_cache_serves_within_ttl
              (R := Sample.one_hot) 1000 1600
              [Sample.asha_doc; Sample.binod_doc]
              (Unreachable "connection refused")
              {| sf_department := Some "CS"; sf_year := None;
                 sf_division := None |}
              AttendanceEmbeddingCache_init eq_refl ltac:(lia)) as (H & _).
  cbn zeta in H. rewrite H. reflexivity.
Defined.

(** The demo cache, refreshed at 1000, is served at 1300 although the store
    is down. *)
Lemma demo_cache_serves_within_ttl_witness :
  let refreshed := get_embeddings 1000 (Reachable [Sample.asha; Sample.binod])
                                  EmbeddingCache_init in
  List.filter with_embeddings [Sample.asha; Sample.binod] <> []
  /\ fst (get_embeddings 1300 (Unreachable "connection refused")
                         (snd refreshed))
     = fst refreshed.
Proof.
  cbn zeta. split; [discriminate |].
  destruct (demo_cache_serves_within_ttl
              (R := Sample.one_hot) 1000 1300 [Sample.asha; Sample.binod]
              (Unreachable "connection refused") EmbeddingCache_init
              eq_refl ltac:(discriminate) ltac:(lia)) as (H & _).
  cbn zeta in H. rewrite H. reflexivity.
Defined.

(** A first fetch at 1000 from a table without embeddings; at 1001 the cache
    is still stale. *)
Lemma demo_cache_empty_fetch_witness :
  let R := Sample.one_hot in
  let r := get_embeddings 1000 (Reachable []) EmbeddingCache_init in
  1000 - last_update EmbeddingCache_init > 300
  /\ fst r = []
  /\ demo_stale 1001 (snd r) = true.
Proof.
  cbn zeta. split; [cbn; lia |].
  destruct (demo_cache_empty_fetch
              (R := Sample.one_hot) 1000 1001 [] EmbeddingCache_init
              eq_refl eq_refl) as (H1 & _ & _ & H4).
  split; [exact H1 |]. apply H4; cbn; lia.
Defined.

(** ** Creation of a session *)

Section Creation.

Context {R : Recognition}.

Lemma is_set_if_truthy o : is_set (if_truthy o) = PyStr.truthy o.
Proof. unfold if_truthy. destruct (PyStr.truthy o) eqn:E; [| reflexivity].
       destruct o; [reflexivity | discriminate]. Qed.

(** What a successful [create_session] returns and stores. *)
Lemma create_session_created cfg data w doc msg :
  fst (create_session cfg data w) = Created doc msg ->
  exists n,
    int_duration (cr_duration_minutes data) = Some n
    /\ 5 <= n <= 120
    /\ let students := if scoped data
                       then List.filter (on_roster data) (w_students w)
                       else [] in
       let sid := "session_" +:+ pretty (w_clock w) in
       let row :=
         {| sr_id := length (w_sessions w);
            sr_session_id := sid;
            sr_subject := PyStr.take_or_empty 50 (cr_subject data);
            sr_department := PyStr.take_or_empty 50 (cr_department data);
            sr_year := PyStr.take_or_empty 20 (cr_year data);
            sr_division := PyStr.take_or_empty 10 (cr_division data);
            sr_date := cr_date data;
            sr_start_time := Some (w_clock w);
            sr_end_time := Some (w_clock w + n * 60);
            sr_status := "active";
            sr_ended_at := None |} in
       sd_session_id doc = sid
       /\ sd_duration_minutes doc = n
       /\ sd_created_at doc = w_clock w
       /\ sd_scheduled_end_time doc = w_clock w + n * 60
       /\ sd_students doc = map roster_of students
       /\ w_sessions (snd (create_session cfg data w)) = w_sessions w ++ [row]
       /\ w_timers (snd (create_session cfg data w))
          = schedule (w_clock w + n * 60, sid) (w_timers w)
       /\ w_records (snd (create_session cfg data w)) = w_records w.
Proof.
  unfold create_session.
  destruct (negb (cfg_supabase cfg)); [discriminate |].
  destruct (int_duration (cr_duration_minutes data)) as [n |]; [| discriminate].
  destruct ((n <? 5) || (n >? 120)) eqn:Hr; [discriminate |].
  apply orb_false_iff in Hr as [H5 H120].
  apply Z.ltb_ge in H5. rewrite Z.gtb_ltb in H120. apply Z.ltb_ge in H120.
  rewrite !is_set_if_truthy. fold (scoped data).
  intros H. exists n. split; [reflexivity |]. split; [lia |]. cbn zeta.
  revert H. unfold bind, now, ret.
  destruct (scoped data);
    unfold select_roster, insert_session, start_timer, bind, logged, ret; cbn;
    destruct (hd NoFault (w_session_env w)); cbn; try discriminate;
    intros H; inversion H; subst; cbn; repeat split; reflexivity.
Qed.

(** X9.  [create_session] either answers [Created], having added exactly one
    active session whose end time is the creation time plus the duration and
    having started one timer for that end time, or answers an error (400 or
    500) and leaves the sessions, the timers and the attendance records as
    they were. *)
Theorem create_session_all_or_nothing cfg data w :
  let w' := snd (create_session cfg data w) in
  match fst (create_session cfg data w) with
  | Created doc msg =>
      exists row,
        w_sessions w' = w_sessions w ++ [row]
        /\ sr_session_id row = sd_session_id doc
        /\ sr_status row = "active"
        /\ sr_start_time row = Some (sd_created_at doc)
        /\ sr_end_time row = Some (sd_scheduled_end_time doc)
        /\ sd_scheduled_end_time doc
           = sd_created_at doc + sd_duration_minutes doc * 60
        /\ 5 <= sd_duration_minutes doc <= 120
        /\ w_timers w'
           = schedule (sd_scheduled_end_time doc, sd_session_id doc) (w_timers w)
        /\ w_records w' = w_records w
  | Error code _ =>
      (code = 400 \/ code = 500)
      /\ w_sessions w' = w_sessions w
      /\ w_timers w' = w_timers w
      /\ w_records w' = w_records w
  | _ => False
  end.
Proof.
  cbn zeta. destruct (fst (create_session cfg data w)) as [code e | doc msg | |] eqn:E.
  - revert E. unfold create_session.
    destruct (negb (cfg_supabase cfg)); [intros H; inversion H; auto |].
    destruct (int_duration (cr_duration_minutes data)) as [n |];
      [| intros H; inversion H; auto].
    destruct ((n <? 5) || (n >? 120)); [intros H; inversion H; auto |].
    unfold bind, now, ret.
    destruct (is_set _ || is_set _ || is_set _);
      unfold select_roster, insert_session, start_timer, bind, logged, ret; cbn;
      destruct (hd NoFault (w_session_env w)); cbn; try discriminate;
      intros H; inversion H; auto.
  - destruct (create_session_created cfg data w doc msg E)
      as (n & _ & Hn & Hid & Hd & Hc & He & _ & Hs & Ht & Hr).
    cbn zeta in *. eexists. split; [exact Hs |]. cbn.
    rewrite Hid, Hd, Hc, He, Ht, Hr. repeat split; lia.
  - revert E. unfold create_session.
    destruct (negb (cfg_supabase cfg)); [discriminate |].
    destruct (int_duration (cr_duration_minutes data)) as [n |]; [| discriminate].
    destruct ((n <? 5) || (n >? 120)); [discriminate |].
    unfold bind, now, ret.
    destruct (is_set _ || is_set _ || is_set _);
      unfold select_roster, insert_session, start_timer, bind, logged, ret; cbn;
      destruct (hd NoFault (w_session_env w)); discriminate.
  - revert E. unfold create_session.
    destruct (negb (cfg_supabase cfg)); [discriminate |].
    destruct (int_duration (cr_duration_minutes data)) as [n |]; [| discriminate].
    destruct ((n <? 5) || (n >? 120)); [discriminate |].
    unfold bind, now, ret.
    destruct (is_set _ || is_set _ || is_set _);
      unfold select_roster, insert_session, start_timer, bind, logged, ret; cbn;
      destruct (hd NoFault (w_session_env w)); discriminate.
Qed.

(** X10.  The roster returned with a new session lists, unmarked, exactly the
    students whose department, year and division equal the attributes the
    request gives; a request that gives none of the three gets an empty
    roster. *)
Theorem create_session_roster cfg data w doc msg :
  fst (create_session cfg data w) = Created doc msg ->
  (scoped data = false -> sd_students doc = [])
  /\ (scoped data = true ->
      sd_students doc
      = map roster_of (List.filter (on_roster data) (w_students w)))
  /\ Forall (fun e => re_present e = false /\ re_marked_at e = None)
            (sd_students doc).
Proof.
  intros H. destruct (create_session_created cfg data w doc msg H)
    as (n & _ & _ & _ & _ & _ & _ & Hs & _). cbn zeta in Hs.
  rewrite Hs. split; [| split].
  - intros ->. reflexivity.
  - intros ->. reflexivity.
  - apply List.Forall_forall. intros e He. apply in_map_iff in He as (s & <- & _).
    split; reflexivity.
Qed.







End Creation.

(** A session for class CS/2/A: the roster holds Asha and not Binod. *)
Lemma create_session_roster_witness :
  exists doc msg,
    fst (create_session Sample.cfg (Sample.request (DurationInt 20))
                        Sample.empty_world) = Created doc msg
    /\ map re_student_id (sd_students doc) = ["S001"].
Proof.
  eassert (E : fst (create_session Sample.cfg (Sample.request (DurationInt 20))
                                   Sample.empty_world) = Created _ _)
    by (vm_compute; reflexivity).
  do 2 eexists. split; [exact E |].
  destruct (create_session_roster _ _ _ _ _ E) as (_ & H & _).
  rewrite (H eq_refl). reflexivity.
Defined.


(** ** Status of a session *)

Section StatusOfSession.

Context {R : Recognition}.

Lemma update_keeps_others sid f (l : list session_row) i r :
  l !! i = Some r ->
  sr_session_id r <> sid ->
  map (fun r => if has_session_id sid r then f r else r) l !! i = Some r.
Proof.
  intros H Hne. rewrite list_lookup_fmap, H. cbn.
  unfold has_session_id. destruct (String.eqb_spec (sr_session_id r) sid);
    [contradiction | reflexivity].
Qed.

Lemma update_without_match sid f (l : list session_row) :
  List.filter (has_session_id sid) l = [] ->
  map (fun r => if has_session_id sid r then f r else r) l = l.
Proof.
  induction l as [| x l IH]; cbn; [reflexivity |].
  destruct (has_session_id sid x); [discriminate |].
  intros H. now rewrite IH.
Qed.

Lemma update_of_matches sid f (l : list session_row) :
  closing f ->
  List.filter (has_session_id sid)
              (map (fun r => if has_session_id sid r then f r else r) l)
  = map f (List.filter (has_session_id sid) l).
Proof.
  intros Hf. induction l as [| x l IH]; cbn; [reflexivity |].
  destruct (has_session_id sid x) eqn:E.
  - unfold has_session_id at 1. destruct (Hf x) as (_ & _ & ->).
    unfold has_session_id in E. rewrite E. cbn. now rewrite IH.
  - rewrite E. exact IH.
Qed.

(** What [get_session_status] does to the table: nothing, or the lazy close
    of the rows of the session. *)
Lemma get_session_status_table cfg sid w :
  w_sessions (snd (get_session_status cfg sid w)) = w_sessions w
  \/ w_sessions (snd (get_session_status cfg sid w))
     = map (fun r => if has_session_id sid r then expire r else r)
           (w_sessions w).
Proof.
  unfold get_session_status.
  destruct (negb (cfg_supabase cfg)); [now left |].
  rewrite bind_eq.
  destruct (fst (select_session sid w)) as [| session rest]; [now left |].
  rewrite bind_eq.
  assert (S : forall deadline,
             w_sessions (snd (status_at sid session deadline
                                        (snd (select_session sid w))))
             = w_sessions w
             \/ w_sessions (snd (status_at sid session deadline
                                           (snd (select_session sid w))))
                = map (fun r => if has_session_id sid r then expire r else r)
                      (w_sessions w)).
  { intros deadline. unfold status_at. rewrite bind_eq.
    destruct (_ && _); [right | left]; reflexivity. }
  destruct (sr_end_time session); [apply S |].
  destruct (sr_start_time session); [apply S | now left].
Qed.

(** X12.  The answer of [get_session_status] for a session with an end time: the
    remaining minutes are never negative and are zero from the end time on;
    from the end time on the session is never reported active, and an
    active one is closed in the store on the way; before the end time the
    stored status is reported, with the remaining time in whole minutes,
    and nothing is written. *)
Theorem get_session_status_deadline cfg sid w session others deadline :
  cfg_supabase cfg = true ->
  List.filter (has_session_id sid) (w_sessions w) = session :: others ->
  sr_end_time session = Some deadline ->
  exists status remaining_minutes,
    fst (get_session_status cfg sid w)
    = Status sid status remaining_minutes (Some deadline)
    /\ 0 <= remaining_minutes
    /\ (deadline <= w_clock w ->
        remaining_minutes = 0
        /\ status <> "active"
        /\ (sr_status session = "active" ->
            status = "ended"
            /\ w_sessions (snd (get_session_status cfg sid w))
               = map (fun r => if has_session_id sid r then expire r else r)
                     (w_sessions w)))
    /\ (w_clock w < deadline ->
        status = sr_status session
        /\ remaining_minutes = Z.quot (deadline - w_clock w) 60
        /\ w_sessions (snd (get_session_status cfg sid w)) = w_sessions w).
Proof.
  intros Hc Hs He. unfold get_session_status. rewrite Hc. cbn [negb].
  rewrite bind_eq.
  replace (fst (select_session sid w)) with (session :: others)
    by (symmetry; exact Hs).
  rewrite bind_eq, He. unfold status_at. rewrite bind_eq.
  change (fst (now (snd (select_session sid w)))) with (w_clock w).
  destruct (deadline <=? w_clock w) eqn:D;
    destruct (String.eqb_spec (sr_status session) "active") as [A | A];
    cbn [andb]; try rewrite bind_eq; cbn [ret fst snd];
    [apply Z.leb_le in D | apply Z.leb_le in D
     | apply Z.leb_gt in D | apply Z.leb_gt in D].
  - exists "ended", 0. split; [reflexivity |]. split; [lia |]. split.
    + intros _. split; [reflexivity |]. split; [discriminate |].
      intros _. split; reflexivity.
    + lia.
  - exists (sr_status session), (remaining deadline (w_clock w)).
    split; [reflexivity |]. unfold remaining. split; [lia |]. split.
    + intros _. split; [| split; [exact A | contradiction]].
      assert (Z.quot (deadline - w_clock w) 60 <= 0)
        by (apply Z.quot_le_upper_bound; lia).
      lia.
    + lia.
  - exists (sr_status session), (remaining deadline (w_clock w)).
    split; [reflexivity |]. unfold remaining. split; [lia |]. split; [lia |].
    intros _. split; [reflexivity |]. split; [| reflexivity].
    assert (0 <= Z.quot (deadline - w_clock w) 60)
      by (apply Z.quot_pos; lia).
    lia.
  - exists (sr_status session), (remaining deadline (w_clock w)).
    split; [reflexivity |]. unfold remaining. split; [lia |]. split; [lia |].
    intros _. split; [reflexivity |]. split; [| reflexivity].
    assert (0 <= Z.quot (deadline - w_clock w) 60)
      by (apply Z.quot_pos; lia).
    lia.
Qed.

(** X13.  Closing a session, by [end_session], by the lazy close of
    [get_session_status] or by the timer, never changes a row of another
    session. *)
Theorem closing_keeps_other_sessions cfg sid w i r :
  w_sessions w !! i = Some r ->
  sr_session_id r <> sid ->
  w_sessions (snd (end_session cfg (Some sid) w)) !! i = Some r
  /\ w_sessions (snd (get_session_status cfg sid w)) !! i = Some r
  /\ w_sessions (snd (auto_close_session sid w)) !! i = Some r.
Proof.
  intros H Hne. split; [| split].
  - unfold end_session. destruct (if_truthy (Some sid)) as [s |] eqn:T;
      [| exact H].
    assert (s = sid) as ->.
    { unfold if_truthy in T. destruct (PyStr.truthy (Some sid));
        congruence. }
    destruct (negb (cfg_supabase cfg)); [exact H |].
    rewrite bind_eq, bind_eq.
    assert (K : w_sessions (snd (update_session sid (close_by_hand (w_clock w))
                                                (snd (now w))))
                !! i = Some r)
      by (apply update_keeps_others; assumption).
    destruct (fst (update_session sid _ (snd (now w)))); exact K.
  - destruct (get_session_status_table cfg sid w) as [-> | ->];
      [exact H | now apply update_keeps_others].
  - unfold auto_close_session. rewrite bind_eq, bind_eq.
    apply update_keeps_others; assumption.
Qed.

End StatusOfSession.

(** The sample session, due at 2200, asked about at 2300: it is reported
    ended with no time left, and closed in the store. *)
Lemma get_session_status_deadline_witness :
  let w := set_clock Sample.world0 2300 in
  fst (get_session_status Sample.cfg "session_1000" w)
  = Status "session_1000" "ended" 0 (Some 2200)
  /\ map sr_status (w_sessions (snd (get_session_status
                                       Sample.cfg "session_1000" w)))
     = ["ended"].
Proof.
  cbn zeta.
  destruct (get_session_status_deadline
              (R := Sample.one_hot) Sample.cfg "session_1000"
              (set_clock Sample.world0 2300) (Sample.session "active" 2200) []
              2200 eq_refl eq_refl eq_refl)
    as (status & rem & Hr & _ & Hlate & _).
  destruct (Hlate ltac:(cbn; lia)) as (-> & _ & Hclose).
  destruct (Hclose eq_refl) as (-> & Ht).
  split; [exact Hr |]. rewrite Ht. reflexivity.
Defined.

(** Two sessions; closing the first leaves the second as it is. *)
Lemma closing_keeps_other_sessions_witness :
  let other :=
    {| sr_id := 1; sr_session_id := "session_1001"; sr_subject := "Logic";
       sr_department := "CS"; sr_year := "2"; sr_division := "A";
       sr_date := None; sr_start_time := Some 1001;
       sr_end_time := Some 2201; sr_status := "active";
       sr_ended_at := None |} in
  let w := set_sessions Sample.world0 [Sample.session "active" 2200; other] in
  w_sessions w !! 1%nat = Some other
  /\ w_sessions (snd (end_session Sample.cfg (Some "session_1000") w)) !! 1%nat
     = Some other.
Proof.
  intros other w. split; [reflexivity |].
  apply (closing_keeps_other_sessions
           (R := Sample.one_hot) Sample.cfg "session_1000" w 1%nat other
           eq_refl).
  discriminate.
Defined.

(** ** Sessions that are unknown or closed *)

Section Refusals.

Context {R : Recognition}.

Lemma if_truthy_some sid :
  PyStr.truthy (Some sid) = true -> if_truthy (Some sid) = Some sid.
Proof. intros H. unfold if_truthy. now rewrite H. Qed.

(** [/real-mark] for a session whose first row is not active. *)
Lemma mark_not_active cfg data w sid session others :
  cfg_models_ready cfg = true ->
  cfg_supabase cfg = true ->
  if_truthy (mr_session_id data) = Some sid ->
  faces_of data <> [] ->
  List.filter (has_session_id sid) (w_sessions w) = session :: others ->
  sr_status session <> "active" ->
  mark_attendance_with_duplicate_prevention cfg data w
  = (MarkError 400 "Session is not active",
     set_log w (w_log w ++ [SelectSession sid])).
Proof.
  intros Hm Hs Hid Hf Hsess Hact.
  unfold mark_attendance_with_duplicate_prevention.
  rewrite Hm, Hs, Hid. cbn [negb].
  unfold faces_of in Hf.
  destruct (if_truthy (mr_image data)) as [image |]; [| congruence].
  destruct (image_faces image) as [[| f faces] |]; cbn in Hf; try congruence.
  rewrite bind_eq.
  replace (fst (select_session sid w)) with (session :: others)
    by (symmetry; exact Hsess).
  destruct (String.eqb_spec (sr_status session) "active"); [contradiction |].
  reflexivity.
Qed.

(** X14.  A session id that no row carries is refused by the three endpoints that
    take one, with status 404, and none of them changes the sessions or the
    attendance records. *)
Theorem unknown_session_refused cfg sid w data :
  cfg_models_ready cfg = true ->
  cfg_supabase cfg = true ->
  PyStr.truthy (Some sid) = true ->
  List.filter (has_session_id sid) (w_sessions w) = [] ->
  if_truthy (mr_session_id data) = Some sid ->
  faces_of data <> [] ->
  let status := get_session_status cfg sid w in
  let ended := end_session cfg (Some sid) w in
  let marked := mark_attendance_with_duplicate_prevention cfg data w in
  (fst status = Error 404 "Session not found"
   /\ w_sessions (snd status) = w_sessions w
   /\ w_records (snd status) = w_records w)
  /\ (fst ended = Error 404 "Session not found"
      /\ w_sessions (snd ended) = w_sessions w
      /\ w_records (snd ended) = w_records w)
  /\ (fst marked = MarkError 404 "Session not found"
      /\ w_sessions (snd marked) = w_sessions w
      /\ w_records (snd marked) = w_records w).
Proof.
  intros Hm Hs Ht Hnone Hid Hf. cbn zeta. split; [| split].
  - unfold get_session_status. rewrite Hs. cbn [negb]. rewrite bind_eq.
    replace (fst (select_session sid w)) with (@nil session_row)
      by (symmetry; exact Hnone).
    repeat split.
  - unfold end_session. rewrite (if_truthy_some sid Ht), Hs. cbn [negb].
    rewrite bind_eq, bind_eq.
    unfold update_session, bind, logged, now. cbn.
    rewrite (update_without_match sid _ _ Hnone), Hnone. repeat split.
  - unfold mark_attendance_with_duplicate_prevention.
    rewrite Hm, Hs, Hid. cbn [negb]. unfold faces_of in Hf.
    destruct (if_truthy (mr_image data)) as [image |]; [| congruence].
    destruct (image_faces image) as [[| f faces] |]; cbn in Hf;
      try congruence.
    rewrite bind_eq.
    replace (fst (select_session sid w)) with (@nil session_row)
      by (symmetry; exact Hnone).
    repeat split.
Qed.

(** X15.  Once [end_session] has answered for a session, or its timer has run,
    [/real-mark] refuses every call for it with status 400 and sends no
    statement about attendance: the records stay as they are. *)
Theorem closed_session_takes_no_marks cfg sid w data :
  cfg_models_ready cfg = true ->
  cfg_supabase cfg = true ->
  PyStr.truthy (Some sid) = true ->
  (exists r, In r (w_sessions w) /\ sr_session_id r = sid) ->
  if_truthy (mr_session_id data) = Some sid ->
  faces_of data <> [] ->
  forall w1,
    w1 = snd (end_session cfg (Some sid) w)
    \/ w1 = snd (auto_close_session sid w) ->
    mark_attendance_with_duplicate_prevention cfg data w1
    = (MarkError 400 "Session is not active",
       set_log w1 (w_log w1 ++ [SelectSession sid]))
    /\ w_records w1 = w_records w.
Proof.
  intros Hm Hs Ht Hex Hid Hf w1 Hw1.
  assert (Hrows : exists f,
             closing f
             /\ w_sessions w1
                = map (fun r => if has_session_id sid r then f r else r)
                      (w_sessions w)
             /\ w_records w1 = w_records w).
  { destruct Hw1 as [-> | ->].
    - exists (close_by_hand (w_clock w)). split; [apply closing_by_hand |].
      unfold end_session. rewrite (if_truthy_some sid Ht), Hs. cbn [negb].
      rewrite bind_eq, bind_eq.
      destruct (fst (update_session sid _ (snd (now w)))); split; reflexivity.
    - exists (close_by_timer (w_clock w)). split; [apply closing_by_timer |].
      unfold auto_close_session. rewrite bind_eq, bind_eq. split; reflexivity. }
  destruct Hrows as (f & Hcl & Hrows & Hrec). split; [| exact Hrec].
  pose proof (update_of_matches sid f (w_sessions w) Hcl) as Hfil.
  rewrite <- Hrows in Hfil.
  destruct (List.filter (has_session_id sid) (w_sessions w)) as [| r0 rest] eqn:E.
  { destruct Hex as (r & Hin & Hr). exfalso.
    assert (In r (List.filter (has_session_id sid) (w_sessions w))) as Hc.
    { apply filter_In. split; [exact Hin |]. unfold has_session_id.
      rewrite Hr. apply String.eqb_refl. }
    rewrite E in Hc. destruct Hc. }
  cbn in Hfil.
  apply (mark_not_active cfg data w1 sid (f r0) (map f rest) Hm Hs Hid Hf Hfil).
  destruct (Hcl r0) as (-> & _). discriminate.
Qed.

End Refusals.

(** The sample session is ended by hand; Asha's face is then refused. *)
Lemma closed_session_takes_no_marks_witness :
  let w1 := snd (end_session Sample.cfg (Some "session_1000") Sample.world0) in
  fst (mark_attendance_with_duplicate_prevention Sample.cfg (Sample.mark "A") w1)
  = MarkError 400 "Session is not active"
  /\ w_records (snd (mark_attendance_with_duplicate_prevention
                       Sample.cfg (Sample.mark "A") w1)) = [].
Proof.
  cbn zeta.
  destruct (closed_session_takes_no_marks
              (R := Sample.one_hot) Sample.cfg "session_1000" Sample.world0
              (Sample.mark "A") eq_refl eq_refl eq_refl
              ltac:(exists (Sample.session "active" 2200); split;
                    [left; reflexivity | reflexivity])
              eq_refl ltac:(discriminate)
              (snd (end_session Sample.cfg (Some "session_1000") Sample.world0))
              (or_introl eq_refl)) as (H & Hr).
  rewrite H. split; [reflexivity |]. cbn [snd w_records set_log]. exact Hr.
Defined.

(** A call for a session that does not exist. *)
Lemma unknown_session_refused_witness :
  List.filter (has_session_id "session_7") (w_sessions Sample.world0) = []
  /\ fst (end_session Sample.cfg (Some "session_7") Sample.world0)
     = Error 404 "Session not found"
  /\ fst (mark_attendance_with_duplicate_prevention
            Sample.cfg
            {| mr_session_id := Some "session_7"; mr_image := Some "A" |}
            Sample.world0)
     = MarkError 404 "Session not found".
Proof.
  split; [reflexivity |].
  destruct (unknown_session_refused
              (R := Sample.one_hot) Sample.cfg "session_7" Sample.world0
              {| mr_session_id := Some "session_7"; mr_image := Some "A" |}
              eq_refl eq_refl eq_refl eq_refl eq_refl ltac:(discriminate))
    as (_ & (H2 & _) & (H3 & _)).
  split; assumption.
Defined.

(** ** The list of active sessions *)

Section ActiveListing.

Context {R : Recognition}.

(** X16.  A session that [create_session] has just created is offered by
    [get_active_sessions] to a caller that gives no attribute, and the count
    that is returned is the number of sessions listed. *)
Theorem created_session_listed cfg data w doc msg :
  fst (create_session cfg data w) = Created doc msg ->
  exists sessions row,
    get_active_sessions cfg None None None (snd (create_session cfg data w))
    = Listing sessions (Z.of_nat (length sessions))
    /\ In row sessions
    /\ sr_session_id row = sd_session_id doc
    /\ sr_status row = "active".
Proof.
  intros H.
  destruct (create_session_created cfg data w doc msg H)
    as (n & _ & _ & Hid & _ & _ & _ & _ & Hs & _). cbn zeta in Hid, Hs.
  assert (Hc : cfg_supabase cfg = true).
  { revert H. unfold create_session. destruct (cfg_supabase cfg);
      [reflexivity | discriminate]. }
  unfold get_active_sessions. rewrite Hc. cbn [negb]. rewrite Hs.
  lazymatch type of Hs with
  | _ = _ ++ [?r] => eexists; exists r
  end.
  split; [reflexivity |]. split; [| split].
  - apply filter_In. split; [| reflexivity].
    apply filter_In. split; [| reflexivity].
    apply in_or_app. right. left. reflexivity.
  - cbn. now rewrite Hid.
  - reflexivity.
Qed.

(** X17.  A session that was ended by hand or closed by its timer is not among the
    sessions [get_active_sessions] offers, whatever attributes the caller
    gives. *)
Theorem closed_session_not_listed
        cfg sid department year division w w1 sessions count :
  PyStr.truthy (Some sid) = true ->
  w1 = snd (end_session cfg (Some sid) w)
  \/ w1 = snd (auto_close_session sid w) ->
  get_active_sessions cfg department year division w1 = Listing sessions count ->
  Forall (fun r => sr_session_id r <> sid) sessions
  /\ count = Z.of_nat (length sessions).
Proof.
  intros Ht Hw1. unfold get_active_sessions.
  destruct (cfg_supabase cfg) eqn:Hs; [| discriminate]. cbn [negb].
  intros H. inversion H; subst sessions count. clear H.
  split; [| reflexivity].
  assert (Hrows : exists f,
             closing f
             /\ w_sessions w1
                = map (fun r => if has_session_id sid r then f r else r)
                      (w_sessions w)).
  { destruct Hw1 as [-> | ->].
    - exists (close_by_hand (w_clock w)). split; [apply closing_by_hand |].
      unfold end_session. rewrite (if_truthy_some sid Ht), Hs. cbn [negb].
      rewrite bind_eq, bind_eq.
      destruct (fst (update_session sid _ (snd (now w)))); reflexivity.
    - exists (close_by_timer (w_clock w)). split; [apply closing_by_timer |].
      unfold auto_close_session. now rewrite bind_eq, bind_eq. }
  destruct Hrows as (f & Hcl & ->).
  apply List.Forall_forall. intros r Hin Hsid.
  apply filter_In in Hin as [Hin _]. apply filter_In in Hin as [Hin Hact].
  apply in_map_iff in Hin as (r0 & Hr & _).
  destruct (has_session_id sid r0) eqn:E.
  - subst r. destruct (Hcl r0) as (Hst & _). rewrite Hst in Hact. discriminate.
  - subst r. unfold has_session_id in E. rewrite Hsid, String.eqb_refl in E.
    discriminate.
Qed.

End ActiveListing.

(** The sample session is listed after its creation and no longer listed
    after its manual end. *)
Lemma created_session_listed_witness :
  exists sessions,
    get_active_sessions
      Sample.cfg None None None
      (snd (create_session Sample.cfg (Sample.request (DurationInt 20))
                           Sample.empty_world))
    = Listing sessions (Z.of_nat (length sessions))
    /\ map sr_session_id sessions = ["session_1000"].
Proof.
  eassert (E : fst (create_session Sample.cfg (Sample.request (DurationInt 20))
                                   Sample.empty_world) = Created _ _)
    by (vm_compute; reflexivity).
  destruct (created_session_listed _ _ _ _ _ E) as (sessions & row & H & _).
  exists sessions. split; [exact H |].
  vm_compute in H. inversion H. reflexivity.
Defined.

Lemma closed_session_not_listed_witness :
  let w1 := snd (end_session Sample.cfg (Some "session_1000") Sample.world0) in
  get_active_sessions Sample.cfg (Some "CS") None None Sample.world0
  = Listing [Sample.session "active" 2200] 1
  /\ exists sessions count,
      get_active_sessions Sample.cfg (Some "CS") None None w1
      = Listing sessions count
      /\ Forall (fun r => sr_session_id r <> "session_1000") sessions.
Proof.
  cbn zeta. split; [reflexivity |].
  destruct (get_active_sessions
              Sample.cfg (Some "CS") None None
              (snd (end_session Sample.cfg (Some "session_1000") Sample.world0)))
    as [code e | sessions count] eqn:E; [vm_compute in E; discriminate |].
  exists sessions, count. split; [reflexivity |].
  apply (closed_session_not_listed
           (R := Sample.one_hot) Sample.cfg "session_1000" (Some "CS") None None
           Sample.world0 _ sessions count eq_refl (or_introl eq_refl) E).
Defined.

(** ** Records written by a call *)

Section RecordsOfCall.

Context {R : Recognition}.

Lemma unraced_head w :
  unraced w -> ie_race (hd quiet (w_record_env w)) = [].
Proof.
  unfold unraced. destruct (w_record_env w) as [| e l]; [reflexivity |].
  intros H. inversion H. assumption.
Qed.

Lemma insert_record_unraced row w :
  unraced w ->
  let r := insert_record row w in
  unraced (snd r)
  /\ match fst r with
     | Inserted x => x = row /\ w_records (snd r) = w_records w ++ [row]
     | _ => w_records (snd r) = w_records w
     end.
Proof.
  intros Hu. pose proof (unraced_head w Hu) as Hh. cbn zeta.
  assert (Ht : Forall (fun e => ie_race e = []) (tl (w_record_env w))).
  { unfold unraced in Hu. destruct (w_record_env w); [constructor |].
    inversion Hu. assumption. }
  unfold insert_record, bind, logged. cbn. rewrite Hh. cbn.
  destruct (w_unique w && _); [split; [exact Ht | reflexivity] |].
  destruct (ie_fault _); cbn; (split; [exact Ht |]); auto.
Qed.

(** One face, when no concurrent request writes: either it is marked
    present, its student was in neither the dictionary nor the table, and
    exactly its record is appended; or it is not marked present and neither
    the dictionary nor the records change. *)
Lemma process_face_step session_doc students threshold f already w :
  unraced w ->
  let r := process_face session_doc students threshold f already w in
  unraced (snd r)
  /\ ((fr_status (fst (fst r)) = MarkedPresent
       /\ exists best min_d,
           already !! st_student_id best = None
           /\ List.filter (of_pair (sr_id session_doc) (st_student_id best))
                          (w_records w) = []
           /\ snd (fst r)
              = <[st_student_id best :=
                    {| mi_name := st_student_name best;
                       mi_marked_at := Some (w_clock w) |}]> already
           /\ w_records (snd r)
              = w_records w
                ++ [attendance_record session_doc best min_d (w_clock w)])
      \/ (fr_status (fst (fst r)) <> MarkedPresent
          /\ snd (fst r) = already
          /\ w_records (snd r) = w_records w)).
Proof.
  intros Hu. cbn zeta. unfold process_face.
  destruct (extract_embedding_optimized f) as [emb |];
    [| split; [exact Hu | right; repeat split; discriminate]].
  destruct (matched emb students threshold) as [[best |] min_d];
    [| split; [exact Hu | right; repeat split; discriminate]].
  destruct (claim_cases session_doc best min_d f already w)
    as [(info & _ & ->) | [(_ & ->) | (Ha & Hf & ->)]]; cbn [fst snd].
  - split; [exact Hu | right; repeat split; discriminate].
  - split; [exact Hu | right; repeat split; discriminate].
  - set (w1 := snd (select_record (sr_id session_doc) (st_student_id best) w)).
    assert (Hu1 : unraced w1) by exact Hu.
    destruct (insert_record_unraced
                (attendance_record session_doc best min_d (w_clock w)) w1 Hu1)
      as (Hu2 & Hres).
    cbn zeta in Hu2, Hres. split; [exact Hu2 |].
    destruct (fst (insert_record _ w1)) as [x | | msg]; cbn [settle fst snd].
    + left. split; [reflexivity |]. exists best, min_d.
      destruct Hres as [_ Hres]. repeat split; assumption.
    + right. repeat split; [discriminate | exact Hres].
    + right. destruct (constraint_message msg); cbn;
        repeat split; try discriminate; exact Hres.
Qed.

Lemma process_faces_length session_doc students threshold faces :
  forall already w,
    length (fst (process_faces session_doc students threshold faces already w))
    = length faces.
Proof.
  induction faces as [| f faces IH]; intros already w; [reflexivity |].
  cbn [process_faces]. rewrite bind_eq, bind_eq. cbn [ret fst length].
  now rewrite IH.
Qed.

(** The loop over the faces, when no concurrent request writes: the records
    grow by one [present] record of the session per face marked present. *)
Lemma process_faces_records session_doc students threshold faces :
  forall already w,
    unraced w ->
    let r := process_faces session_doc students threshold faces already w in
    unraced (snd r)
    /\ exists added,
        w_records (snd r) = w_records w ++ added
        /\ Z.of_nat (length added) = count_status MarkedPresent (fst r)
        /\ Forall (fun row => ar_status row = "present"
                              /\ ar_session_id row = sr_id session_doc) added.
Proof.
  induction faces as [| f faces IH]; intros already w Hu; cbn zeta.
  - split; [exact Hu |]. exists []. cbn. rewrite app_nil_r. repeat split.
    constructor.
  - cbn [process_faces]. rewrite bind_eq, bind_eq.
    destruct (process_face_step session_doc students threshold f already w Hu)
      as (Hu1 & Hstep).
    set (step := process_face session_doc students threshold f already w) in *.
    destruct (IH (snd (fst step)) (snd step) Hu1) as (Hu2 & added & Hr & Hc & Hall).
    cbn zeta in Hu2, Hr, Hc. cbn [ret fst snd]. split; [exact Hu2 |].
    unfold count_status in *. cbn [List.filter].
    destruct Hstep as [(Hs & best & min_d & _ & _ & _ & Hw)
                      | (Hs & _ & Hw)].
    + exists (attendance_record session_doc best min_d (w_clock w) :: added).
      rewrite Hr, Hw, <- app_assoc. split; [reflexivity |].
      unfold is_status at 1. rewrite Hs. cbn [length]. split; [lia |].
      constructor; [split; reflexivity | exact Hall].
    + exists added. rewrite Hr, Hw. split; [reflexivity |].
      split; [| exact Hall].
      unfold is_status at 1.
      destruct (fr_status (fst (fst step))); try contradiction; exact Hc.
Qed.

(** The ways a call to [/real-mark] can go: it reaches the loop over its
    faces in an active session, or it answers without an entry per face and
    leaves records and insert environment as they were. *)
Lemma mark_attendance_cases cfg data w :
  (exists sid session_doc others,
      cfg_models_ready cfg = true
      /\ cfg_supabase cfg = true
      /\ if_truthy (mr_session_id data) = Some sid
      /\ faces_of data <> []
      /\ List.filter (has_session_id sid) (w_sessions w) = session_doc :: others
      /\ sr_status session_doc = "active")
  \/ ((forall sid results totals,
          fst (mark_attendance_with_duplicate_prevention cfg data w)
          <> Marked sid results totals)
      /\ w_records (snd (mark_attendance_with_duplicate_prevention cfg data w))
         = w_records w
      /\ w_record_env (snd (mark_attendance_with_duplicate_prevention cfg data w))
         = w_record_env w).
Proof.
  unfold mark_attendance_with_duplicate_prevention, faces_of.
  destruct (cfg_models_ready cfg); [| right; repeat split; discriminate].
  destruct (cfg_supabase cfg); [| right; repeat split; discriminate].
  cbn [negb].
  destruct (if_truthy (mr_session_id data)) as [sid |];
    [| right; repeat split; discriminate].
  destruct (if_truthy (mr_image data)) as [image |];
    [| right; repeat split; discriminate].
  destruct (image_faces image) as [[| f faces] |];
    try (right; repeat split; discriminate).
  rewrite bind_eq.
  destruct (fst (select_session sid w)) as [| session_doc others] eqn:E;
    [right; repeat split; discriminate |].
  destruct (String.eqb_spec (sr_status session_doc) "active") as [A | A];
    [| right; repeat split; discriminate].
  left. exists sid, session_doc, others. repeat split; auto; discriminate.
Qed.

(** X18.  When no concurrent request writes, a call that answers with entries has
    appended one record per face it reports as marked present, each of
    status [present] and of the session the call names, and nothing else;
    a record is never removed or changed. *)
Theorem marked_faces_are_the_new_records cfg data w sid results totals :
  unraced w ->
  fst (mark_attendance_with_duplicate_prevention cfg data w)
  = Marked sid results totals ->
  exists session_doc added,
    In session_doc (w_sessions w)
    /\ sr_session_id session_doc = sid
    /\ w_records (snd (mark_attendance_with_duplicate_prevention cfg data w))
       = w_records w ++ added
    /\ Z.of_nat (length added) = successful_markings totals
    /\ Forall (fun row => ar_status row = "present"
                          /\ ar_session_id row = sr_id session_doc) added.
Proof.
  intros Hu H.
  destruct (mark_attendance_cases cfg data w)
    as [(sid' & session_doc & others & Hm & Hs & Hid & Hf & Hsess & Hact)
       | (Hno & _)]; [| exfalso; exact (Hno _ _ _ H)].
  rewrite (mark_attendance_loop cfg data w sid' session_doc others
                                Hm Hs Hid Hf Hsess Hact) in H |- *.
  cbn [fst snd] in H |- *. inversion H; subst. clear H.
  match goal with
  | |- context [process_faces ?s ?st ?t ?fs ?a ?v] =>
      destruct (process_faces_records s st t fs a v Hu)
        as (_ & added & Hr & Hc & Hall)
  end.
  exists session_doc, added.
  assert (Hin : In session_doc (List.filter (has_session_id sid) (w_sessions w)))
    by (rewrite Hsess; now left).
  apply filter_In in Hin as [Hin Hsid].
  split; [exact Hin |]. split; [now apply String.eqb_eq in Hsid |].
  split; [exact Hr |]. split; [exact Hc | exact Hall].
Qed.

End RecordsOfCall.

(** ** No second record for a pair *)

Section AtMostOnce.

Context {R : Recognition}.

Lemma records_of_app session id rows extra :
  records_of session id (rows ++ extra)
  = (records_of session id rows + records_of session id extra)%nat.
Proof. unfold records_of. now rewrite List.filter_app, length_app. Qed.

Lemma records_of_nil session id rows :
  List.filter (of_pair session id) rows = [] -> records_of session id rows = 0%nat.
Proof. unfold records_of. now intros ->. Qed.

Lemma records_of_single session id row :
  records_of session id [row] = if of_pair session id row then 1%nat else 0%nat.
Proof. unfold records_of. cbn. destruct (of_pair session id row); reflexivity. Qed.

Lemma already_present_covers session rows :
  covers session (already_present (List.filter (of_session session) rows)) rows.
Proof.
  intros id Hnone. unfold records_of.
  destruct (List.filter (of_pair session id) rows) as [| r l] eqn:E;
    [reflexivity |].
  exfalso.
  destruct (marked_has_student session id rows) as [x Hx].
  - exists r. apply filter_In. rewrite E. now left.
  - congruence.
Qed.

Lemma process_faces_at_most_once session_doc students threshold faces :
  forall already w,
    unraced w ->
    covers (sr_id session_doc) already (w_records w) ->
    forall session id,
      (records_of session id
                  (w_records (snd (process_faces session_doc students threshold
                                                 faces already w)))
       <= Nat.max (records_of session id (w_records w)) 1)%nat.
Proof.
  induction faces as [| f faces IH]; intros already w Hu Hcov session id.
  - cbn. lia.
  - cbn [process_faces]. rewrite bind_eq, bind_eq. cbn [ret snd].
    destruct (process_face_step session_doc students threshold f already w Hu)
      as (Hu1 & Hstep).
    set (step := process_face session_doc students threshold f already w) in *.
    destruct Hstep as [(_ & best & min_d & Ha & Hf & Hd & Hw) | (_ & Hd & Hw)].
    + assert (Hcov1 : covers (sr_id session_doc) (snd (fst step))
                             (w_records (snd step))).
      { intros i Hi. rewrite Hd in Hi. rewrite Hw, records_of_app.
        destruct (decide (st_student_id best = i)) as [<- | Hne].
        - rewrite lookup_insert_eq in Hi. discriminate.
        - rewrite lookup_insert_ne in Hi by exact Hne.
          rewrite (Hcov i Hi). unfold records_of. cbn.
          unfold of_pair, attendance_record. cbn.
          destruct (String.eqb_spec (st_student_id best) i); [contradiction |].
          now rewrite andb_false_r. }
      specialize (IH _ _ Hu1 Hcov1 session id).
      rewrite Hw, records_of_app, records_of_single in IH.
      destruct (of_pair session id
                        (attendance_record session_doc best min_d (w_clock w)))
        eqn:P; [| lia].
      destruct (of_pair_eq _ _ _ P) as [Hs Hi]. cbn in Hs, Hi. subst.
      rewrite (records_of_nil _ _ _ Hf) in IH |- *. lia.
    + assert (Hcov1 : covers (sr_id session_doc) (snd (fst step))
                             (w_records (snd step)))
        by (rewrite Hd, Hw; exact Hcov).
      specialize (IH _ _ Hu1 Hcov1 session id). rewrite Hw in IH. exact IH.
Qed.

Lemma mark_attendance_unraced cfg data w :
  unraced w -> unraced (snd (mark_attendance_with_duplicate_prevention cfg data w)).
Proof.
  intros Hu.
  destruct (mark_attendance_cases cfg data w)
    as [(sid & session_doc & others & Hm & Hs & Hid & Hf & Hsess & Hact)
       | (_ & _ & He)].
  - rewrite (mark_attendance_loop cfg data w sid session_doc others
                                  Hm Hs Hid Hf Hsess Hact). cbn [snd].
    match goal with
    | |- context [process_faces ?s ?st ?t ?fs ?a ?v] =>
        apply (process_faces_records s st t fs a v Hu)
    end.
  - unfold unraced. rewrite He. exact Hu.
Qed.

Lemma mark_attendance_at_most_once cfg data w session id :
  unraced w ->
  (records_of session id
              (w_records (snd (mark_attendance_with_duplicate_prevention
                                 cfg data w)))
   <= Nat.max (records_of session id (w_records w)) 1)%nat.
Proof.
  intros Hu.
  destruct (mark_attendance_cases cfg data w)
    as [(sid & session_doc & others & Hm & Hs & Hid & Hf & Hsess & Hact)
       | (_ & Hr & _)].
  - rewrite (mark_attendance_loop cfg data w sid session_doc others
                                  Hm Hs Hid Hf Hsess Hact). cbn [snd].
    apply (process_faces_at_most_once
             session_doc (candidates w) (cfg_threshold cfg) (faces_of data)
             _ (set_log w (w_log w ++ reads sid (sr_id session_doc))) Hu).
    apply already_present_covers.
  - rewrite Hr. lia.
Qed.

(** X19.  Whatever calls are served one after the other, with whatever faces and
    whatever faults of the inserts, as long as no concurrent request writes:
    a pair (session, student) that had no record ends with at most one, and a
    pair that had records ends with as many as it had. *)
Theorem calls_never_duplicate_a_record cfg calls w session id :
  unraced w ->
  (records_of session id (w_records (snd (submit_all cfg calls w)))
   <= Nat.max (records_of session id (w_records w)) 1)%nat
  /\ (records_of session id (w_records w)
      <= records_of session id (w_records (snd (submit_all cfg calls w))))%nat.
Proof.
  revert w. induction calls as [| data calls IH]; intros w Hu.
  - cbn. lia.
  - cbn [submit_all]. rewrite bind_eq, bind_eq. cbn [ret snd].
    pose proof (mark_attendance_at_most_once cfg data w session id Hu) as H1.
    pose proof (mark_attendance_unraced cfg data w Hu) as Hu1.
    destruct (IH _ Hu1) as (H2 & H3).
    assert (H0 : (records_of session id (w_records w)
                  <= records_of session id
                       (w_records (snd (mark_attendance_with_duplicate_prevention
                                          cfg data w))))%nat).
    { destruct (mark_attendance_cases cfg data w)
        as [(sid & session_doc & others & Hm & Hs & Hid & Hf & Hsess & Hact)
           | (_ & Hr & _)]; [| rewrite Hr; lia].
      rewrite (mark_attendance_loop cfg data w sid session_doc others
                                    Hm Hs Hid Hf Hsess Hact). cbn [snd].
      match goal with
      | |- context [process_faces ?s ?st ?t ?fs ?a ?v] =>
          destruct (process_faces_records s st t fs a v Hu)
            as (_ & added & -> & _)
      end.
      rewrite records_of_app. cbn [w_records set_log]. lia. }
    lia.
Qed.

End AtMostOnce.

(** Asha's face again and again, while the first insert fails with a
    timeout and the second returns no row: one record in the end. *)
Lemma calls_never_duplicate_a_record_witness :
  let w := set_record_env
             Sample.world0
             [{| ie_race := []; ie_fault := Fails "timeout" |};
              {| ie_race := []; ie_fault := ReturnsNothing |}] in
  let calls := [Sample.mark "AB"; Sample.mark "A"; Sample.mark "AA";
                Sample.mark "BA"] in
  unraced w
  /\ records_of 0 "S001" (w_records w) = 0%nat
  /\ (records_of 0 "S001" (w_records (snd (submit_all Sample.cfg calls w))) <= 1)%nat.
Proof.
  cbn zeta.
  assert (Hu : unraced (set_record_env
                          Sample.world0
                          [{| ie_race := []; ie_fault := Fails "timeout" |};
                           {| ie_race := []; ie_fault := ReturnsNothing |}]))
    by (repeat constructor).
  split; [exact Hu |]. split; [reflexivity |].
  apply (calls_never_duplicate_a_record
           (R := Sample.one_hot) Sample.cfg
           [Sample.mark "AB"; Sample.mark "A"; Sample.mark "AA"; Sample.mark "BA"]
           _ 0%nat "S001" Hu).
Defined.

(** Asha and Binod in one image, Asha's insert failing: one of two matched
    faces is marked present and one record is appended. *)
Lemma marked_faces_are_the_new_records_witness :
  let w := set_record_env Sample.world0
                          [{| ie_race := []; ie_fault := Fails "timeout" |}] in
  let r := mark_attendance_with_duplicate_prevention
             Sample.cfg (Sample.mark "AB") w in
  unraced w
  /\ statuses (fst r) = [FaceError; MarkedPresent]
  /\ exists added,
      w_records (snd r) = w_records w ++ added
      /\ length added = 1%nat.
Proof.
  cbn zeta.
  assert (Hu : unraced (set_record_env
                          Sample.world0
                          [{| ie_race := []; ie_fault := Fails "timeout" |}]))
    by (repeat constructor).
  split; [exact Hu |]. split; [vm_compute; reflexivity |].
  eassert (E : fst (mark_attendance_with_duplicate_prevention
                      Sample.cfg (Sample.mark "AB")
                      (set_record_env
                         Sample.world0
                         [{| ie_race := []; ie_fault := Fails "timeout" |}]))
               = Marked _ _ _) by (vm_compute; reflexivity).
  destruct (marked_faces_are_the_new_records
              (R := Sample.one_hot) _ _ _ _ _ _ Hu E)
    as (session_doc & added & _ & _ & Hr & Hc & _).
  exists added. split; [exact Hr |]. cbn in Hc. lia.
Defined.

(** ** Entries and totals of a response *)

Section Totals.

Context {R : Recognition}.

Lemma count_status_cons s r l :
  count_status s (r :: l)
  = (if is_status s r then 1 else 0) + count_status s l.
Proof.
  unfold count_status. cbn [List.filter].
  destruct (is_status s r); cbn [length]; lia.
Qed.

Lemma status_partition results :
  Z.of_nat (length results)
  = count_status MarkedPresent results + count_status Duplicate results
    + count_status NoMatch results + count_status FaceError results.
Proof.
  induction results as [| r l IH]; [reflexivity |].
  rewrite !count_status_cons. cbn [length]. unfold is_status.
  destruct (fr_status r); lia.
Qed.

Lemma process_faces_boxes session_doc students threshold faces :
  forall already w,
    map fr_box (fst (process_faces session_doc students threshold faces
                                   already w))
    = map face_box faces.
Proof.
  induction faces as [| f faces IH]; intros a v; [reflexivity |].
  cbn [process_faces]. rewrite bind_eq, bind_eq. cbn [ret fst map].
  rewrite IH. f_equal.
  unfold process_face.
  destruct (extract_embedding_optimized f) as [emb |]; [| reflexivity].
  destruct (matched emb students threshold) as [[best |] d]; [| reflexivity].
  destruct (claim_cases session_doc best d f a v)
    as [(info & _ & ->) | [(_ & ->) | (_ & _ & ->)]]; cbn [fst];
    try reflexivity.
  destruct (fst (insert_record _ _)) as [x | | msg]; cbn; try reflexivity.
  destruct (constraint_message msg); reflexivity.
Qed.

(** X20.  A response with entries has one entry per detected face, in the order of
    the faces; its totals count the faces, the entries marked present and
    the duplicates, and [no_matches] is the number of the remaining entries,
    those of status [no_match] and [error] together. *)
Theorem response_totals cfg data w sid results totals :
  fst (mark_attendance_with_duplicate_prevention cfg data w)
  = Marked sid results totals ->
  length results = length (faces_of data)
  /\ map fr_box results = map face_box (faces_of data)
  /\ total_faces totals = Z.of_nat (length results)
  /\ successful_markings totals = count_status MarkedPresent results
  /\ duplicate_attempts totals = count_status Duplicate results
  /\ no_matches totals
     = count_status NoMatch results + count_status FaceError results.
Proof.
  intros H.
  destruct (mark_attendance_cases cfg data w)
    as [(sid' & session_doc & others & Hm & Hs & Hid & Hf & Hsess & Hact)
       | (Hno & _)]; [| exfalso; exact (Hno _ _ _ H)].
  rewrite (mark_attendance_loop cfg data w sid' session_doc others
                                Hm Hs Hid Hf Hsess Hact) in H.
  cbn [fst] in H. inversion H as [[Hsid Hres Htot]]. clear H.
  rewrite Hres.
  assert (Hlen : length results = length (faces_of data))
    by (rewrite <- Hres; apply process_faces_length).
  split; [exact Hlen |]. split.
  - rewrite <- Hres. apply process_faces_boxes.
  - unfold summarize. cbn. rewrite <- Hlen.
    pose proof (status_partition results). repeat split; lia.
Qed.

Lemma process_faces_unmatched session_doc students threshold faces :
  Forall (fun f => resolved students threshold f = None) faces ->
  forall already w,
    let r := process_faces session_doc students threshold faces already w in
    map fr_status (fst r) = map unmatched_status faces
    /\ Forall (fun e => fr_match e = None) (fst r)
    /\ snd r = w.
Proof.
  induction 1 as [| f faces Hf _ IH]; intros already w; cbn zeta.
  - repeat split. constructor.
  - cbn [process_faces]. rewrite bind_eq, bind_eq.
    assert (Hstep : process_face session_doc students threshold f already w
                    = ((fst (fst (process_face session_doc students threshold
                                               f already w)), already), w)
                      /\ fr_status (fst (fst (process_face
                                                session_doc students threshold
                                                f already w)))
                         = unmatched_status f
                      /\ fr_match (fst (fst (process_face
                                               session_doc students threshold
                                               f already w))) = None).
    { unfold process_face, unmatched_status. unfold resolved in Hf.
      destruct (extract_embedding_optimized f) as [emb |];
        [| repeat split].
      destruct (matched emb students threshold) as [[best |] d];
        [discriminate | repeat split]. }
    destruct Hstep as (Hp & Hs & Hm). rewrite Hp. cbn [fst snd ret].
    destruct (IH already w) as (H1 & H2 & H3). cbn zeta in H1, H2, H3.
    rewrite Hp in Hs, Hm. cbn [fst] in Hs, Hm.
    cbn [map]. rewrite H1, Hs. repeat split; [constructor; assumption | exact H3].
Qed.

(** X21.  A call none of whose faces is matched to a student (each is farther
    than the threshold from every stored embedding, or yields no embedding)
    answers [no_match], or [error], for each face without a match in the
    entry, sends only the three reads to the store and leaves the
    attendance records as they were. *)
Theorem unmatched_faces_leave_no_record cfg data w sid session_doc others :
  cfg_models_ready cfg = true ->
  cfg_supabase cfg = true ->
  if_truthy (mr_session_id data) = Some sid ->
  faces_of data <> [] ->
  List.filter (has_session_id sid) (w_sessions w) = session_doc :: others ->
  sr_status session_doc = "active" ->
  Forall (fun f => resolved (candidates w) (cfg_threshold cfg) f = None)
         (faces_of data) ->
  let r := mark_attendance_with_duplicate_prevention cfg data w in
  statuses (fst r) = map unmatched_status (faces_of data)
  /\ snd r = set_log w (w_log w ++ reads sid (sr_id session_doc))
  /\ w_records (snd r) = w_records w.
Proof.
  intros Hm Hs Hid Hf Hsess Hact Hall. cbn zeta.
  rewrite (mark_attendance_loop cfg data w sid session_doc others
                                Hm Hs Hid Hf Hsess Hact).
  match goal with
  | |- context [process_faces ?s ?st ?t ?fs ?a ?v] =>
      destruct (process_faces_unmatched s st t fs Hall a v) as (H1 & _ & H3)
  end.
  cbn zeta in H1, H3. cbn [fst snd statuses]. rewrite H1, H3.
  repeat split.
Qed.

(** X22.  The dictionary of the students already present holds exactly the
    enrollment ids that occur in the records it is built from, and the
    entry of an id carries the name and time of one of its records. *)
Theorem already_present_keys marked id :
  (is_Some (already_present marked !! id)
   <-> exists r, In r marked /\ ar_student_enrollment r = id)
  /\ (forall info,
         already_present marked !! id = Some info ->
         exists r, In r marked
                   /\ ar_student_enrollment r = id
                   /\ mi_name info = ar_student_name r
                   /\ mi_marked_at info = Some (ar_marked_at r)).
Proof.
  assert (G : forall (m : gmap string marked_info) info,
             fold_left
               (fun m record =>
                  <[ar_student_enrollment record :=
                      {| mi_name := ar_student_name record;
                         mi_marked_at := Some (ar_marked_at record) |}]> m)
               marked m !! id = Some info ->
             m !! id = Some info
             \/ exists r, In r marked
                          /\ ar_student_enrollment r = id
                          /\ mi_name info = ar_student_name r
                          /\ mi_marked_at info = Some (ar_marked_at r)).
  { induction marked as [| r marked IH]; intros m info H; cbn in H;
      [now left |].
    destruct (IH _ _ H) as [Hm | (x & Hin & Hx)].
    - destruct (decide (ar_student_enrollment r = id)) as [He | Hne].
      + rewrite He, lookup_insert_eq in Hm. inversion Hm; subst info.
        right. exists r. repeat split; auto. now left.
      + rewrite lookup_insert_ne in Hm by exact Hne. now left.
    - right. exists x. split; [now right | exact Hx]. }
  split; [split |].
  - intros [info Hi]. destruct (G ∅ info Hi) as [He | (r & Hin & Hr & _)].
    + rewrite lookup_empty in He. discriminate.
    + eauto.
  - intros Hex. apply already_present_from. now right.
  - intros info Hi. destruct (G ∅ info Hi) as [He | Hr]; [| exact Hr].
    rewrite lookup_empty in He. discriminate.
Qed.

End Totals.

(** Four faces in one image: Asha, Binod, one without embedding, one
    unknown. *)
Lemma response_totals_witness :
  exists results totals,
    fst (mark_attendance_with_duplicate_prevention
           Sample.cfg (Sample.mark "AB?Z") Sample.world0)
    = Marked "session_1000" results totals
    /\ length results = 4%nat
    /\ total_faces totals = 4
    /\ no_matches totals = 2.
Proof.
  eassert (E : fst (mark_attendance_with_duplicate_prevention
                      Sample.cfg (Sample.mark "AB?Z") Sample.world0)
               = Marked _ _ _) by (vm_compute; reflexivity).
  destruct (response_totals (R := Sample.one_hot) _ _ _ _ _ _ E)
    as (Hl & _ & Ht & _ & _ & Hn).
  do 2 eexists. split; [exact E |]. split; [exact Hl |].
  split; [exact Ht | exact Hn].
Defined.

(** An unknown face and a face without embedding, in the sample session. *)
Lemma unmatched_faces_leave_no_record_witness :
  let r := mark_attendance_with_duplicate_prevention
             Sample.cfg (Sample.mark "Z?") Sample.world0 in
  Forall (fun f => resolved (R := Sample.one_hot)
                            (candidates Sample.world0) f0_6 f = None)
         (faces_of (R := Sample.one_hot) (Sample.mark "Z?"))
  /\ statuses (fst r) = [NoMatch; FaceError]
  /\ w_records (snd r) = [].
Proof.
  cbn zeta.
  assert (Hall : Forall (fun f => resolved (R := Sample.one_hot)
                                           (candidates Sample.world0) f0_6 f
                                  = None)
                        (faces_of (R := Sample.one_hot) (Sample.mark "Z?")))
    by (repeat constructor).
  split; [exact Hall |].
  destruct (unmatched_faces_leave_no_record
              (R := Sample.one_hot) Sample.cfg (Sample.mark "Z?") Sample.world0
              "session_1000" (Sample.session "active" 2200) []
              eq_refl eq_refl eq_refl ltac:(discriminate) eq_refl eq_refl Hall)
    as (H1 & _ & H3).
  split; [exact H1 | exact H3].
Defined.
